(** * Authentication and resource ownership of the portfolio API

    A shallow embedding of the authentication core of the portfolio
    backend: the Mongoose [User] model (models/User.js), the token and
    ownership middleware (middleware/auth.js) and the route handlers of
    routes/auth.js.

    Conventions.
    - Dates are milliseconds since the epoch, in [Z]; a nullable field is an
      [option].
    - The users collection is a finite map from [_id] to document, so that
      [_id] is a key, as in MongoDB.
    - A handler is a state-passing function over a [World]: the users
      collection, the wall clock, the random source and the ObjectId
      generator.  Every [Date.now()] of the source is one reading of the
      clock, and the clock never runs backwards.
    - bcryptjs, the crypto hash, jsonwebtoken and the schema validators are
      outside the repository; they are the fields of the [Platform] class.
    - A string is 8-bit text; upper case, lower case and white space are
      those of ASCII. *)

From Stdlib Require Import ZArith NArith String Ascii List Bool Lia.
From stdpp Require Import gmap strings.
Import ListNotations.

Local Open Scope string_scope.
Local Open Scope Z_scope.

(** ** Data model *)

Definition ObjectId := N.

Inductive Role := RoleAdmin | RoleUser.

#[global] Instance Role_eq_dec : EqDecision Role.
Proof. solve_decision. Defined.

(** The fields of [userSchema] without [_id], which is the key of the
    collection.  [loginAttempts] absent from the stored document reads as its
    default [0]. *)
Record User := mkUser {
  email : string;
  password : string;
  name : string;
  role : Role;
  isActive : bool;
  isVerified : bool;
  verifyToken : option string;
  verifyExpires : option Z;
  lastVerificationSent : option Z;
  lastLogin : option Z;
  loginAttempts : Z;
  lockUntil : option Z
}.

Definition set_password (v : string) (u : User) : User :=
  mkUser (email u) v (name u) (role u) (isActive u) (isVerified u)
    (verifyToken u) (verifyExpires u) (lastVerificationSent u) (lastLogin u)
    (loginAttempts u) (lockUntil u).

Definition set_isVerified (v : bool) (u : User) : User :=
  mkUser (email u) (password u) (name u) (role u) (isActive u) v
    (verifyToken u) (verifyExpires u) (lastVerificationSent u) (lastLogin u)
    (loginAttempts u) (lockUntil u).

Definition set_verifyToken (v : option string) (u : User) : User :=
  mkUser (email u) (password u) (name u) (role u) (isActive u) (isVerified u)
    v (verifyExpires u) (lastVerificationSent u) (lastLogin u)
    (loginAttempts u) (lockUntil u).

Definition set_verifyExpires (v : option Z) (u : User) : User :=
  mkUser (email u) (password u) (name u) (role u) (isActive u) (isVerified u)
    (verifyToken u) v (lastVerificationSent u) (lastLogin u)
    (loginAttempts u) (lockUntil u).

Definition set_lastVerificationSent (v : option Z) (u : User) : User :=
  mkUser (email u) (password u) (name u) (role u) (isActive u) (isVerified u)
    (verifyToken u) (verifyExpires u) v (lastLogin u)
    (loginAttempts u) (lockUntil u).

Definition set_lastLogin (v : option Z) (u : User) : User :=
  mkUser (email u) (password u) (name u) (role u) (isActive u) (isVerified u)
    (verifyToken u) (verifyExpires u) (lastVerificationSent u) v
    (loginAttempts u) (lockUntil u).

Definition set_loginAttempts (v : Z) (u : User) : User :=
  mkUser (email u) (password u) (name u) (role u) (isActive u) (isVerified u)
    (verifyToken u) (verifyExpires u) (lastVerificationSent u) (lastLogin u)
    v (lockUntil u).

Definition set_lockUntil (v : option Z) (u : User) : User :=
  mkUser (email u) (password u) (name u) (role u) (isActive u) (isVerified u)
    (verifyToken u) (verifyExpires u) (lastVerificationSent u) (lastLogin u)
    (loginAttempts u) v.

Definition set_email (v : string) (u : User) : User :=
  mkUser v (password u) (name u) (role u) (isActive u) (isVerified u)
    (verifyToken u) (verifyExpires u) (lastVerificationSent u) (lastLogin u)
    (loginAttempts u) (lockUntil u).

Definition set_name (v : string) (u : User) : User :=
  mkUser (email u) (password u) v (role u) (isActive u) (isVerified u)
    (verifyToken u) (verifyExpires u) (lastVerificationSent u) (lastLogin u)
    (loginAttempts u) (lockUntil u).

(** ** The setters of the schema

    [email] is declared [lowercase: true, trim: true] and [name] is declared
    [trim: true].  Mongoose runs these setters wherever a value is cast to
    the path: in [new User(...)], in an assignment to a document, in the
    update of [findByIdAndUpdate], and in the filter of a query. *)

(** White space as [String.prototype.trim] sees it: tab, line feed, vertical
    tab, form feed, carriage return and blank. *)
Definition is_blank (c : ascii) : bool :=
  let n := nat_of_ascii c in
  Nat.eqb n 32 || (Nat.leb 9 n && Nat.leb n 13).

Fixpoint trimStart (s : string) : string :=
  match s with
  | EmptyString => EmptyString
  | String c rest => if is_blank c then trimStart rest else s
  end.

Fixpoint trimEnd (s : string) : string :=
  match s with
  | EmptyString => EmptyString
  | String c rest =>
    match trimEnd rest with
    | EmptyString => if is_blank c then EmptyString else String c EmptyString
    | kept => String c kept
    end
  end.

(** [s.trim()] *)
Definition trim (s : string) : string := trimEnd (trimStart s).

Definition lower_char (c : ascii) : ascii :=
  let n := nat_of_ascii c in
  if Nat.leb 65 n && Nat.leb n 90 then ascii_of_nat (n + 32) else c.

(** [s.toLowerCase()] *)
Fixpoint toLowerCase (s : string) : string :=
  match s with
  | EmptyString => EmptyString
  | String c rest => String (lower_char c) (toLowerCase rest)
  end.

(** A value cast to the [email] path, and to the [name] path *)
Definition cast_email (v : string) : string := toLowerCase (trim v).

Definition cast_name (v : string) : string := trim v.

(** [new User({ name, email, password, role, isVerified })]: [name] and
    [email] go through their setters, the remaining paths take their schema
    defaults. *)
Definition new_User (nm mail pw : string) (r : Role) (verified : bool) : User :=
  mkUser (cast_email mail) pw (cast_name nm) r true verified None None None
    None 0 None.

(** [process.env], restricted to the variables the modelled code reads.
    [RESEND_COOLDOWN_SECONDS] is kept as the integer it denotes. *)
Record Env := mkEnv {
  JWT_SECRET : option string;
  JWT_EXPIRES_IN : option string;
  NODE_ENV : option string;
  RESEND_COOLDOWN_SECONDS : option Z;
  ADMIN_EMAIL : option string;
  ADMIN_PASSWORD : option string
}.

(** JavaScript truthiness of a possibly missing string, and [a || b]. *)
Definition truthy (o : option string) : bool :=
  match o with
  | Some s => negb (bool_decide (s = ""))
  | None => false
  end.

Arguments truthy : simpl never.
Arguments cast_email : simpl never.
Arguments cast_name : simpl never.

Definition js_or (a b : option string) : option string :=
  if truthy a then a else b.

Definition or_default (a : option string) (d : string) : string :=
  match a with
  | Some s => if bool_decide (s = "") then d else s
  | None => d
  end.

(** ** The world a request runs in *)

Record World := mkWorld {
  users : gmap ObjectId User;
  clock : Z;                (* what the next [Date.now()] returns *)
  drift : list N;           (* how far the clock moves after each reading *)
  entropy : list string;    (* outcomes of the random source still to come *)
  nextId : ObjectId         (* the ObjectId the next [new User] receives *)
}.

Definition M (A : Type) : Type := World -> A * World.

Definition ret {A} (a : A) : M A := fun w => (a, w).

Definition bind {A B} (c : M A) (k : A -> M B) : M B :=
  fun w => let (a, w') := c w in k a w'.

Notation "'let*' x ':=' c 'in' k" := (bind c (fun x => k))
  (at level 10, x pattern, c at level 100, k at level 200).

Definition set_users (m : gmap ObjectId User) (w : World) : World :=
  mkWorld m (clock w) (drift w) (entropy w) (nextId w).

(** [Date.now()] / [new Date()] *)
Definition Date_now : M Z := fun w =>
  (clock w,
   mkWorld (users w) (clock w + Z.of_N (hd 0%N (drift w))) (tl (drift w))
     (entropy w) (nextId w)).

(** One draw from the random source, as hex text:
    [crypto.randomBytes(32).toString("hex")], [bcrypt.genSalt(12)]. *)
Definition random_hex : M string := fun w =>
  (hd "" (entropy w),
   mkWorld (users w) (clock w) (drift w) (tl (entropy w)) (nextId w)).

(** The [_id] given to a document by [new User(...)]. *)
Definition new_ObjectId : M ObjectId := fun w =>
  (nextId w,
   mkWorld (users w) (clock w) (drift w) (entropy w) (N.succ (nextId w))).

(** ** The users collection *)

(** A stored document holds this value in its [email] path. *)
Definition has_email (mail : string) (d : ObjectId * User) : bool :=
  bool_decide (email (snd d) = mail).

Definition has_role (r : Role) (d : ObjectId * User) : bool :=
  bool_decide (role (snd d) = r).

(** The unique index on [email]: the document that holds a value, and the
    document other than [uid] that holds it. *)
Definition email_index (m : gmap ObjectId User) (mail : string)
  : option (ObjectId * User) :=
  find (has_email mail) (map_to_list m).

Definition email_index_other (m : gmap ObjectId User) (mail : string)
    (uid : ObjectId) : option (ObjectId * User) :=
  find (fun d => has_email mail d && negb (bool_decide (fst d = uid)))
    (map_to_list m).

(** [User.findOne({ email })], [User.findOne({ role })],
    [User.findOne({ email, role })],
    [User.findOne({ email, _id: { $ne: userId } })] and [User.findById(id)].
    The [email] of a filter is cast to the path before the comparison. *)
Definition findOne_email (m : gmap ObjectId User) (mail : string)
  : option (ObjectId * User) :=
  email_index m (cast_email mail).

Definition findOne_role (m : gmap ObjectId User) (r : Role)
  : option (ObjectId * User) :=
  find (has_role r) (map_to_list m).

Definition findOne_email_role (m : gmap ObjectId User) (mail : string) (r : Role)
  : option (ObjectId * User) :=
  find (fun d => has_email (cast_email mail) d && has_role r d) (map_to_list m).

Definition findOne_email_other (m : gmap ObjectId User) (mail : string)
    (uid : ObjectId) : option (ObjectId * User) :=
  email_index_other m (cast_email mail) uid.

Definition User_findOne_email (mail : string) : M (option (ObjectId * User)) :=
  fun w => (findOne_email (users w) mail, w).

Definition User_findOne_role (r : Role) : M (option (ObjectId * User)) :=
  fun w => (findOne_role (users w) r, w).

Definition User_findOne_email_role (mail : string) (r : Role)
  : M (option (ObjectId * User)) :=
  fun w => (findOne_email_role (users w) mail r, w).

Definition User_findById (id : ObjectId) : M (option User) :=
  fun w => (users w !! id, w).

(** [this.updateOne(update)]: the update operators act on the stored
    document with the [_id] of [this]. *)
Definition updateOne (id : ObjectId) (f : User -> User) : M unit :=
  fun w => (tt, set_users (alter f id (users w)) w).

(** [doc.save()] on a document loaded from the collection whose password is
    untouched: the pre-save hook returns at once and the changed paths are
    written back. *)
Definition save (id : ObjectId) (doc : User) : M unit :=
  fun w => (tt, set_users (alter (fun _ => doc) id (users w)) w).

(** ** Collaborators outside the repository *)

(** What [jwt.verify] hands back: the decoded payload, or a thrown error
    identified by its [name]. *)
Record JwtPayload := mkJwtPayload {
  jwt_userId : option ObjectId;
  jwt_exp : Z
}.

Inductive JwtOutcome :=
| JwtDecoded (decoded : JwtPayload)
| JwtThrows (errorName : string).

Class Platform := {
  (* crypto.createHash("sha256").update(s).digest("hex") *)
  sha256_hex : string -> string;
  (* bcrypt.hash(password, salt) and bcrypt.compare(candidate, hash) *)
  bcrypt_hash : string -> string -> string;
  bcrypt_compare : string -> string -> bool;
  (* the validators of userSchema, run by save() on a new document *)
  schema_valid : User -> bool;
  (* jwt.sign({ userId }, secret, { expiresIn, issuer, audience }) at a clock
     reading; None when it throws *)
  jwt_sign : ObjectId -> option string -> string -> string -> string -> Z
             -> option string;
  (* jwt.verify(token, secret) at a clock reading *)
  jwt_verify : string -> option string -> Z -> JwtOutcome;
  (* the number of seconds an expiresIn text stands for *)
  jwt_seconds : string -> Z
}.

(** The part of jsonwebtoken's contract the routes rely on: a token is compact
    text without blanks, and a token signed under a secret verifies under the
    same secret, with the signed [userId], for as long as the clock (in whole
    seconds) stays below its expiry. *)
Class JwtContract (P : Platform) : Prop := {
  jwt_sign_verify :
    forall uid secret expiresIn iss aud t tok t',
      jwt_sign uid secret expiresIn iss aud t = Some tok ->
      t' / 1000 < t / 1000 + jwt_seconds expiresIn ->
      exists d, jwt_verify tok secret t' = JwtDecoded d /\ jwt_userId d = Some uid;
  jwt_sign_compact :
    forall uid secret expiresIn iss aud t tok,
      jwt_sign uid secret expiresIn iss aud t = Some tok ->
      tok <> "" /\ ~ In " "%char (list_ascii_of_string tok)
}.

(** ** HTTP replies *)

(** The public projection of a user that the handlers put in a reply. *)
Record UserView := mkUserView {
  view_id : ObjectId;
  view_name : string;
  view_email : string;
  view_role : Role;
  view_isVerified : bool
}.

Definition view_of (id : ObjectId) (u : User) : UserView :=
  mkUserView id (name u) (email u) (role u) (isVerified u).

(** The fields of a JSON body that carry data; the human-readable [message]
    is left out. *)
Record JsonBody := mkBody {
  error : option string;
  token : option string;
  retryAfter : option Z;
  body_lockUntil : option Z;
  body_cooldown : option Z;
  body_user : option UserView
}.

Inductive Response :=
| json (status : Z) (body : JsonBody)
| redirect (location : string).

Definition fail (status : Z) (code : string) : Response :=
  json status (mkBody (Some code) None None None None None).

Definition with_token (status : Z) (tok : string) (v : UserView) : Response :=
  json status (mkBody None (Some tok) None None None (Some v)).

(** ** models/User.js *)

Section UserModel.
Context {P : Platform}.

(** [userSchema.virtual("isLocked")]:
    [!!(this.lockUntil && this.lockUntil > Date.now())] *)
Definition isLocked (this : User) : M bool :=
  match lockUntil this with
  | None => ret false
  | Some l => let* now := Date_now in ret (now <? l)
  end.

Definition comparePassword (this : User) (candidatePassword : string) : bool :=
  bcrypt_compare candidatePassword (password this).

(** [userSchema.methods.incLoginAttempts] *)
Definition incLoginAttempts (id : ObjectId) (this : User) : M unit :=
  let* expired :=
    match lockUntil this with
    | None => ret false
    | Some l => let* now := Date_now in ret (l <? now)
    end in
  if expired then
    updateOne id (fun d => set_loginAttempts 1 (set_lockUntil None d))
  else
    let* lock :=
      if 5 <=? loginAttempts this + 1
      then let* locked := isLocked this in ret (negb locked)
      else ret false in
    if lock then
      let* now := Date_now in
      updateOne id (fun d =>
        set_lockUntil (Some (now + 2 * 60 * 60 * 1000))
          (set_loginAttempts (loginAttempts d + 1) d))
    else
      updateOne id (fun d => set_loginAttempts (loginAttempts d + 1) d).

(** [userSchema.methods.resetLoginAttempts] *)
Definition resetLoginAttempts (id : ObjectId) : M unit :=
  let* now := Date_now in
  updateOne id (fun d =>
    set_lastLogin (Some now) (set_lockUntil None (set_loginAttempts 0 d))).

(** [doc.save()] on a new document: validation, the pre-save hook that hashes
    the password, then the insert, which the unique indexes on [_id] and
    [email] may refuse.  [None] stands for the thrown error. *)
Definition save_new (id : ObjectId) (doc : User) : M (option (ObjectId * User)) :=
  if negb (schema_valid doc) then ret None
  else
    let* salt := random_hex in
    let hashed := set_password (bcrypt_hash (password doc) salt) doc in
    fun w =>
      match users w !! id, email_index (users w) (email hashed) with
      | None, None => (Some (id, hashed), set_users (<[id := hashed]> (users w)) w)
      | _, _ => (None, w)
      end.

(** [userSchema.statics.createAdmin] *)
Definition User_createAdmin (mail pw nm : string) : M (option (ObjectId * User)) :=
  let* existingAdmin := User_findOne_email_role mail RoleAdmin in
  match existingAdmin with
  | Some d => ret (Some d)
  | None =>
    let* id := new_ObjectId in
    save_new id (new_User nm mail pw RoleAdmin false)
  end.

(** [userSchema.methods.generateVerificationToken]: returns the plain token
    and the document with the hash, the expiry and the sending time set. *)
Definition generateVerificationToken (this : User) (expiresInMs : Z)
  : M (string * User) :=
  let* plain := random_hex in
  let hash := sha256_hex plain in
  let* now := Date_now in
  let* sent := Date_now in
  ret (plain,
       set_lastVerificationSent (Some sent)
         (set_verifyExpires (Some (now + expiresInMs))
            (set_verifyToken (Some hash) this))).

Definition default_expiresInMs : Z := 24 * 60 * 60 * 1000.

(** [userSchema.methods.markVerified] *)
Definition markVerified (id : ObjectId) (this : User) : M unit :=
  save id (set_verifyExpires None (set_verifyToken None (set_isVerified true this))).

End UserModel.

(** ** middleware/auth.js *)

(** An owned document of some other collection (a task, a project, a contact):
    only the paths the ownership check reads. *)
Record Resource := mkResource {
  userId : option ObjectId;
  createdBy : option ObjectId;
  sessionId : option string
}.

(** [Model.findById] of the collection handed to [checkOwnership]: it
    resolves to a document or to null, or it rejects. *)
Inductive Lookup :=
| Resolved (found : option Resource)
| Rejected.

Record Collection := mkCollection {
  findById : option string -> Lookup
}.

Record Request := mkRequest {
  authorization : option string;        (* req.headers["authorization"] *)
  x_session_id : option string;         (* req.headers["x-session-id"] *)
  body_sessionId : option string;       (* req.body.sessionId *)
  query_sessionId : option string;      (* req.query.sessionId *)
  params : string -> option string;     (* req.params *)
  req_user : option (ObjectId * User);  (* req.user *)
  req_sessionId : option string;        (* req.sessionId *)
  req_resource : option Resource        (* req.resource *)
}.

Definition set_req_user (v : option (ObjectId * User)) (r : Request) : Request :=
  mkRequest (authorization r) (x_session_id r) (body_sessionId r)
    (query_sessionId r) (params r) v (req_sessionId r) (req_resource r).

Definition set_req_sessionId (v : option string) (r : Request) : Request :=
  mkRequest (authorization r) (x_session_id r) (body_sessionId r)
    (query_sessionId r) (params r) (req_user r) v (req_resource r).

Definition set_req_resource (v : option Resource) (r : Request) : Request :=
  mkRequest (authorization r) (x_session_id r) (body_sessionId r)
    (query_sessionId r) (params r) (req_user r) (req_sessionId r) v.

(** A middleware either answers or calls [next()] with the request. *)
Inductive MwResult :=
| Respond (r : Response)
| Next (req : Request).

(** [s.split(sep)] for a one-character separator *)
Fixpoint split_on (sep : ascii) (s : string) : list string :=
  match s with
  | EmptyString => [EmptyString]
  | String c rest =>
    if Ascii.eqb c sep then EmptyString :: split_on sep rest
    else match split_on sep rest with
         | piece :: more => String c piece :: more
         | [] => [String c EmptyString]
         end
  end.

(** [authHeader && authHeader.split(" ")[1]] *)
Definition bearer (req : Request) : option string :=
  match authorization req with
  | Some authHeader =>
    if truthy (Some authHeader)
    then nth_error (split_on " "%char authHeader) 1
    else Some authHeader
  | None => None
  end.

Section Middleware.
Context {P : Platform}.
Variable env : Env.

(** [generateToken]; [None] when [jwt.sign] throws. *)
Definition generateToken (uid : ObjectId) : M (option string) :=
  let* now := Date_now in
  ret (jwt_sign uid (JWT_SECRET env) (or_default (JWT_EXPIRES_IN env) "7d")
         "portfolio-api" "portfolio-client" now).

(** [User.findById(decoded.userId).select("-password")] *)
Definition load_decoded (d : JwtPayload) : M (option (ObjectId * User)) :=
  match jwt_userId d with
  | None => ret None
  | Some id =>
    let* found := User_findById id in
    ret (option_map (fun u => (id, set_password "" u)) found)
  end.

(** [authenticateToken] *)
Definition authenticateToken (req : Request) : M MwResult :=
  match bearer req with
  | None => ret (Respond (fail 401 "MISSING_TOKEN"))
  | Some tok =>
    if negb (truthy (Some tok)) then ret (Respond (fail 401 "MISSING_TOKEN"))
    else
      let* now := Date_now in
      match jwt_verify tok (JWT_SECRET env) now with
      | JwtThrows errorName =>
        if bool_decide (errorName = "JsonWebTokenError")
        then ret (Respond (fail 401 "INVALID_TOKEN"))
        else if bool_decide (errorName = "TokenExpiredError")
        then ret (Respond (fail 401 "TOKEN_EXPIRED"))
        else ret (Respond (fail 500 "AUTH_ERROR"))
      | JwtDecoded decoded =>
        let* found := load_decoded decoded in
        match found with
        | None => ret (Respond (fail 401 "INVALID_TOKEN"))
        | Some (id, user) =>
          if negb (isActive user)
          then ret (Respond (fail 401 "ACCOUNT_DEACTIVATED"))
          else
            let* locked := isLocked user in
            if locked then ret (Respond (fail 423 "ACCOUNT_LOCKED"))
            else ret (Next (set_req_user (Some (id, user)) req))
        end
      end
  end.

(** [optionalAuth]: any failure leaves the caller anonymous. *)
Definition optionalAuth (req : Request) : M Request :=
  match bearer req with
  | None => ret (set_req_user None req)
  | Some tok =>
    if negb (truthy (Some tok)) then ret (set_req_user None req)
    else
      let* now := Date_now in
      match jwt_verify tok (JWT_SECRET env) now with
      | JwtThrows _ => ret (set_req_user None req)
      | JwtDecoded decoded =>
        let* found := load_decoded decoded in
        match found with
        | None => ret (set_req_user None req)
        | Some (id, user) =>
          if negb (isActive user) then ret (set_req_user None req)
          else
            let* locked := isLocked user in
            if locked then ret (set_req_user None req)
            else ret (set_req_user (Some (id, user)) req)
        end
      end
  end.

(** [requireAdmin] *)
Definition requireAdmin (req : Request) : MwResult :=
  match req_user req with
  | None => Respond (fail 401 "AUTH_REQUIRED")
  | Some (_, user) =>
    if negb (bool_decide (role user = RoleAdmin))
    then Respond (fail 403 "INSUFFICIENT_PERMISSIONS")
    else Next req
  end.

(** [validateSession]:
    [req.headers["x-session-id"] || req.body.sessionId || req.query.sessionId] *)
Definition validateSession (req : Request) : MwResult :=
  let sid := js_or (js_or (x_session_id req) (body_sessionId req))
               (query_sessionId req) in
  if negb (truthy sid) && negb (bool_decide (is_Some (req_user req)))
  then Respond (fail 400 "MISSING_SESSION")
  else Next (set_req_sessionId sid req).

(** [checkOwnership(Model, paramName)] *)
Definition checkOwnership (Model : Collection) (paramName : string)
    (req : Request) : MwResult :=
  let resourceId := params req paramName in
  match findById Model resourceId with
  | Rejected => Respond (fail 500 "OWNERSHIP_CHECK_ERROR")
  | Resolved None => Respond (fail 404 "NOT_FOUND")
  | Resolved (Some resource) =>
    let isOwner :=
      match req_user req with
      | Some (uid, _) =>
        bool_decide (userId resource = Some uid)
        || bool_decide (createdBy resource = Some uid)
      | None => false
      end in
    let isSessionOwner :=
      truthy (req_sessionId req)
      && bool_decide (sessionId resource = req_sessionId req) in
    let isAdmin :=
      match req_user req with
      | Some (_, user) => bool_decide (role user = RoleAdmin)
      | None => false
      end in
    if negb isOwner && negb isSessionOwner && negb isAdmin
    then Respond (fail 403 "ACCESS_DENIED")
    else Next (set_req_resource (Some resource) req)
  end.

End Middleware.

(** ** routes/auth.js *)

Section Routes.
Context {P : Platform}.
Variable env : Env.

(** [POST /api/auth/register], after the validation middleware.  Sending the
    mail and writing the development log do not touch the collection and are
    left out. *)
Definition register (nm mail pw : string) : M Response :=
  let* existingUser := User_findOne_email mail in
  match existingUser with
  | Some _ => ret (fail 400 "USER_EXISTS")
  | None =>
    let* id := new_ObjectId in
    let user := new_User nm mail pw RoleUser false in
    let* issued := generateVerificationToken user default_expiresInMs in
    let* saved := save_new id (snd issued) in
    match saved with
    | None => ret (fail 500 "REGISTRATION_ERROR")
    | Some (_, user) =>
      let* signed := generateToken env id in
      match signed with
      | None => ret (fail 500 "REGISTRATION_ERROR")
      | Some tok => ret (with_token 201 tok (view_of id user))
      end
    end
  end.

(** [POST /api/auth/login], after the validation middleware *)
Definition login (mail pw : string) : M Response :=
  let* found := User_findOne_email mail in
  match found with
  | None => ret (fail 401 "INVALID_CREDENTIALS")
  | Some (id, user) =>
    if negb (isVerified user) then ret (fail 403 "EMAIL_NOT_VERIFIED")
    else
      let* locked := isLocked user in
      if locked then
        ret (json 423 (mkBody (Some "ACCOUNT_LOCKED") None None
                         (lockUntil user) None None))
      else if negb (isActive user) then ret (fail 401 "ACCOUNT_DEACTIVATED")
      else if negb (comparePassword user pw) then
        let* _ := incLoginAttempts id user in
        ret (fail 401 "INVALID_CREDENTIALS")
      else
        let* _ := resetLoginAttempts id in
        let* signed := generateToken env id in
        match signed with
        | None => ret (fail 500 "LOGIN_ERROR")
        | Some tok => ret (with_token 200 tok (view_of id user))
        end
  end.

(** [POST /api/auth/create-admin] *)
Definition create_admin (nm mail pw : option string) : M Response :=
  if bool_decide (NODE_ENV env = Some "production")
  then ret (fail 403 "PRODUCTION_RESTRICTION")
  else
    let* existingAdmin := User_findOne_role RoleAdmin in
    match existingAdmin with
    | Some _ => ret (fail 400 "ADMIN_EXISTS")
    | None =>
      let* created :=
        User_createAdmin
          (or_default (js_or mail (ADMIN_EMAIL env)) "jadejakrushnrajsinh99@gmail.com")
          (or_default (js_or pw (ADMIN_PASSWORD env)) "jadeja.kirtiba.12")
          (or_default nm "Portfolio Admin") in
      match created with
      | None => ret (fail 500 "ADMIN_CREATION_ERROR")
      | Some (id, doc) =>
        let admin := set_isVerified true doc in
        let* _ := save id admin in
        let* signed := generateToken env id in
        match signed with
        | None => ret (fail 500 "ADMIN_CREATION_ERROR")
        | Some tok => ret (with_token 201 tok (view_of id admin))
        end
      end
    end.

Definition verify_success : Response := redirect "/verify-success.html".
Definition verify_failed : Response := redirect "/verify-failed.html".

(** [GET /api/auth/verify-email] with [req.query.token], [req.query.email] *)
Definition verify_email (tok mail : option string) : M Response :=
  match tok, mail with
  | Some t, Some m =>
    if negb (truthy (Some t)) || negb (truthy (Some m))
    then ret (fail 400 "MISSING_PARAMS")
    else
      let* found := User_findOne_email m in
      match found with
      | None => ret (fail 404 "USER_NOT_FOUND")
      | Some (id, user) =>
        if isVerified user then ret verify_success
        else
          match verifyToken user, verifyExpires user with
          | Some stored, Some expires =>
            if negb (truthy (Some stored)) then ret (fail 400 "NO_TOKEN")
            else
              let hash := sha256_hex t in
              if negb (bool_decide (hash = stored)) then ret verify_failed
              else
                let* now := Date_now in
                if expires <? now then ret verify_failed
                else
                  let* _ := save id (set_verifyExpires None
                                       (set_verifyToken None
                                          (set_isVerified true user))) in
                  ret verify_success
          | _, _ => ret (fail 400 "NO_TOKEN")
          end
      end
  | _, _ => ret (fail 400 "MISSING_PARAMS")
  end.

(** [Number(process.env.RESEND_COOLDOWN_SECONDS || 60)] *)
Definition COOLDOWN_SECONDS : Z :=
  match RESEND_COOLDOWN_SECONDS env with
  | Some n => n
  | None => 60
  end.

(** [POST /api/auth/resend-verification] with [req.body.email] *)
Definition resend_verification (mail : option string) : M Response :=
  match mail with
  | None => ret (fail 400 "MISSING_EMAIL")
  | Some m =>
    if negb (truthy (Some m)) then ret (fail 400 "MISSING_EMAIL")
    else
      let* found := User_findOne_email m in
      match found with
      | None => ret (fail 404 "USER_NOT_FOUND")
      | Some (id, user) =>
        if isVerified user then ret (fail 400 "ALREADY_VERIFIED")
        else
          let* now := Date_now in
          let cooling :=
            match lastVerificationSent user with
            | Some sent =>
              let elapsed := (now - sent) / 1000 in
              if elapsed <? COOLDOWN_SECONDS
              then Some (COOLDOWN_SECONDS - elapsed)
              else None
            | None => None
            end in
          match cooling with
          | Some remaining =>
            ret (json 429 (mkBody (Some "TOO_MANY_REQUESTS") None
                             (Some remaining) None None None))
          | None =>
            let* issued := generateVerificationToken user default_expiresInMs in
            let* _ := save id (snd issued) in
            ret (json 200 (mkBody None None None None
                             (Some COOLDOWN_SECONDS) None))
          end
      end
  end.

End Routes.

(** ** The operations of the verification flow as one step function *)

Inductive Operation :=
| OpRegister (nm mail pw : string)
| OpLogin (mail pw : string)
| OpCreateAdmin (nm mail pw : option string)
| OpVerifyEmail (tok mail : option string)
| OpResend (mail : option string)
| OpMarkVerified (id : ObjectId).

Section Operations.
Context {P : Platform}.
Variable env : Env.

(** [markVerified] called on the document loaded by its [_id] *)
Definition mark_verified_by_id (id : ObjectId) : M unit :=
  let* found := User_findById id in
  match found with
  | Some user => markVerified id user
  | None => ret tt
  end.

Definition perform (op : Operation) (w : World) : World :=
  match op with
  | OpRegister nm mail pw => snd (register env nm mail pw w)
  | OpLogin mail pw => snd (login env mail pw w)
  | OpCreateAdmin nm mail pw => snd (create_admin env nm mail pw w)
  | OpVerifyEmail tok mail => snd (verify_email tok mail w)
  | OpResend mail => snd (resend_verification env mail w)
  | OpMarkVerified id => snd (mark_verified_by_id id w)
  end.

Definition perform_all (ops : list Operation) (w : World) : World :=
  fold_left (fun acc op => perform op acc) ops w.

End Operations.

(** ** Properties stated by the specification *)

(** Lockout states of an identity at a clock reading *)
Definition Locked (u : User) (now : Z) : Prop :=
  exists l, lockUntil u = Some l /\ now < l.

Definition Unlocked (u : User) (now : Z) : Prop :=
  forall l, lockUntil u = Some l -> l <= now.

(** [isVerified = true] implies that no token hash and no expiry are stored. *)
Definition verified_clean (u : User) : Prop :=
  isVerified u = true -> verifyToken u = None /\ verifyExpires u = None.

Definition verification_invariant (m : gmap ObjectId User) : Prop :=
  forall id u, m !! id = Some u -> verified_clean u.

(** Who the caller of an owned resource is *)
Definition caller_is_admin (req : Request) : Prop :=
  exists uid u, req_user req = Some (uid, u) /\ role u = RoleAdmin.

Definition caller_owns_by_identity (req : Request) (r : Resource) : Prop :=
  exists uid u, req_user req = Some (uid, u)
    /\ (userId r = Some uid \/ createdBy r = Some uid).

Definition caller_owns_by_session (req : Request) (r : Resource) : Prop :=
  exists s, req_sessionId req = Some s /\ s <> "" /\ sessionId r = Some s.

(** The three updates [incLoginAttempts] may send *)
Definition inc_reset (d : User) : User :=
  set_loginAttempts 1 (set_lockUntil None d).

Definition inc_only (d : User) : User :=
  set_loginAttempts (loginAttempts d + 1) d.

Definition inc_lock (now : Z) (d : User) : User :=
  set_lockUntil (Some (now + 2 * 60 * 60 * 1000))
    (set_loginAttempts (loginAttempts d + 1) d).

(** The reply of [login] for a locked account *)
Definition locked_reply (u : User) : Response :=
  json 423 (mkBody (Some "ACCOUNT_LOCKED") None None (lockUntil u) None None).

(** The three assignments that mark a document verified *)
Definition mark_verified_doc (u : User) : User :=
  set_verifyExpires None (set_verifyToken None (set_isVerified true u)).

(** [email] is a unique key of the collection ([unique: true]). *)
Definition unique_emails (m : gmap ObjectId User) : Prop :=
  forall i j u v, m !! i = Some u -> m !! j = Some v -> email u = email v -> i = j.

(** How one operation may change the document stored under an [_id], as far
    as verification goes: a document that is verified afterwards either has
    no token hash and no expiry, or was verified before with these two paths
    as they are now. *)
Definition doc_step (old : option User) (new : User) : Prop :=
  isVerified new = true ->
  (verifyToken new = None /\ verifyExpires new = None)
  \/ (exists o, old = Some o /\ isVerified o = true
        /\ verifyToken new = verifyToken o
        /\ verifyExpires new = verifyExpires o).

Definition store_step (m m' : gmap ObjectId User) : Prop :=
  forall id new, m' !! id = Some new -> doc_step (m !! id) new.

(** An update that leaves the three verification paths alone *)
Definition keeps_verification (f : User -> User) : Prop :=
  forall d, isVerified (f d) = isVerified d
            /\ verifyToken (f d) = verifyToken d
            /\ verifyExpires (f d) = verifyExpires d.

(** ** A small executable platform

    Enough of the collaborators to run the handlers on concrete requests:
    a tagging "hash", plain-text "bcrypt", and tokens that spell the user id
    in unary. *)

Fixpoint xs (n : nat) : string :=
  match n with
  | O => EmptyString
  | S k => String "x" (xs k)
  end.

Definition sample_sign (uid : ObjectId) (secret : option string) : option string :=
  match secret with
  | Some _ => Some (xs (S (N.to_nat uid)))
  | None => None
  end.

Definition sample_verify (tok : string) : JwtOutcome :=
  if bool_decide (tok = xs (String.length tok)) && negb (bool_decide (tok = ""))
  then JwtDecoded (mkJwtPayload (Some (N.of_nat (pred (String.length tok)))) 0)
  else JwtThrows "JsonWebTokenError".

Definition sample_platform : Platform := {|
  sha256_hex := fun s => String "#" s;
  bcrypt_hash := fun pw _ => pw;
  bcrypt_compare := fun candidate hash => bool_decide (candidate = hash);
  schema_valid := fun _ => true;
  jwt_sign := fun uid secret _ _ _ _ => sample_sign uid secret;
  jwt_verify := fun tok _ _ => sample_verify tok;
  jwt_seconds := fun _ => 604800
|}.

Definition sample_env : Env :=
  mkEnv (Some "secret") None None None None None.

Definition world_of (m : gmap ObjectId User) (now : Z) : World :=
  mkWorld m now [] [] 100%N.

(** Sample identities and worlds *)

Definition sample_user (mail : string) (verified : bool) : User :=
  mkUser mail "pw" "Sample" RoleUser true verified None None None None 0 None.

(* not verified, yet carrying a lock that ends at 5000 *)
Definition bob_locked : User :=
  set_lockUntil (Some 5000) (set_loginAttempts 5 (sample_user "bob@example.com" false)).

Definition world_bob_locked : World :=
  world_of {[ 7%N := bob_locked ]} 1000.

(* verified, four failed attempts so far, no lock *)
Definition alice : User :=
  set_loginAttempts 4 (sample_user "alice@example.com" true).

Definition world_alice : World := world_of {[ 1%N := alice ]} 1000.

(* verified, locked until 500, which is in the past at 1000 *)
Definition carol : User :=
  set_lockUntil (Some 500) (set_loginAttempts 5 (sample_user "carol@example.com" true)).

Definition world_carol : World := world_of {[ 3%N := carol ]} 1000.

(* not verified, holding the hash of "tok" until 2000, mailed at 990000 *)
Definition dave : User :=
  set_lastVerificationSent (Some 990000)
    (set_verifyExpires (Some 2000)
       (set_verifyToken (Some "#tok") (sample_user "dave@example.com" false))).

Definition world_dave (now : Z) : World := world_of {[ 4%N := dave ]} now.

Definition root : User :=
  mkUser "root@example.com" "pw" "Root" RoleAdmin true true None None None None
    0 None.

(* verified, no failures, no lock *)
Definition eve : User := sample_user "eve@example.com" true.

Definition world_eve : World := world_of {[ 5%N := eve ]} 1000.

(* a task created by the anonymous session "abc" *)
Definition task_abc : Resource := mkResource None None (Some "abc").

Definition sample_tasks : Collection :=
  mkCollection (fun rid =>
    match rid with
    | Some "t1" => Resolved (Some task_abc)
    | Some "bad id" => Rejected
    | _ => Resolved None
    end).

Definition request_for (rid : string) (caller : option (ObjectId * User))
    (sid : option string) : Request :=
  mkRequest None sid None None (fun _ => Some rid) caller sid None.

(* no identity yet; the random source will give "tok", then "salt" *)
Definition empty_world : World := mkWorld ∅ 1000 [] ["tok"; "salt"] 100%N.

Definition sample_registration : Response * World :=
  register (P := sample_platform) sample_env "Ann" "ann@example.com" "Passw0rd"
    empty_world.

Definition sample_registration_body : JsonBody :=
  Eval vm_compute in
    match fst sample_registration with
    | json _ b => b
    | redirect _ => mkBody None None None None None None
    end.

Definition sample_registration_world : World :=
  Eval vm_compute in snd sample_registration.

(** ** The remaining routes of routes/auth.js *)

(** [jwt.decode(token)]: [None] for null, otherwise the [exp] of the payload,
    which may be missing. *)
Class JwtDecoder := {
  jwt_decode : string -> option (option Z)
}.

(** bcryptjs accepts the password a hash was made from. *)
Class BcryptContract (P : Platform) : Prop := {
  bcrypt_compare_hash :
    forall pw salt, bcrypt_compare pw (bcrypt_hash pw salt) = true
}.

Definition ok_reply : Response :=
  json 200 (mkBody None None None None None None).

Definition user_reply (v : option UserView) : Response :=
  json 200 (mkBody None None None None None v).

Section AccountRoutes.
Context {P : Platform}.
Variable env : Env.

(** A route behind [authenticateToken]: the handler runs on the request the
    middleware passes on. *)
Definition authenticated (req : Request) (handler : Request -> M Response)
  : M Response :=
  let* checked := authenticateToken env req in
  match checked with
  | Respond r => ret r
  | Next req' => handler req'
  end.

(** [POST /api/auth/logout] *)
Definition logout (req : Request) : M Response :=
  authenticated req (fun _ => ret ok_reply).

(** [POST /api/auth/verify-token]; without [req.user] the handler throws and
    Express answers 500. *)
Definition verify_token (req : Request) : M Response :=
  authenticated req (fun req' =>
    match req_user req' with
    | Some (id, user) => ret (user_reply (Some (view_of id user)))
    | None => ret (json 500 (mkBody None None None None None None))
    end).

(** [POST /api/auth/refresh-token] *)
Definition refresh_token_handler (req : Request) : M Response :=
  match req_user req with
  | None => ret (fail 500 "TOKEN_REFRESH_ERROR")
  | Some (id, _) =>
    let* signed := generateToken env id in
    match signed with
    | None => ret (fail 500 "TOKEN_REFRESH_ERROR")
    | Some tok => ret (json 200 (mkBody None (Some tok) None None None None))
    end
  end.

Definition refresh_token (req : Request) : M Response :=
  authenticated req refresh_token_handler.

(** [this.isModified("password")] after an assignment to the password of a
    loaded document: an assignment of the very text that is stored does not
    mark the path. *)
Definition password_modified (loaded doc : User) : bool :=
  negb (bool_decide (password doc = password loaded)).

(** [doc.save()] on a loaded document whose password has been assigned:
    validation, the pre-save hook, which hashes the password only when it is
    modified, then the write.  [false] stands for the thrown error. *)
Definition save_with_password (id : ObjectId) (loaded doc : User) : M bool :=
  if negb (schema_valid doc) then ret false
  else if negb (password_modified loaded doc) then
    let* _ := save id doc in
    ret true
  else
    let* salt := random_hex in
    let* _ := save id (set_password (bcrypt_hash (password doc) salt) doc) in
    ret true.

(** [PUT /api/auth/change-password], after the validation middleware *)
Definition change_password_handler (currentPassword newPassword : string)
    (req : Request) : M Response :=
  match req_user req with
  | None => ret (fail 500 "PASSWORD_CHANGE_ERROR")
  | Some (uid, _) =>
    let* found := User_findById uid in
    match found with
    | None => ret (fail 500 "PASSWORD_CHANGE_ERROR")
    | Some user =>
      if negb (comparePassword user currentPassword)
      then ret (fail 400 "INVALID_CURRENT_PASSWORD")
      else
        let* saved :=
          save_with_password uid user (set_password newPassword user) in
        if saved then ret ok_reply
        else ret (fail 500 "PASSWORD_CHANGE_ERROR")
    end
  end.

Definition change_password (req : Request) (currentPassword newPassword : string)
  : M Response :=
  authenticated req (change_password_handler currentPassword newPassword).

(** The update document [{ ...(name && { name }), ...(email && { email }) }]
    applied to a stored document; both values are cast to their paths. *)
Definition profile_update (nm mail : option string) (d : User) : User :=
  let d1 := match nm with
            | Some n => if truthy nm then set_name (cast_name n) d else d
            | None => d
            end in
  match mail with
  | Some e => if truthy mail then set_email (cast_email e) d1 else d1
  | None => d1
  end.

(** [User.findByIdAndUpdate(userId, update, { new: true, runValidators: true })]:
    [None] when it throws (a validator, or the unique index on [email]),
    otherwise the updated document, or null when there is none to update. *)
Definition User_findByIdAndUpdate (uid : ObjectId) (f : User -> User)
  : M (option (option User)) :=
  fun w =>
    match users w !! uid with
    | None => (Some None, w)
    | Some d =>
      if negb (schema_valid (f d)) then (None, w)
      else
        match email_index_other (users w) (email (f d)) uid with
        | Some _ => (None, w)
        | None => (Some (Some (f d)), set_users (<[uid := f d]> (users w)) w)
        end
    end.

(** [PUT /api/auth/profile], after the validation middleware *)
Definition update_profile_handler (nm mail : option string) (req : Request)
  : M Response :=
  match req_user req with
  | None => ret (fail 500 "PROFILE_UPDATE_ERROR")
  | Some (userId, me) =>
    let* taken :=
      if truthy mail && negb (bool_decide (mail = Some (email me)))
      then fun w =>
             (match mail with
              | Some e => findOne_email_other (users w) e userId
              | None => None
              end, w)
      else ret None in
    match taken with
    | Some _ => ret (fail 400 "EMAIL_TAKEN")
    | None =>
      let* updated := User_findByIdAndUpdate userId (profile_update nm mail) in
      match updated with
      | None => ret (fail 500 "PROFILE_UPDATE_ERROR")
      | Some updatedUser =>
        ret (user_reply (option_map (view_of userId) updatedUser))
      end
    end
  end.

Definition update_profile (req : Request) (nm mail : option string)
  : M Response :=
  authenticated req (update_profile_handler nm mail).

End AccountRoutes.

(** [refreshTokenIfNeeded]: it always calls [next()]; the result is the value
    of the [X-New-Token] header when it sets one.  [decoded.exp - now] with
    [now = Date.now() / 1000] is compared in milliseconds. *)
Definition refreshTokenIfNeeded {P : Platform} {D : JwtDecoder} (env : Env)
    (req : Request) : M (option string) :=
  match req_user req with
  | None => ret None
  | Some (id, _) =>
    match bearer req with
    | None => ret None
    | Some tok =>
      if negb (truthy (Some tok)) then ret None
      else
        let decoded := jwt_decode tok in
        let* now := Date_now in
        match decoded with
        | None => ret None
        | Some None => ret None
        | Some (Some exp) =>
          if exp * 1000 - now <? 24 * 60 * 60 * 1000
          then generateToken env id
          else ret None
        end
    end
  end.

(** ** The task routes: who may reach a task *)

Section TaskRoutes.
Context {P : Platform}.
Variable env : Env.

(** The middleware in front of the routes on [/api/tasks/:id]:
    [optionalAuth, validateSession, checkOwnership(Task)] *)
Definition task_guard (Task : Collection) (req : Request) : M MwResult :=
  let* req1 := optionalAuth env req in
  match validateSession req1 with
  | Respond r => ret (Respond r)
  | Next req2 => ret (checkOwnership Task "id" req2)
  end.

(** The owner paths of the task that [POST /api/tasks] builds:
    [userId: req.user?._id || null] and
    [sessionId: req.user ? null : req.sessionId], the latter trimmed by the
    schema.  The Task schema has no [createdBy]. *)
Definition new_task_owner (trim : string -> string) (req : Request) : Resource :=
  mkResource
    (option_map fst (req_user req))
    None
    (match req_user req with
     | Some _ => None
     | None => option_map trim (req_sessionId req)
     end).

End TaskRoutes.

(** ** The maintenance scripts *)

Section Scripts.
Context {P : Platform}.

(** [doc.save()] on a loaded document whose e-mail and password have been
    assigned: validation, the pre-save hook, which hashes the password only
    when it is modified, then the write, which the unique index on [email]
    may refuse.  [false] stands for the thrown error. *)
Definition save_with_credentials (id : ObjectId) (loaded doc : User) : M bool :=
  if negb (schema_valid doc) then ret false
  else
    let* hashed :=
      if password_modified loaded doc
      then let* salt := random_hex in
           ret (set_password (bcrypt_hash (password doc) salt) doc)
      else ret doc in
    fun w =>
      match email_index_other (users w) (email hashed) id with
      | Some _ => (false, w)
      | None => (true, snd (save id hashed w))
      end.

(** The assignments of [updateAdmin]; [email] and [name] go through their
    setters. *)
Definition admin_update (admin : User) : User :=
  set_isVerified true
    (set_name (cast_name "Krushnraj Sinh Jadeja")
       (set_password "jadeja.kirtiba.12"
          (set_email (cast_email "jadejakrushnrajsinh99@gmail.com") admin))).

(** [updateAdmin] of the credentials script: the first admin gets the new
    e-mail, password and name and is marked verified; a failing [save()] is
    only logged. *)
Definition updateAdmin : M unit :=
  let* existingAdmin := User_findOne_role RoleAdmin in
  match existingAdmin with
  | None => ret tt
  | Some (id, admin) =>
    let* _ := save_with_credentials id admin (admin_update admin) in
    ret tt
  end.

End Scripts.

(** All the routes that write to the users collection, as one step function *)
Inductive AccountOp :=
| Core (op : Operation)
| OpChangePassword (req : Request) (currentPassword newPassword : string)
| OpUpdateProfile (req : Request) (nm mail : option string)
| OpRefreshToken (req : Request)
| OpVerifyToken (req : Request)
| OpLogout (req : Request).

Definition perform_account {P : Platform} (env : Env) (op : AccountOp)
    (w : World) : World :=
  match op with
  | Core o => perform env o w
  | OpChangePassword req cur new => snd (change_password env req cur new w)
  | OpUpdateProfile req nm mail => snd (update_profile env req nm mail w)
  | OpRefreshToken req => snd (refresh_token env req w)
  | OpVerifyToken req => snd (verify_token env req w)
  | OpLogout req => snd (logout env req w)
  end.

Definition perform_accounts {P : Platform} (env : Env) (ops : list AccountOp)
    (w : World) : World :=
  fold_left (fun acc op => perform_account env op acc) ops w.

(** ** Further properties *)

(** Only a verified identity carries a lock. *)
Definition locked_are_verified (m : gmap ObjectId User) : Prop :=
  forall id u, m !! id = Some u -> is_Some (lockUntil u) -> isVerified u = true.

(** At most one identity is an admin. *)
Definition at_most_one_admin (m : gmap ObjectId User) : Prop :=
  forall i j u v, m !! i = Some u -> m !! j = Some v ->
    role u = RoleAdmin -> role v = RoleAdmin -> i = j.

(** No identity disappears, loses its verification or changes its role. *)
Definition identities_kept (m m' : gmap ObjectId User) : Prop :=
  forall id u, m !! id = Some u ->
    exists u', m' !! id = Some u' /\ role u' = role u
               /\ (isVerified u = true -> isVerified u' = true).

(** No other document holds this e-mail. *)
Definition fresh_email (m : gmap ObjectId User) (id : ObjectId) (e : string)
  : Prop :=
  forall j v, j <> id -> m !! j = Some v -> email v <> e.

Definition no_admin (m : gmap ObjectId User) : Prop :=
  forall j v, m !! j = Some v -> role v <> RoleAdmin.

(** A rewritten document carries no lock, or is verified, or carries the
    lock it had. *)
Definition lock_ok (o n : User) : Prop :=
  lockUntil n = None \/ isVerified n = true \/ lockUntil n = lockUntil o.

(** What one request may do to the collection: nothing, or write one
    document.  A rewritten document keeps its role and its verification,
    keeps its e-mail or takes one nobody else has, and gets a lock only when
    it is verified; a new document has an e-mail nobody has, no lock, and is
    an admin only when there was none. *)
Definition doc_ok (m : gmap ObjectId User) (id : ObjectId) (n : User) : Prop :=
  match m !! id with
  | Some o =>
    role n = role o
    /\ (isVerified o = true -> isVerified n = true)
    /\ (email n = email o \/ fresh_email m id (email n))
    /\ lock_ok o n
  | None =>
    fresh_email m id (email n) /\ (role n = RoleAdmin -> no_admin m)
    /\ lockUntil n = None
  end.

Definition point_change (m m' : gmap ObjectId User) : Prop :=
  m' = m \/ exists id n, m' = <[id := n]> m /\ doc_ok m id n.

(** The update [resetLoginAttempts] sends *)
Definition cleared_login (t : Z) (d : User) : User :=
  set_lastLogin (Some t) (set_lockUntil None (set_loginAttempts 0 d)).

(** [n] more failed attempts counted on a document *)
Definition counted (n : Z) (d : User) : User :=
  set_loginAttempts (loginAttempts d + n) d.

(** A document after [generateVerificationToken] *)
Definition reissued (hash : string) (expires sent : Z) (u : User) : User :=
  set_lastVerificationSent (Some sent)
    (set_verifyExpires (Some expires) (set_verifyToken (Some hash) u)).

(** The reply of [resend-verification] inside the cooldown *)
Definition too_many_requests (remaining : Z) : Response :=
  json 429 (mkBody (Some "TOO_MANY_REQUESTS") None (Some remaining)
              None None None).

(** A token is accepted as the identity [id]: presented as a bearer token
    before the given clock second, while [id] is stored, active and not
    locked, it makes [authenticateToken] pass the request on with that
    identity as [req.user]. *)
Definition accepted_as {P : Platform} (env : Env) (tok : string)
    (id : ObjectId) (before : Z) : Prop :=
  forall req w u,
    authorization req = Some (String.append "Bearer " tok) ->
    users w !! id = Some u ->
    isActive u = true ->
    Unlocked u (clock w) ->
    clock w / 1000 < before ->
    fst (authenticateToken env req w)
    = Next (set_req_user (Some (id, set_password "" u)) req).

(** The lifetime of a token, in seconds *)
Definition token_seconds {P : Platform} (env : Env) : Z :=
  jwt_seconds (or_default (JWT_EXPIRES_IN env) "7d").

Definition token_reply (tok : string) : Response :=
  json 200 (mkBody None (Some tok) None None None None).

(** A rewrite of one stored document that keeps e-mail, role and
    verification *)
Definition keeps_identity (o n : User) : Prop :=
  email n = email o /\ role n = role o
  /\ (isVerified o = true -> isVerified n = true)
  /\ lock_ok o n.

(** ** Everything in the repository that writes to the users collection

    The requests of routes/auth.js, the static [User.createAdmin] as the
    seed script calls it, and the [updateAdmin] script. *)
Inductive ProgramStep :=
| Route (op : AccountOp)
| SeedAdmin (mail pw nm : string)
| UpdateAdmin.

Definition run_step {P : Platform} (env : Env) (step : ProgramStep)
    (w : World) : World :=
  match step with
  | Route op => perform_account env op w
  | SeedAdmin mail pw nm => snd (User_createAdmin mail pw nm w)
  | UpdateAdmin => snd (updateAdmin w)
  end.

Definition run_steps {P : Platform} (env : Env) (steps : list ProgramStep)
    (w : World) : World :=
  fold_left (fun acc step => run_step env step acc) steps w.

(** ** Tokens that have been changed *)

(** Two texts that differ in exactly one character *)
Definition one_char_changed (a b : string) : Prop :=
  exists pre c d post,
    a = String.append pre (String c post)
    /\ b = String.append pre (String d post)
    /\ c <> d.

(** jsonwebtoken does not accept a signed token in which one character has
    been changed: [jwt.verify] throws. *)
Class JwtTamperContract (P : Platform) : Prop := {
  jwt_verify_changed :
    forall uid secret expiresIn iss aud t tok tok' t',
      jwt_sign uid secret expiresIn iss aud t = Some tok ->
      one_char_changed tok tok' ->
      exists errorName, jwt_verify tok' secret t' = JwtThrows errorName
}.

(** A token library that, like jsonwebtoken, parses the payload of a token
    before it checks the signature: a token is an opening brace followed by
    a sample token, and a text that does not open with the brace makes the
    parser throw a [SyntaxError]. *)
Definition parsing_verify (tok : string) : JwtOutcome :=
  match tok with
  | String "{" signed => sample_verify signed
  | _ => JwtThrows "SyntaxError"
  end.

Definition parsing_platform : Platform := {|
  sha256_hex := fun s => String "#" s;
  bcrypt_hash := fun pw _ => pw;
  bcrypt_compare := fun candidate hash => bool_decide (candidate = hash);
  schema_valid := fun _ => true;
  jwt_sign := fun uid secret _ _ _ _ =>
                option_map (String "{") (sample_sign uid secret);
  jwt_verify := fun tok _ _ => parsing_verify tok;
  jwt_seconds := fun _ => 604800
|}.

(** ** Mongoose models behind [checkOwnership] *)

Definition is_hex_digit (c : ascii) : bool :=
  let n := nat_of_ascii c in
  (Nat.leb 48 n && Nat.leb n 57) || (Nat.leb 65 n && Nat.leb n 70)
  || (Nat.leb 97 n && Nat.leb n 102).

(** The text of an ObjectId: 24 hexadecimal digits *)
Definition is_ObjectId_text (s : string) : bool :=
  Nat.eqb (String.length s) 24
  && forallb is_hex_digit (list_ascii_of_string s).

(** [Model.findById] of a Mongoose model over stored documents.  The id is
    cast to an ObjectId before the collection is looked at, and a text that
    cannot be cast makes the query reject with a [CastError]. *)
Definition Model_of (castable : string -> bool) (docs : gmap string Resource)
  : Collection :=
  mkCollection (fun rid =>
    match rid with
    | Some s => if castable s then Resolved (docs !! s) else Rejected
    | None => Resolved None
    end).

(* one task, stored under a well-formed id *)
Definition stored_tasks_docs : gmap string Resource :=
  {[ "64b7f0c2a1d3e4f5a6b7c8d9" := task_abc ]}.

Definition stored_tasks : Collection :=
  Model_of is_ObjectId_text stored_tasks_docs.

(** More sample data *)

(* eve after four failed logins, and locked by the fifth at clock 1000 *)
Definition eve_four_failures : User := set_loginAttempts 4 eve.

Definition eve_locked : User :=
  set_lockUntil (Some (1000 + 2 * 60 * 60 * 1000))
    (set_loginAttempts 5 eve).

Definition eve_fails (n : nat) : list ProgramStep :=
  repeat (Route (Core (OpLogin "eve@example.com" "wrong"))) n.

Definition sample_decoder : JwtDecoder :=
  {| jwt_decode := fun tok => if bool_decide (tok = "") then None
                              else Some (Some 0) |}.

(* verified but deactivated *)
Definition frank : User :=
  mkUser "frank@example.com" "pw" "Frank" RoleUser false true None None None
    None 2 None.

Definition world_frank : World := world_of {[ 6%N := frank ]} 1000.

(* a request that carries a bearer token and nothing else *)
Definition bearer_request (tok : string) : Request :=
  mkRequest (Some (String.append "Bearer " tok)) None None None
    (fun _ => None) None None None.

(* the sample token of identity 1 *)
Definition alice_token : string := xs 2.

Definition alice_and_dave : World :=
  world_of (<[ 4%N := dave ]> {[ 1%N := alice ]}) 1000.

Definition env_without_secret : Env :=
  mkEnv None None None None None None.

(* the seed script has made an admin, who then asked for a verification
   mail *)
Definition seeded_world : World :=
  Eval vm_compute in
    snd (resend_verification (P := sample_platform) sample_env
           (Some "admin@example.com")
           (snd (User_createAdmin (P := sample_platform) "admin@example.com"
                   "Passw0rd" "Portfolio Admin" empty_world))).

Definition seeded_admin : User :=
  Eval vm_compute in
    match users seeded_world !! 100%N with
    | Some u => u
    | None => root
    end.

Definition world_root : World := world_of {[ 9%N := root ]} 1000.

Definition production_env : Env :=
  mkEnv (Some "secret") None (Some "production") None None None.

(* a list of characters holds no blank *)
Ltac no_blank :=
  let H := fresh in
  intros H; simpl in H;
  repeat (destruct H as [H | H]; [discriminate |]); exact H.

(** The model methods stay folded when a handler is simplified. *)
Arguments isLocked : simpl never.
Arguments incLoginAttempts : simpl never.
Arguments resetLoginAttempts : simpl never.
Arguments generateToken : simpl never.
Arguments generateVerificationToken : simpl never.
Arguments save_new : simpl never.
Arguments User_createAdmin : simpl never.

(** ** Running a handler symbolically *)

Ltac unfold_monad :=
  unfold bind, ret, User_findOne_email, User_findOne_role,
    User_findOne_email_role, User_findById, updateOne, save, Date_now,
    random_hex, new_ObjectId, set_users in *.

(* a rewrite of a document that leaves e-mail, role and verification alone *)
Ltac keeps_tac :=
  unfold keeps_identity, lock_ok; simpl; repeat split; auto;
  first [by left | by (right; left) | by (right; right)].

Ltac split_clock :=
  match goal with
  | |- context [Z.ltb ?a ?b] => destruct (Z.ltb_spec a b)
  | |- context [Z.leb ?a ?b] => destruct (Z.leb_spec a b)
  end; simpl.

(** ** Lemmas on the collection *)

Lemma email_index_Some (m : gmap ObjectId User) e id u :
  email_index m e = Some (id, u) -> m !! id = Some u /\ email u = e.
Proof.
  unfold email_index. intros H. apply find_some in H as [Hin Hm].
  split.
  - apply elem_of_map_to_list. by apply list_elem_of_In.
  - unfold has_email in Hm. simpl in Hm. by apply bool_decide_eq_true in Hm.
Qed.

Lemma email_index_None (m : gmap ObjectId User) e :
  email_index m e = None ->
  forall id u, m !! id = Some u -> email u <> e.
Proof.
  unfold email_index. intros H id u Hl Heq.
  assert (Hin : In (id, u) (map_to_list m)).
  { apply list_elem_of_In. by apply elem_of_map_to_list. }
  pose proof (find_none _ _ H _ Hin) as Hf.
  unfold has_email in Hf. simpl in Hf.
  apply bool_decide_eq_false in Hf. contradiction.
Qed.


Lemma email_index_unique (m : gmap ObjectId User) e id u :
  unique_emails m -> m !! id = Some u -> email u = e ->
  email_index m e = Some (id, u).
Proof.
  intros Hu Hl He.
  destruct (email_index m e) as [[j v]|] eqn:Hf.
  - apply email_index_Some in Hf as [Hj Hv].
    assert (j = id) by (eapply Hu; eauto; congruence). subst j.
    rewrite Hl in Hj. by inversion Hj.
  - exfalso. by eapply email_index_None.
Qed.

Lemma findOne_email_Some (m : gmap ObjectId User) mail id u :
  findOne_email m mail = Some (id, u) ->
  m !! id = Some u /\ email u = cast_email mail.
Proof. apply email_index_Some. Qed.

Lemma findOne_email_None (m : gmap ObjectId User) mail :
  findOne_email m mail = None ->
  forall id u, m !! id = Some u -> email u <> cast_email mail.
Proof. apply email_index_None. Qed.

Lemma findOne_role_None (m : gmap ObjectId User) r :
  findOne_role m r = None ->
  forall id u, m !! id = Some u -> role u <> r.
Proof.
  unfold findOne_role. intros H id u Hl Heq.
  assert (Hin : In (id, u) (map_to_list m)).
  { apply list_elem_of_In. by apply elem_of_map_to_list. }
  pose proof (find_none _ _ H _ Hin) as Hf.
  unfold has_role in Hf. simpl in Hf.
  apply bool_decide_eq_false in Hf. contradiction.
Qed.

Lemma findOne_email_role_Some (m : gmap ObjectId User) mail r id u :
  findOne_email_role m mail r = Some (id, u) ->
  m !! id = Some u /\ email u = cast_email mail /\ role u = r.
Proof.
  unfold findOne_email_role. intros H. apply find_some in H as [Hin Hm].
  apply andb_true_iff in Hm as [He Hr].
  unfold has_email, has_role in *. simpl in *.
  apply bool_decide_eq_true in He. apply bool_decide_eq_true in Hr.
  split; [| done].
  apply elem_of_map_to_list. by apply list_elem_of_In.
Qed.

Lemma findOne_email_unique (m : gmap ObjectId User) mail id u :
  unique_emails m -> m !! id = Some u -> email u = cast_email mail ->
  findOne_email m mail = Some (id, u).
Proof. apply email_index_unique. Qed.

Lemma length_xs n : String.length (xs n) = n.
Proof. induction n as [|n IH]; simpl; [done | by rewrite IH]. Qed.

Lemma xs_no_blank n : ~ In " "%char (list_ascii_of_string (xs n)).
Proof.
  induction n as [|n IH]; simpl; [tauto |].
  intros [H | H]; [discriminate | contradiction].
Qed.

Lemma sample_contract : JwtContract sample_platform.
Proof.
  split; simpl; unfold sample_sign.
  - intros uid [s|] _ _ _ _ tok _ H _; [| discriminate].
    injection H as <-. unfold sample_verify.
    simpl String.length. rewrite length_xs.
    rewrite bool_decide_eq_true_2 by reflexivity. simpl.
    eexists. split; [reflexivity |]. simpl.
    by rewrite N2Nat.id.
  - intros uid [s|] _ _ _ _ tok H; [| discriminate].
    injection H as <-. split; [discriminate |].
    apply (xs_no_blank (S (N.to_nat uid))).
Qed.

Lemma truthy_Some s : s <> "" -> truthy (Some s) = true.
Proof. intros H. unfold truthy. by rewrite bool_decide_eq_false_2. Qed.

Lemma alter_present (m : gmap ObjectId User) f id u :
  m !! id = Some u -> alter f id m = <[id := f u]> m.
Proof.
  intros H. apply map_eq. intros j. rewrite lookup_alter, lookup_insert.
  case_decide; subst; [by rewrite H | done].
Qed.

(** ** Login gate on verification *)

(** C2. For an identity that is not verified, a login attempt fails with
    [EMAIL_NOT_VERIFIED], whatever the password and whatever the lockout
    state, and nothing is written: the failed-login counter stays as it is. *)
Theorem login_unverified_gated `{P : Platform} (env : Env) (w : World)
    (mail pw : string) (id : ObjectId) (u : User) :
  findOne_email (users w) mail = Some (id, u) ->
  isVerified u = false ->
  login env mail pw w = (fail 403 "EMAIL_NOT_VERIFIED", w).
Proof.
  intros Hf Hv. unfold login. unfold_monad. rewrite Hf, Hv. reflexivity.
Qed.


(** ** Ownership of resources *)

Lemma truthy_spec o : truthy o = true <-> exists s, o = Some s /\ s <> "".
Proof.
  unfold truthy. destruct o as [s|]; simpl.
  - rewrite negb_true_iff, bool_decide_eq_false. split.
    + intros H. by exists s.
    + intros (s' & [= <-] & H). done.
  - split; [discriminate | intros (s & H & _); discriminate].
Qed.

Lemma three_way_decision (o s a : bool) (O S A : Prop) (deny pass : MwResult) :
  (o = true <-> O) -> (s = true <-> S) -> (a = true <-> A) -> deny <> pass ->
  ((if negb o && negb s && negb a then deny else pass) = pass <-> A \/ O \/ S)
  /\ (~ (A \/ O \/ S) ->
      (if negb o && negb s && negb a then deny else pass) = deny).
Proof.
  intros Ho Hs Ha Hne.
  destruct o, s, a; simpl; intuition congruence.
Qed.

(** C3, as the code has it.  For a resource that exists, [checkOwnership]
    lets the request through exactly when the caller is an authenticated
    admin, or the caller's identity id is the resource's owner identity id
    ([userId] or [createdBy]), or the caller's session identifier is the
    resource's [sessionId]; otherwise it answers [ACCESS_DENIED].  When the
    lookup resolves to no document it answers [NOT_FOUND], whoever calls, and
    when the lookup rejects, as it does for an id that cannot be cast, it
    answers 500 [OWNERSHIP_CHECK_ERROR], whoever calls.  So a request is
    passed on only with a resource that was found and to which the caller is
    entitled. *)
Theorem checkOwnership_decision (Model : Collection) (paramName : string)
    (req : Request) :
  (forall r, findById Model (params req paramName) = Resolved (Some r) ->
     (checkOwnership Model paramName req = Next (set_req_resource (Some r) req)
      <-> caller_is_admin req \/ caller_owns_by_identity req r
          \/ caller_owns_by_session req r)
     /\ (~ (caller_is_admin req \/ caller_owns_by_identity req r
            \/ caller_owns_by_session req r) ->
         checkOwnership Model paramName req = Respond (fail 403 "ACCESS_DENIED")))
  /\ (findById Model (params req paramName) = Resolved None ->
      checkOwnership Model paramName req = Respond (fail 404 "NOT_FOUND"))
  /\ (findById Model (params req paramName) = Rejected ->
      checkOwnership Model paramName req
      = Respond (fail 500 "OWNERSHIP_CHECK_ERROR"))
  /\ (forall req',
        checkOwnership Model paramName req = Next req' ->
        exists r,
          findById Model (params req paramName) = Resolved (Some r)
          /\ req' = set_req_resource (Some r) req
          /\ (caller_is_admin req \/ caller_owns_by_identity req r
              \/ caller_owns_by_session req r)).
Proof.
  assert (Hfound : forall r,
    findById Model (params req paramName) = Resolved (Some r) ->
    (checkOwnership Model paramName req = Next (set_req_resource (Some r) req)
     <-> caller_is_admin req \/ caller_owns_by_identity req r
         \/ caller_owns_by_session req r)
    /\ (~ (caller_is_admin req \/ caller_owns_by_identity req r
           \/ caller_owns_by_session req r) ->
        checkOwnership Model paramName req = Respond (fail 403 "ACCESS_DENIED"))).
  2: { split; [exact Hfound |]. split; [| split].
       - intros Hr. unfold checkOwnership. by rewrite Hr.
       - intros Hr. unfold checkOwnership. by rewrite Hr.
       - intros req' Hnext.
         destruct (findById Model (params req paramName)) as [[r|]|] eqn:Hr.
         + exists r. split; [done |].
           destruct (Hfound r eq_refl) as [Hiff _].
           assert (Hpass : checkOwnership Model paramName req
                           = Next (set_req_resource (Some r) req)).
           { revert Hnext. unfold checkOwnership. rewrite Hr.
             by destruct (_ && _). }
           split; [congruence | by apply Hiff].
         + unfold checkOwnership in Hnext. by rewrite Hr in Hnext.
         + unfold checkOwnership in Hnext. by rewrite Hr in Hnext. }
  - intros r Hr. unfold checkOwnership. rewrite Hr.
    assert (Hdec :
      (match req_user req with
       | Some (uid, _) =>
         bool_decide (userId r = Some uid) || bool_decide (createdBy r = Some uid)
       | None => false
       end = true <-> caller_owns_by_identity req r)
      /\ (truthy (req_sessionId req)
          && bool_decide (sessionId r = req_sessionId req) = true
          <-> caller_owns_by_session req r)
      /\ (match req_user req with
          | Some (_, user) => bool_decide (role user = RoleAdmin)
          | None => false
          end = true <-> caller_is_admin req)).
    { unfold caller_owns_by_identity, caller_owns_by_session, caller_is_admin.
      repeat split.
      - destruct (req_user req) as [[uid u]|]; [| discriminate].
        rewrite orb_true_iff, !bool_decide_eq_true. intros H. by exists uid, u.
      - intros (uid & u & -> & H).
        by rewrite orb_true_iff, !bool_decide_eq_true.
      - rewrite andb_true_iff, bool_decide_eq_true, truthy_spec.
        intros [(s & Hs & Hne) Heq]. exists s. by rewrite Heq.
      - intros (s & Hs & Hne & Hr'). rewrite andb_true_iff, bool_decide_eq_true.
        split; [apply truthy_spec; by exists s | congruence].
      - destruct (req_user req) as [[uid u]|]; [| discriminate].
        rewrite bool_decide_eq_true. intros H. by exists uid, u.
      - intros (uid & u & -> & H). by rewrite bool_decide_eq_true. }
    destruct Hdec as (Hown & Hsess & Hadm).
    by apply three_way_decision.
Qed.

(** ** Consuming a verification token *)

Lemma verify_email_run `{P : Platform} (w : World) (tok mail : string) id u
    stored expires :
  tok <> "" -> mail <> "" ->
  findOne_email (users w) mail = Some (id, u) ->
  isVerified u = false ->
  verifyToken u = Some stored -> stored <> "" ->
  verifyExpires u = Some expires ->
  let r := verify_email (Some tok) (Some mail) w in
  (sha256_hex tok <> stored \/ expires < clock w ->
     fst r = verify_failed /\ users (snd r) = users w)
  /\ (sha256_hex tok = stored -> clock w <= expires ->
      fst r = verify_success
      /\ users (snd r) = <[id := mark_verified_doc u]> (users w)).
Proof.
  intros Ht Hm Hf Hv Hs Hne He. cbv zeta.
  unfold verify_email. rewrite !truthy_Some by done. simpl.
  unfold_monad. rewrite Hf, Hv, Hs, He. rewrite truthy_Some by done. simpl.
  apply findOne_email_Some in Hf as [Hl _].
  destruct (decide (sha256_hex tok = stored)) as [Heq | Hneq].
  - rewrite bool_decide_eq_true_2 by done. simpl.
    destruct (Z.ltb_spec expires (clock w)) as [Hlt | Hge]; simpl.
    + split; [done | intros; lia].
    + split; [intros [? | ?]; [done | lia] |].
      intros _ _. split; [done |].
      by apply (alter_present (users w) (fun _ => mark_verified_doc u) id u).
  - rewrite bool_decide_eq_false_2 by done. simpl.
    split; [done | intros; done].
Qed.

(** The expiry written by [generateVerificationToken] is the clock reading at
    issuance plus the given lifetime. *)
Lemma generateVerificationToken_expiry `{P : Platform} (u0 : User) (ms : Z)
    (w0 : World) :
  let issued := snd (fst (generateVerificationToken u0 ms w0)) in
  verifyExpires issued = Some (clock w0 + ms)
  /\ isVerified issued = isVerified u0
  /\ exists plain, fst (fst (generateVerificationToken u0 ms w0)) = plain
       /\ verifyToken issued = Some (sha256_hex plain).
Proof.
  unfold generateVerificationToken. unfold_monad. simpl. eauto.
Qed.

(** C5. For an unverified identity that holds a stored token hash and expiry,
    [verify-email] with a supplied token answers with the failure page
    (invalid or expired token) and writes nothing whenever the hash of the
    supplied token differs from the stored hash or the expiry has passed, in
    particular for a token issued with the 24-hour lifetime and presented
    strictly later than 24 hours after issuance; with the matching token
    before expiry it sets [isVerified] and clears the hash and the expiry. *)
Theorem verify_email_consume `{P : Platform} (w : World) (tok mail : string)
    (id : ObjectId) (u : User) (stored : string) (expires : Z) :
  tok <> "" -> mail <> "" ->
  findOne_email (users w) mail = Some (id, u) ->
  isVerified u = false ->
  verifyToken u = Some stored -> stored <> "" ->
  verifyExpires u = Some expires ->
  let r := verify_email (Some tok) (Some mail) w in
  (sha256_hex tok <> stored \/ expires < clock w ->
     fst r = verify_failed /\ users (snd r) = users w)
  /\ (forall u0 w0,
        u = snd (fst (generateVerificationToken u0 default_expiresInMs w0)) ->
        clock w0 + 24 * 60 * 60 * 1000 < clock w ->
        fst r = verify_failed /\ users (snd r) = users w)
  /\ (sha256_hex tok = stored -> clock w <= expires ->
      fst r = verify_success
      /\ users (snd r) = <[id := mark_verified_doc u]> (users w)
      /\ isVerified (mark_verified_doc u) = true
      /\ verifyToken (mark_verified_doc u) = None
      /\ verifyExpires (mark_verified_doc u) = None).
Proof.
  intros Ht Hm Hf Hv Hs Hne He r.
  destruct (verify_email_run w tok mail id u stored expires Ht Hm Hf Hv Hs Hne He)
    as [Hfail Hok].
  fold r in Hfail, Hok.
  split; [exact Hfail |]. split.
  - intros u0 w0 Hu Hlate. apply Hfail. right.
    destruct (generateVerificationToken_expiry u0 default_expiresInMs w0)
      as (Hexp & _).
    cbv zeta in Hexp. rewrite <- Hu, He in Hexp. injection Hexp as ->.
    unfold default_expiresInMs. lia.
  - intros Heq Hle. destruct (Hok Heq Hle) as [H1 H2]. done.
Qed.

(** C6. Verification is idempotent.  For an identity that is already
    verified, [verify-email] with any supplied token reports success and
    leaves the world as it is, without looking at a stored token.  So two
    calls with the correct token both succeed: the first consumes the stored
    token, the second changes nothing. *)
Theorem verify_email_idempotent `{P : Platform} (w : World) (tok mail : string)
    (id : ObjectId) (u : User) :
  tok <> "" -> mail <> "" ->
  findOne_email (users w) mail = Some (id, u) ->
  (isVerified u = true ->
     verify_email (Some tok) (Some mail) w = (verify_success, w))
  /\ (forall expires,
        isVerified u = false -> unique_emails (users w) ->
        verifyToken u = Some (sha256_hex tok) -> sha256_hex tok <> "" ->
        verifyExpires u = Some expires -> clock w <= expires ->
        let r1 := verify_email (Some tok) (Some mail) w in
        fst r1 = verify_success
        /\ users (snd r1) !! id = Some (mark_verified_doc u)
        /\ forall w2, users w2 = users (snd r1) ->
             verify_email (Some tok) (Some mail) w2 = (verify_success, w2)).
Proof.
  intros Ht Hm Hf.
  assert (Hidem : forall w' id' u',
    findOne_email (users w') mail = Some (id', u') -> isVerified u' = true ->
    verify_email (Some tok) (Some mail) w' = (verify_success, w')).
  { intros w' id' u' Hf' Hv'. unfold verify_email.
    rewrite !truthy_Some by done. simpl. unfold_monad. by rewrite Hf', Hv'. }
  split; [intros Hv; by apply (Hidem w id u) |].
  intros expires Hv Huniq Hs Hne He Hle r1.
  destruct (verify_email_run w tok mail id u (sha256_hex tok) expires
              Ht Hm Hf Hv Hs Hne He) as [_ Hok].
  destruct (Hok eq_refl Hle) as [H1 H2]. fold r1 in H1, H2.
  apply findOne_email_Some in Hf as [Hl Hmail].
  split; [done |]. split; [rewrite H2; apply lookup_insert_eq |].
  intros w2 Hw2. apply (Hidem w2 id (mark_verified_doc u)); [| done].
  rewrite Hw2, H2.
  apply findOne_email_unique; [| apply lookup_insert_eq | exact Hmail].
  intros i j a b Hi Hj Hab.
  rewrite lookup_insert in Hi, Hj.
  destruct (decide (id = i)) as [<- | Hni], (decide (id = j)) as [<- | Hnj];
    [done | | |].
  - injection Hi as <-. by apply (Huniq id j u b).
  - injection Hj as <-. by apply (Huniq i id a u).
  - by apply (Huniq i j a b).
Qed.

(** ** Resending the verification mail *)


(** ** Lockout policy *)

Lemma isLocked_run `{P : Platform} (u : User) (w : World) :
  fst (isLocked u w)
  = match lockUntil u with Some l => clock w <? l | None => false end
  /\ users (snd (isLocked u w)) = users w
  /\ clock w <= clock (snd (isLocked u w)).
Proof.
  unfold isLocked. unfold_monad.
  destruct (lockUntil u); simpl; repeat split; lia.
Qed.

(** What [incLoginAttempts] writes, by the state of the loaded document:
    an expired lock restarts the count; otherwise the count goes up by one,
    together with a new lock when it reaches 5 on an unlocked document. *)
Lemma incLoginAttempts_cases `{P : Platform} (id : ObjectId) (this : User)
    (w : World) :
  let w' := snd (incLoginAttempts id this w) in
  clock w <= clock w'
  /\ ((exists l, lockUntil this = Some l /\ l < clock w
        /\ users w' = alter inc_reset id (users w))
      \/ ((forall l, lockUntil this = Some l -> clock w <= l)
          /\ ((5 <= loginAttempts this + 1
               /\ exists t, clock w <= t <= clock w'
                    /\ (forall l, lockUntil this = Some l -> l <= t)
                    /\ users w' = alter (inc_lock t) id (users w))
              \/ ((loginAttempts this + 1 < 5
                   \/ exists l t, lockUntil this = Some l /\ clock w <= t < l)
                  /\ users w' = alter inc_only id (users w))))).
Proof.
  cbv zeta. unfold incLoginAttempts, isLocked. unfold_monad.
  destruct (lockUntil this) as [l|] eqn:Hlock; simpl.
  - split_clock.
    + split; [lia |]. left. exists l. done.
    + split_clock.
      * split_clock.
        -- split; [lia |]. right. split; [intros ? [= <-]; lia |].
           right. split; [| done]. right. eexists l, _. split; [done |].
           split; [| eassumption]. lia.
        -- split; [lia |]. right. split; [intros ? [= <-]; lia |].
           left. split; [lia |]. eexists. split; [| split; [| reflexivity]].
           ++ lia.
           ++ intros ? [= <-]. lia.
      * split; [lia |]. right. split; [intros ? [= <-]; lia |].
        right. split; [left; lia | done].
  - split_clock.
    + split; [lia |]. right. split; [done |]. left. split; [lia |].
      eexists. split; [| split; [done | reflexivity]]. lia.
    + split; [lia |]. right. split; [done |]. right. split; [left; lia | done].
Qed.

Lemma login_found `{P : Platform} (env : Env) (w : World) (mail pw : string)
    (id : ObjectId) (u : User) :
  findOne_email (users w) mail = Some (id, u) ->
  isVerified u = true ->
  login env mail pw w =
  (let (locked, w1) := isLocked u w in
   if locked then (locked_reply u, w1)
   else if negb (isActive u) then (fail 401 "ACCOUNT_DEACTIVATED", w1)
   else if negb (comparePassword u pw) then
     (fail 401 "INVALID_CREDENTIALS", snd (incLoginAttempts id u w1))
   else
     let w2 := snd (resetLoginAttempts id w1) in
     let (signed, w3) := generateToken env id w2 in
     (match signed with
      | None => fail 500 "LOGIN_ERROR"
      | Some tok => with_token 200 tok (view_of id u)
      end, w3)).
Proof.
  intros Hf Hv. unfold login, bind, ret, User_findOne_email.
  rewrite Hf, Hv. cbn.
  destruct (isLocked u w) as [[] w1]; [done |].
  destruct (isActive u); [| done]. cbn.
  destruct (comparePassword u pw); cbn.
  - destruct (resetLoginAttempts id w1) as [[] w2]. cbn.
    destruct (generateToken env id w2) as [[tok|] w3]; done.
  - by destruct (incLoginAttempts id u w1) as [[] w2].
Qed.

(** The lockout of a verified identity: a failed-password login attempt that
    brings [loginAttempts] to 5 finds the identity unlocked and leaves it
    locked until two hours after a clock reading taken during the attempt;
    and while the identity is locked, a login attempt answers
    [ACCOUNT_LOCKED] whatever the password and writes nothing. *)
Lemma lockout_when_verified `{P : Platform} (env : Env) (w : World)
    (mail pw : string) (id : ObjectId) (u : User) :
  findOne_email (users w) mail = Some (id, u) ->
  isVerified u = true ->
  let r := login env mail pw w in
  (fst r = fail 401 "INVALID_CREDENTIALS" ->
   forall u', users (snd r) !! id = Some u' -> loginAttempts u' = 5 ->
     Unlocked u (clock w)
     /\ exists t, clock w <= t <= clock (snd r)
          /\ lockUntil u' = Some (t + 2 * 60 * 60 * 1000)
          /\ Locked u' t)
  /\ (Locked u (clock w) ->
      fst r = locked_reply u /\ users (snd r) = users w).
Proof.
  intros Hf Hv. cbv zeta. rewrite (login_found env w mail pw id u Hf Hv).
  apply findOne_email_Some in Hf as [Hl _].
  destruct (isLocked_run u w) as (Hb & Hu1 & Hc1).
  destruct (isLocked u w) as [locked w1]. simpl in Hb, Hu1, Hc1. subst locked.
  split.
  - destruct (lockUntil u) as [l|] eqn:Hlock.
    + destruct (Z.ltb_spec (clock w) l) as [Hlt | Hge]; [discriminate |].
      destruct (isActive u); cbn; [| discriminate].
      destruct (comparePassword u pw); cbn.
      { cbv zeta. destruct (generateToken _ _ _) as [[tok|] w3]; discriminate. }
      intros _ u' Hu' H5.
      split; [intros l' Hl'; rewrite Hlock in Hl'; injection Hl' as <-; lia |].
      destruct (incLoginAttempts_cases id u w1) as (Hc2 & Hcases).
      cbv zeta in Hc2, Hcases.
      destruct Hcases as [(l' & _ & _ & Hw) | (_ & [(_ & t & Ht & Hlt & Hw)
                            | ([Hlow | (l' & t & Hl' & Ht)] & Hw)])];
        rewrite Hw, lookup_alter, decide_True, Hu1, Hl in Hu' by done;
        injection Hu' as <-; simpl in H5.
      * discriminate.
      * exists t. split; [lia |]. split; [reflexivity |].
        eexists. split; [reflexivity | lia].
      * lia.
      * rewrite Hlock in Hl'. injection Hl' as <-. lia.
    + destruct (isActive u); cbn; [| discriminate].
      destruct (comparePassword u pw); cbn.
      { cbv zeta. destruct (generateToken _ _ _) as [[tok|] w3]; discriminate. }
      intros _ u' Hu' H5.
      split; [intros l' Hl'; rewrite Hlock in Hl'; discriminate |].
      destruct (incLoginAttempts_cases id u w1) as (Hc2 & Hcases).
      cbv zeta in Hc2, Hcases.
      destruct Hcases as [(l' & Hl' & _) | (_ & [(_ & t & Ht & Hlt & Hw)
                            | ([Hlow | (l' & t & Hl' & Ht)] & Hw)])];
        try (rewrite Hlock in Hl'; discriminate);
        rewrite Hw, lookup_alter, decide_True, Hu1, Hl in Hu' by done;
        injection Hu' as <-; simpl in H5.
      * exists t. split; [lia |]. split; [reflexivity |].
        eexists. split; [reflexivity | lia].
      * lia.
  - intros (l & Hlock & Hlt). rewrite Hlock.
    destruct (Z.ltb_spec (clock w) l); [done | lia].
Qed.

(** C8. When the lock of an identity lies in the past at a failed-password
    login attempt, the attempt sets [loginAttempts] to exactly 1 and removes
    the expired lock. *)
Theorem expired_lock_restarts_count `{P : Platform} (env : Env) (w : World)
    (mail pw : string) (id : ObjectId) (u : User) (l : Z) :
  findOne_email (users w) mail = Some (id, u) ->
  isVerified u = true -> isActive u = true ->
  comparePassword u pw = false ->
  lockUntil u = Some l -> l < clock w ->
  let r := login env mail pw w in
  fst r = fail 401 "INVALID_CREDENTIALS"
  /\ users (snd r) = <[id := inc_reset u]> (users w)
  /\ loginAttempts (inc_reset u) = 1
  /\ lockUntil (inc_reset u) = None.
Proof.
  intros Hf Hv Ha Hp Hlock Hlt. cbv zeta.
  rewrite (login_found env w mail pw id u Hf Hv).
  apply findOne_email_Some in Hf as [Hl _].
  destruct (isLocked_run u w) as (Hb & Hu1 & Hc1).
  destruct (isLocked u w) as [locked w1]. simpl in Hb, Hu1, Hc1. subst locked.
  rewrite Hlock, Ha, Hp.
  destruct (Z.ltb_spec (clock w) l); [lia |]. simpl.
  split; [done |]. split; [| done].
  destruct (incLoginAttempts_cases id u w1) as (Hc2 & Hcases).
  cbv zeta in Hc2, Hcases.
  destruct Hcases as [(l' & _ & _ & Hw) | (Hnot & _)].
  - rewrite Hw, Hu1. by apply alter_present.
  - specialize (Hnot l Hlock). lia.
Qed.

(** ** The verification invariant *)

Lemma store_step_refl (m : gmap ObjectId User) : store_step m m.
Proof.
  intros id new Hl Hv. right. exists new. done.
Qed.

Lemma store_step_trans (m1 m2 m3 : gmap ObjectId User) :
  store_step m1 m2 -> store_step m2 m3 -> store_step m1 m3.
Proof.
  intros H12 H23 id new Hl Hv.
  destruct (H23 id new Hl Hv) as [Hclean | (o & Ho & Hov & Ht & He)];
    [by left |].
  destruct (H12 id o Ho Hov) as [[Ht' He'] | (o' & Ho' & Hov' & Ht' & He')].
  - left. by rewrite Ht, He.
  - right. exists o'. rewrite Ht, He. done.
Qed.

Lemma store_step_alter (m : gmap ObjectId User) (f : User -> User) id :
  (forall o, m !! id = Some o -> doc_step (Some o) (f o)) ->
  store_step m (alter f id m).
Proof.
  intros Hf j new Hl. rewrite lookup_alter in Hl.
  case_decide as Hj.
  - subst j. destruct (m !! id) as [o|] eqn:Ho; [| discriminate].
    injection Hl as <-. by apply Hf.
  - rewrite Hl. intros Hv. right. by exists new.
Qed.

Lemma store_step_insert (m : gmap ObjectId User) id (d : User) :
  doc_step (m !! id) d -> store_step m (<[id := d]> m).
Proof.
  intros Hd j new Hl. rewrite lookup_insert in Hl.
  case_decide as Hj.
  - subst j. by injection Hl as <-.
  - rewrite Hl. intros Hv. right. by exists new.
Qed.

Lemma store_step_keeps (m : gmap ObjectId User) f id :
  keeps_verification f -> store_step m (alter f id m).
Proof.
  intros Hk. apply store_step_alter. intros o _ Hv.
  destruct (Hk o) as (H1 & H2 & H3). right. exists o. rewrite <- H1. done.
Qed.

Lemma doc_step_unverified (old : option User) (d : User) :
  isVerified d = false -> doc_step old d.
Proof. intros H Hv. congruence. Qed.

Lemma doc_step_mark_verified (old : option User) (d : User) :
  doc_step old (mark_verified_doc d).
Proof. intros _. by left. Qed.

Lemma generateVerificationToken_users `{P : Platform} u ms w :
  users (snd (generateVerificationToken u ms w)) = users w.
Proof. reflexivity. Qed.

Lemma save_new_cases `{P : Platform} (id : ObjectId) (doc : User) (w : World) :
  let r := save_new id doc w in
  (fst r = None /\ users (snd r) = users w)
  \/ (exists salt,
        let hashed := set_password (bcrypt_hash (password doc) salt) doc in
        fst r = Some (id, hashed)
        /\ users w !! id = None
        /\ users (snd r) = <[id := hashed]> (users w)).
Proof.
  cbv zeta. unfold save_new. unfold_monad.
  destruct (schema_valid doc); simpl; [| by left].
  destruct (users w !! id) eqn:Hl; simpl; [by left |].
  destruct (email_index (users w) (email doc)); simpl; [by left |].
  right. by eexists.
Qed.

Lemma save_new_clock `{P : Platform} (id : ObjectId) (doc : User) (w : World) :
  clock (snd (save_new id doc w)) = clock w.
Proof.
  unfold save_new. unfold_monad.
  destruct (schema_valid doc); simpl; [| done].
  destruct (users w !! id); simpl; [done |].
  by destruct (email_index (users w) (email doc)).
Qed.

Lemma incLoginAttempts_store_step `{P : Platform} id this w :
  store_step (users w) (users (snd (incLoginAttempts id this w))).
Proof.
  destruct (incLoginAttempts_cases id this w) as (_ & Hcases).
  cbv zeta in Hcases.
  destruct Hcases as [(l' & _ & _ & Hw) | (_ & [(_ & t & _ & _ & Hw) | (_ & Hw)])];
    rewrite Hw; by apply store_step_keeps.
Qed.

Lemma login_store_step `{P : Platform} env mail pw w :
  store_step (users w) (users (snd (login env mail pw w))).
Proof.
  destruct (findOne_email (users w) mail) as [[id u]|] eqn:Hf;
    [destruct (isVerified u) eqn:Hv |].
  - rewrite (login_found env w mail pw id u Hf Hv).
    destruct (isLocked_run u w) as (_ & Hu1 & _).
    destruct (isLocked u w) as [locked w1]. simpl in Hu1.
    rewrite <- Hu1.
    destruct locked; [apply store_step_refl |].
    destruct (isActive u); cbn; [| apply store_step_refl].
    destruct (comparePassword u pw); cbn.
    + destruct (generateToken _ _ _) as [signed w3] eqn:Hg.
      assert (Hu3 : users w3 = users (snd (resetLoginAttempts id w1))).
      { change w3 with (snd (signed, w3)). rewrite <- Hg. reflexivity. }
      cbn. rewrite Hu3. by apply store_step_keeps.
    + apply incLoginAttempts_store_step.
  - unfold login. unfold_monad. rewrite Hf, Hv. apply store_step_refl.
  - unfold login. unfold_monad. rewrite Hf. apply store_step_refl.
Qed.

Lemma register_store_step `{P : Platform} env nm mail pw w :
  store_step (users w) (users (snd (register env nm mail pw w))).
Proof.
  unfold register. unfold bind, ret, User_findOne_email, new_ObjectId.
  destruct (findOne_email (users w) mail); [apply store_step_refl |].
  destruct (generateVerificationToken _ _ _) as [issued w1] eqn:Hg.
  pose proof (generateVerificationToken_users
                (new_User nm mail pw RoleUser false) default_expiresInMs
                (mkWorld (users w) (clock w) (drift w) (entropy w)
                   (N.succ (nextId w)))) as Hu1.
  destruct (generateVerificationToken_expiry
              (new_User nm mail pw RoleUser false) default_expiresInMs
              (mkWorld (users w) (clock w) (drift w) (entropy w)
                 (N.succ (nextId w)))) as (_ & Hver & _).
  cbv zeta in Hver. rewrite Hg in Hu1, Hver. simpl in Hu1, Hver.
  rewrite <- Hu1.
  destruct (save_new_cases (nextId w) (snd issued) w1) as
    [[Hr Hu2] | (salt & Hr & Hnew & Hu2)]; cbv zeta in *;
    destruct (save_new (nextId w) (snd issued) w1) as [saved w2];
    simpl in Hr, Hu2; subst saved.
  - rewrite <- Hu2. apply store_step_refl.
  - destruct (generateToken env (nextId w) w2) as [signed w3] eqn:Ht.
    assert (Hu3 : users w3 = users w2).
    { change w3 with (snd (signed, w3)). rewrite <- Ht. reflexivity. }
    assert (Hgoal : store_step (users w1) (users w3)).
    { rewrite Hu3, Hu2. apply store_step_insert.
      by apply doc_step_unverified. }
    by destruct signed.
Qed.

Lemma verify_email_store_step `{P : Platform} tok mail w :
  store_step (users w) (users (snd (verify_email tok mail w))).
Proof.
  unfold verify_email. unfold_monad.
  destruct tok as [t|], mail as [m|]; try apply store_step_refl.
  destruct (negb (truthy (Some t)) || negb (truthy (Some m)));
    [apply store_step_refl |].
  destruct (findOne_email (users w) m) as [[id u]|]; [| apply store_step_refl].
  destruct (isVerified u); [apply store_step_refl |].
  destruct (verifyToken u) as [stored|]; [| apply store_step_refl].
  destruct (verifyExpires u) as [expires|]; [| apply store_step_refl].
  destruct (negb (truthy (Some stored))); [apply store_step_refl |].
  destruct (negb (bool_decide (sha256_hex t = stored)));
    [apply store_step_refl |].
  simpl. destruct (expires <? clock w); simpl; [apply store_step_refl |].
  apply store_step_alter. intros o _. apply (doc_step_mark_verified _ u).
Qed.

Lemma resend_store_step `{P : Platform} env mail w :
  store_step (users w) (users (snd (resend_verification env mail w))).
Proof.
  unfold resend_verification. unfold bind, ret, User_findOne_email.
  destruct mail as [m|]; [| apply store_step_refl].
  destruct (negb (truthy (Some m))); [apply store_step_refl |].
  destruct (findOne_email (users w) m) as [[id u]|]; [| apply store_step_refl].
  destruct (isVerified u) eqn:Hv; [apply store_step_refl |].
  unfold Date_now at 1. cbn.
  match goal with
  | |- context [match ?c with Some _ => _ | None => _ end] =>
    destruct c; [apply store_step_refl |]
  end.
  match goal with
  | |- context [generateVerificationToken u default_expiresInMs ?w1] =>
    pose proof (generateVerificationToken_users u default_expiresInMs w1) as Hu1;
    destruct (generateVerificationToken_expiry u default_expiresInMs w1)
      as (_ & Hver & _);
    cbv zeta in Hver;
    destruct (generateVerificationToken u default_expiresInMs w1)
      as [issued w2]
  end.
  simpl in Hu1, Hver. unfold save. cbn. rewrite Hu1. cbn.
  apply store_step_alter. intros o _. apply doc_step_unverified. congruence.
Qed.

Lemma mark_verified_store_step `{P : Platform} id w :
  store_step (users w) (users (snd (mark_verified_by_id id w))).
Proof.
  unfold mark_verified_by_id, markVerified. unfold_monad.
  destruct (users w !! id) as [u|]; simpl; [| apply store_step_refl].
  apply store_step_alter. intros o _. apply (doc_step_mark_verified _ u).
Qed.

Lemma User_createAdmin_cases `{P : Platform} (mail pw nm : string) (w : World) :
  findOne_role (users w) RoleAdmin = None ->
  let r := User_createAdmin mail pw nm w in
  (fst r = None /\ users (snd r) = users w)
  \/ (exists id salt,
        let hashed := set_password (bcrypt_hash pw salt)
                        (new_User nm mail pw RoleAdmin false) in
        fst r = Some (id, hashed)
        /\ users w !! id = None
        /\ users (snd r) = <[id := hashed]> (users w)).
Proof.
  intros Hnone. cbv zeta.
  unfold User_createAdmin. unfold bind, ret, User_findOne_email_role, new_ObjectId.
  destruct (findOne_email_role (users w) mail RoleAdmin) as [[id u]|] eqn:Hf.
  - apply findOne_email_role_Some in Hf as (Hl & _ & Hr).
    exfalso. by apply (findOne_role_None _ _ Hnone id u).
  - match goal with
    | |- context [save_new ?i ?d ?w1] =>
      destruct (save_new_cases i d w1) as [H | (salt & H)]
    end.
    + by left.
    + right. exists (nextId w), salt. exact H.
Qed.

Lemma create_admin_store_step `{P : Platform} env nm mail pw w :
  store_step (users w) (users (snd (create_admin env nm mail pw w))).
Proof.
  unfold create_admin. unfold bind, ret, User_findOne_role.
  destruct (bool_decide (NODE_ENV env = Some "production"));
    [apply store_step_refl |].
  destruct (findOne_role (users w) RoleAdmin) eqn:Hrole;
    [apply store_step_refl |].
  match goal with
  | |- context [User_createAdmin ?a ?b ?c w] =>
    destruct (User_createAdmin_cases a b c w Hrole) as
      [[Hr Hu] | (id & salt & Hr & Hnew & Hu)]; cbv zeta in *;
    destruct (User_createAdmin a b c w) as [created w1]
  end; simpl in Hr, Hu; subst created.
  - rewrite <- Hu. apply store_step_refl.
  - unfold save. cbn.
    match goal with
    | |- context [generateToken env id ?w2] =>
      destruct (generateToken env id w2) as [signed w3] eqn:Ht;
      assert (Hu3 : users w3 = users w2)
        by (change w3 with (snd (signed, w3)); rewrite <- Ht; reflexivity)
    end.
    assert (Hgoal : store_step (users w) (users w3)).
    { rewrite Hu3. cbn.
      apply (store_step_trans _ (users w1)).
      - rewrite Hu. apply store_step_insert. by apply doc_step_unverified.
      - apply store_step_alter. intros o _ _. by left. }
    by destruct signed.
Qed.

Lemma perform_store_step `{P : Platform} env op w :
  store_step (users w) (users (perform env op w)).
Proof.
  destruct op; simpl.
  - apply register_store_step.
  - apply login_store_step.
  - apply create_admin_store_step.
  - apply verify_email_store_step.
  - apply resend_store_step.
  - apply mark_verified_store_step.
Qed.

Lemma store_step_invariant (m m' : gmap ObjectId User) :
  store_step m m' -> verification_invariant m -> verification_invariant m'.
Proof.
  intros Hs Hinv id new Hl Hv.
  destruct (Hs id new Hl Hv) as [Hclean | (o & Ho & Hov & Ht & He)]; [done |].
  rewrite Ht, He. by apply (Hinv id o).
Qed.

(** C9. Along the operations in scope (registration, login, admin bootstrap,
    verification, [markVerified], resend) every stored identity that is
    verified has neither a token hash nor an expiry: one operation leaves a
    verified document either with both paths cleared, or as a document that
    was verified before with both paths untouched, so every operation that
    sets [isVerified] clears them and no token is issued to a verified
    identity; hence the invariant, once true, stays true, and it is true of
    every collection built from the empty one. *)
Theorem verification_invariant_preserved `{P : Platform} (env : Env) :
  (forall op w, store_step (users w) (users (perform env op w)))
  /\ (forall ops w,
        verification_invariant (users w) ->
        verification_invariant (users (perform_all env ops w)))
  /\ (forall ops w,
        users w = ∅ ->
        verification_invariant (users (perform_all env ops w))).
Proof.
  assert (Hall : forall ops w,
            verification_invariant (users w) ->
            verification_invariant (users (perform_all env ops w))).
  { induction ops as [|op ops IH]; intros w Hinv; simpl; [done |].
    apply IH. eapply store_step_invariant; [apply perform_store_step | done]. }
  split; [apply perform_store_step |]. split; [exact Hall |].
  intros ops w Hempty. apply Hall. intros id u Hl.
  rewrite Hempty in Hl. by rewrite lookup_empty in Hl.
Qed.

(** ** Tokens handed out at registration *)

Lemma split_on_no_sep (sep : ascii) (s : string) :
  ~ In sep (list_ascii_of_string s) -> split_on sep s = [s].
Proof.
  induction s as [|c s IH]; simpl; [done |].
  intros Hn. destruct (Ascii.eqb_spec c sep) as [-> | Hne]; [tauto |].
  rewrite IH by tauto. done.
Qed.

Lemma bearer_of_header (req : Request) (tok : string) :
  ~ In " "%char (list_ascii_of_string tok) ->
  authorization req = Some (String.append "Bearer " tok) ->
  bearer req = Some tok.
Proof.
  intros Hn Ha. unfold bearer. rewrite Ha.
  rewrite truthy_Some by (simpl; discriminate). simpl.
  change (String.append "" tok) with tok.
  by rewrite (split_on_no_sep _ _ Hn).
Qed.

(** Under the contract of jsonwebtoken, a token signed for an identity is
    accepted by [authenticateToken] until it expires, as long as the identity
    is stored, active and not locked; [req.user] is then that identity,
    loaded without its password. *)
Lemma accepts_signed_token `{P : Platform} {J : JwtContract P} (env : Env)
    (id : ObjectId) (u : User) (tok : string) (tsign : Z) (req : Request)
    (w2 : World) :
  jwt_sign id (JWT_SECRET env) (or_default (JWT_EXPIRES_IN env) "7d")
    "portfolio-api" "portfolio-client" tsign = Some tok ->
  authorization req = Some (String.append "Bearer " tok) ->
  users w2 !! id = Some u ->
  isActive u = true ->
  Unlocked u (clock w2) ->
  clock w2 / 1000
    < tsign / 1000 + jwt_seconds (or_default (JWT_EXPIRES_IN env) "7d") ->
  fst (authenticateToken env req w2)
  = Next (set_req_user (Some (id, set_password "" u)) req).
Proof.
  intros Hsign Hauth Hl Ha Hun Hexp.
  destruct (jwt_sign_compact _ _ _ _ _ _ _ Hsign) as [Hne Hnb].
  destruct (jwt_sign_verify _ _ _ _ _ _ _ (clock w2) Hsign Hexp)
    as (d & Hd & Hid).
  unfold authenticateToken.
  rewrite (bearer_of_header req tok Hnb Hauth).
  rewrite truthy_Some by done. cbn.
  unfold bind, ret, Date_now. cbn. rewrite Hd.
  unfold load_decoded. rewrite Hid. unfold bind, ret, User_findById. cbn.
  rewrite Hl. cbn. rewrite Ha. cbn.
  match goal with
  | |- context [isLocked ?x ?w3] =>
    destruct (isLocked_run x w3) as (Hb & _ & _);
    destruct (isLocked x w3) as [locked w4]
  end.
  simpl in Hb. subst locked.
  destruct (lockUntil u) as [l|] eqn:Hlock; [| done].
  specialize (Hun l Hlock).
  destruct (Z.ltb_spec (clock w2 + Z.of_N (hd 0%N (drift w2))) l); [lia | done].
Qed.

Lemma generateToken_roundtrip `{P : Platform} {J : JwtContract P} (env : Env)
    (id : ObjectId) (u : User) (w : World) (tok : string) (req : Request)
    (w2 : World) :
  fst (generateToken env id w) = Some tok ->
  authorization req = Some (String.append "Bearer " tok) ->
  users w2 !! id = Some u ->
  isActive u = true ->
  Unlocked u (clock w2) ->
  clock w2 / 1000
    < clock w / 1000 + jwt_seconds (or_default (JWT_EXPIRES_IN env) "7d") ->
  fst (authenticateToken env req w2)
  = Next (set_req_user (Some (id, set_password "" u)) req).
Proof.
  intros Hsign. by apply accepts_signed_token.
Qed.

(** *** Changed tokens *)

Lemma xs_char (k : nat) (pre : string) (d : ascii) (post : string) :
  xs k = String.append pre (String d post) -> d = "x"%char.
Proof.
  revert k. induction pre as [|a pre IH]; intros [|k]; simpl; try discriminate.
  - by intros [= <- _].
  - intros [= _ H]. by apply (IH k).
Qed.

Lemma one_char_changed_xs (k : nat) (tok' : string) :
  one_char_changed (xs k) tok' -> tok' <> xs (String.length tok').
Proof.
  intros (pre & c & d & post & Ha & Hb & Hcd) Hx.
  apply xs_char in Ha. rewrite Hb in Hx at 1. symmetry in Hx.
  apply xs_char in Hx. congruence.
Qed.

Lemma one_char_changed_nonempty (a b : string) :
  one_char_changed a b -> b <> "".
Proof. intros (pre & c & d & post & _ & -> & _). by destruct pre. Qed.

Lemma sample_tamper : JwtTamperContract sample_platform.
Proof.
  split; simpl; unfold sample_sign.
  intros uid [s|] _ _ _ _ tok tok' _ H Hchanged; [| discriminate].
  injection H as <-. unfold sample_verify.
  rewrite (bool_decide_eq_false_2 (tok' = xs (String.length tok')))
    by (by apply (one_char_changed_xs (S (N.to_nat uid)))).
  by eexists.
Qed.

Lemma parsing_contract : JwtContract parsing_platform.
Proof.
  split; simpl; unfold sample_sign.
  - intros uid [s|] _ _ _ _ tok _ H _; [| discriminate].
    injection H as <-. simpl. unfold sample_verify.
    simpl String.length. rewrite length_xs.
    rewrite bool_decide_eq_true_2 by reflexivity. simpl.
    eexists. split; [reflexivity |]. simpl.
    by rewrite N2Nat.id.
  - intros uid [s|] _ _ _ _ tok H; [| discriminate].
    injection H as <-. split; [discriminate |].
    intros [Hb | Hb]; [discriminate |].
    by apply (xs_no_blank (S (N.to_nat uid))).
Qed.

(** What [authenticateToken] answers when [jwt.verify] throws: the catch
    block, by the name of the error. *)
Lemma authenticateToken_throws `{P : Platform} (env : Env) (req : Request)
    (w : World) (tok errorName : string) :
  bearer req = Some tok -> tok <> "" ->
  jwt_verify tok (JWT_SECRET env) (clock w) = JwtThrows errorName ->
  users (snd (authenticateToken env req w)) = users w
  /\ (errorName = "JsonWebTokenError" ->
      fst (authenticateToken env req w) = Respond (fail 401 "INVALID_TOKEN"))
  /\ (errorName = "TokenExpiredError" ->
      fst (authenticateToken env req w) = Respond (fail 401 "TOKEN_EXPIRED"))
  /\ (errorName <> "JsonWebTokenError" -> errorName <> "TokenExpiredError" ->
      fst (authenticateToken env req w) = Respond (fail 500 "AUTH_ERROR")).
Proof.
  intros Hb Hne Hthrows. unfold authenticateToken. rewrite Hb.
  rewrite truthy_Some by done. cbn. unfold bind, ret, Date_now. cbn.
  rewrite Hthrows.
  destruct (decide (errorName = "JsonWebTokenError")) as [-> | H1].
  - cbn. split; [done |]. split; [done |]. split; [discriminate | done].
  - rewrite (bool_decide_eq_false_2 _ H1).
    destruct (decide (errorName = "TokenExpiredError")) as [-> | H2].
    + cbn. split; [done |]. split; [done |]. split; [done | done].
    + rewrite (bool_decide_eq_false_2 _ H2). cbn.
      split; [done |]. split; [done |]. split; [done | done].
Qed.

(** C4, as the code has it.  A token issued by [generateToken] for an
    identity is accepted by [authenticateToken] until it expires, and the
    request goes on as that identity (stored, active and not locked).  A
    token in which one character has been changed to another that is not a
    blank is never accepted: [jwt.verify] throws, nothing is written, and the
    answer follows the name of the error, 401 [INVALID_TOKEN] for a
    [JsonWebTokenError], 401 [TOKEN_EXPIRED] for a [TokenExpiredError] and
    500 [AUTH_ERROR] for any other.  A token that has come to begin with a
    blank is not looked at: the answer is 401 [MISSING_TOKEN]. *)
Theorem token_roundtrip_and_tamper `{P : Platform} {J : JwtContract P}
    {T : JwtTamperContract P} (env : Env) (id : ObjectId) (w : World)
    (tok : string) :
  fst (generateToken env id w) = Some tok ->
  (forall u req w2,
     authorization req = Some (String.append "Bearer " tok) ->
     users w2 !! id = Some u -> isActive u = true ->
     Unlocked u (clock w2) ->
     clock w2 / 1000 < clock w / 1000 + token_seconds env ->
     fst (authenticateToken env req w2)
     = Next (set_req_user (Some (id, set_password "" u)) req))
  /\ (forall tok' req w2,
        one_char_changed tok tok' ->
        ~ In " "%char (list_ascii_of_string tok') ->
        authorization req = Some (String.append "Bearer " tok') ->
        users (snd (authenticateToken env req w2)) = users w2
        /\ exists errorName,
             jwt_verify tok' (JWT_SECRET env) (clock w2) = JwtThrows errorName
             /\ (errorName = "JsonWebTokenError" ->
                 fst (authenticateToken env req w2)
                 = Respond (fail 401 "INVALID_TOKEN"))
             /\ (errorName = "TokenExpiredError" ->
                 fst (authenticateToken env req w2)
                 = Respond (fail 401 "TOKEN_EXPIRED"))
             /\ (errorName <> "JsonWebTokenError" ->
                 errorName <> "TokenExpiredError" ->
                 fst (authenticateToken env req w2)
                 = Respond (fail 500 "AUTH_ERROR")))
  /\ (forall rest req w2,
        authorization req
        = Some (String.append "Bearer " (String " " rest)) ->
        authenticateToken env req w2
        = (Respond (fail 401 "MISSING_TOKEN"), w2)).
Proof.
  intros Hsign. split; [| split].
  - intros u req w2 Hauth Hl Ha Hun Hexp.
    by apply (accepts_signed_token env id u tok (clock w) req w2).
  - intros tok' req w2 Hchanged Hnb Hauth.
    destruct (jwt_verify_changed id (JWT_SECRET env)
                (or_default (JWT_EXPIRES_IN env) "7d")
                "portfolio-api" "portfolio-client" (clock w) tok tok'
                (clock w2) Hsign Hchanged) as (errorName & Hthrows).
    destruct (authenticateToken_throws env req w2 tok' errorName
                (bearer_of_header req tok' Hnb Hauth)
                (one_char_changed_nonempty tok tok' Hchanged) Hthrows)
      as (Hu & H1 & H2 & H3).
    split; [exact Hu |]. by exists errorName.
  - intros rest req w2 Hauth. unfold authenticateToken, bearer.
    rewrite Hauth. rewrite truthy_Some by (simpl; discriminate). by simpl.
Qed.

(** What a registration answered with 201 has done. *)
Lemma register_success `{P : Platform} (env : Env) (w : World)
    (nm mail pw : string) (body : JsonBody) (w1 : World) :
  register env nm mail pw w = (json 201 body, w1) ->
  exists tok u tsign,
    body = mkBody None (Some tok) None None None (Some (view_of (nextId w) u))
    /\ findOne_email (users w) mail = None
    /\ users w !! nextId w = None
    /\ users w1 = <[nextId w := u]> (users w)
    /\ email u = cast_email mail /\ isVerified u = false /\ isActive u = true
    /\ lockUntil u = None
    /\ clock w <= tsign
    /\ jwt_sign (nextId w) (JWT_SECRET env)
         (or_default (JWT_EXPIRES_IN env) "7d")
         "portfolio-api" "portfolio-client" tsign = Some tok.
Proof.
  unfold register. unfold bind, ret, User_findOne_email, new_ObjectId.
  destruct (findOne_email (users w) mail) eqn:Hf; [discriminate |].
  unfold generateVerificationToken. unfold_monad. cbn.
  match goal with
  | |- context [save_new ?i ?d ?w0] =>
    destruct (save_new_cases i d w0) as [[Hr Hu] | (salt & Hr & Hnew & Hu)];
    cbv zeta in *;
    destruct (save_new i d w0) as [saved w2] eqn:Hs
  end; simpl in Hr, Hu; subst saved; [discriminate |].
  unfold generateToken. unfold_monad.
  assert (Hc : clock w <= clock w2).
  { change w2 with (snd (Some (nextId w,
        set_password (bcrypt_hash pw salt)
          (set_lastVerificationSent (Some (clock w + Z.of_N (hd 0%N (drift w))))
             (set_verifyExpires (Some (clock w + default_expiresInMs))
                (set_verifyToken (Some (sha256_hex (hd "" (entropy w))))
                   (new_User nm mail pw RoleUser false))))), w2)).
    rewrite <- Hs, save_new_clock. simpl. lia. }
  destruct (jwt_sign _ _ _ _ _ (clock w2)) as [tok|] eqn:Hsign; [| discriminate].
  intros [= <- <-]. eexists tok, _, (clock w2).
  split; [reflexivity |]. simpl in Hnew, Hu.
  split; [done |]. split; [exact Hnew |]. split; [exact Hu |].
  repeat split; try done.
Qed.

(** C10. A registration answered with 201 carries a bearer token for the
    identity it has just stored, under the e-mail of the request cast to the
    path, which is not verified; presented to
    [authenticateToken] before it expires, with the stored identity as
    registration left it, that token is accepted and the unverified identity
    becomes [req.user] (the middleware looks at existence, [isActive] and the
    lock, never at [isVerified]), while [login] for the same identity is
    refused with [EMAIL_NOT_VERIFIED]. *)
Theorem registration_token_accepted_unverified `{P : Platform}
    {J : JwtContract P} (env : Env) (w : World) (nm mail pw : string)
    (body : JsonBody) (w1 : World) :
  register env nm mail pw w = (json 201 body, w1) ->
  exists tok id u,
    token body = Some tok
    /\ users w1 !! id = Some u /\ email u = cast_email mail
    /\ isVerified u = false
    /\ (forall req w2,
          authorization req = Some (String.append "Bearer " tok) ->
          users w2 !! id = Some u ->
          clock w2 / 1000
            < clock w / 1000 + jwt_seconds (or_default (JWT_EXPIRES_IN env) "7d") ->
          fst (authenticateToken env req w2)
          = Next (set_req_user (Some (id, set_password "" u)) req))
    /\ (forall pw', fst (login env mail pw' w1) = fail 403 "EMAIL_NOT_VERIFIED").
Proof.
  intros Hreg.
  destruct (register_success env w nm mail pw body w1 Hreg) as
    (tok & u & tsign & -> & Hnone & Hfresh & Hu & Hmail & Hv & Ha & Hlock
       & Hc & Hsign).
  exists tok, (nextId w), u. simpl.
  split; [done |]. split; [rewrite Hu; apply lookup_insert_eq |].
  split; [done |]. split; [done |]. split.
  - intros req w2 Hauth Hl Hexp.
    apply (accepts_signed_token env (nextId w) u tok tsign req w2);
      try done.
    + intros l Hl'. rewrite Hlock in Hl'. discriminate.
    + assert (clock w / 1000 <= tsign / 1000) by (apply Z.div_le_mono; lia).
      lia.
  - intros pw'.
    assert (Hf : findOne_email (users w1) mail = Some (nextId w, u)).
    { destruct (findOne_email (users w1) mail) as [[j v]|] eqn:Hf.
      - apply findOne_email_Some in Hf as [Hj Hjm].
        rewrite Hu, lookup_insert in Hj. case_decide as Hd.
        + subst j. by injection Hj as <-.
        + exfalso. by apply (findOne_email_None _ _ Hnone j v).
      - exfalso. apply (findOne_email_None _ _ Hf (nextId w) u); [| done].
        rewrite Hu. apply lookup_insert_eq. }
    unfold login. unfold bind, ret, User_findOne_email. by rewrite Hf, Hv.
Qed.

(** ** Concrete runs

    The theorems above, applied to the sample identities on the sample
    platform. *)

Lemma login_unverified_gated_witness :
  login (P := sample_platform) sample_env "bob@example.com" "pw" world_bob_locked
  = (fail 403 "EMAIL_NOT_VERIFIED", world_bob_locked).
Proof.
  apply (login_unverified_gated (P := sample_platform) sample_env
           world_bob_locked "bob@example.com" "pw" 7%N bob_locked);
    reflexivity.
Defined.

Lemma checkOwnership_decision_witness :
  checkOwnership sample_tasks "id" (request_for "t1" None (Some "abc"))
  = Next (set_req_resource (Some task_abc) (request_for "t1" None (Some "abc")))
  /\ checkOwnership sample_tasks "id" (request_for "t1" None (Some "xyz"))
     = Respond (fail 403 "ACCESS_DENIED")
  /\ checkOwnership sample_tasks "id" (request_for "t1" (Some (1%N, alice)) None)
     = Respond (fail 403 "ACCESS_DENIED")
  /\ checkOwnership sample_tasks "id" (request_for "t1" (Some (9%N, root)) None)
     = Next (set_req_resource (Some task_abc)
               (request_for "t1" (Some (9%N, root)) None))
  /\ checkOwnership sample_tasks "id" (request_for "t2" None (Some "abc"))
     = Respond (fail 404 "NOT_FOUND")
  /\ checkOwnership sample_tasks "id" (request_for "bad id" None (Some "abc"))
     = Respond (fail 500 "OWNERSHIP_CHECK_ERROR").
Proof.
  split; [| split; [| split; [| split; [| split]]]].
  - apply (proj1 (checkOwnership_decision sample_tasks "id"
                    (request_for "t1" None (Some "abc"))) task_abc eq_refl).
    right. right. exists "abc". repeat split. discriminate.
  - apply (proj1 (checkOwnership_decision sample_tasks "id"
                    (request_for "t1" None (Some "xyz"))) task_abc eq_refl).
    intros [(uid & u & H & _) | [(uid & u & H & _) | (s & H1 & _ & H2)]];
      simpl in *; congruence.
  - apply (proj1 (checkOwnership_decision sample_tasks "id"
                    (request_for "t1" (Some (1%N, alice)) None)) task_abc eq_refl).
    intros [(uid & u & H & Hr) | [(uid & u & H & [Ho | Ho]) | (s & H1 & _)]];
      simpl in *; try congruence.
    injection H as <- <-. discriminate.
  - apply (proj1 (checkOwnership_decision sample_tasks "id"
                    (request_for "t1" (Some (9%N, root)) None)) task_abc eq_refl).
    left. exists 9%N, root. split; reflexivity.
  - apply (proj1 (proj2 (checkOwnership_decision sample_tasks "id"
                           (request_for "t2" None (Some "abc"))))).
    reflexivity.
  - apply (proj1 (proj2 (proj2 (checkOwnership_decision sample_tasks "id"
                                  (request_for "bad id" None (Some "abc")))))).
    reflexivity.
Defined.

(** An id that cannot be cast names no stored task, yet the answer is 500
    [OWNERSHIP_CHECK_ERROR], not [NOT_FOUND]: [findById] rejects and the
    middleware reports its own failure. *)
Lemma malformed_id_not_NotFound :
  stored_tasks_docs !! "not-an-id" = None
  /\ (forall r, findById stored_tasks (Some "not-an-id") <> Resolved (Some r))
  /\ checkOwnership stored_tasks "id"
       (request_for "not-an-id" None (Some "abc"))
     = Respond (fail 500 "OWNERSHIP_CHECK_ERROR")
  /\ checkOwnership stored_tasks "id"
       (request_for "not-an-id" None (Some "abc"))
     <> Respond (fail 404 "NOT_FOUND").
Proof.
  split; [by vm_compute |]. split; [intros r; by vm_compute |].
  split; [by vm_compute |]. by vm_compute.
Qed.

Lemma verify_email_consume_witness :
  let r := verify_email (P := sample_platform) (Some "tok")
             (Some "dave@example.com") (world_dave 1000) in
  fst r = verify_success
  /\ users (snd r) = <[4%N := mark_verified_doc dave]> (users (world_dave 1000)).
Proof.
  destruct (verify_email_consume (P := sample_platform) (world_dave 1000)
              "tok" "dave@example.com" 4%N dave "#tok" 2000) as (_ & _ & Hok);
    try reflexivity; try discriminate.
  destruct Hok as (H1 & H2 & _); [reflexivity | simpl; lia |].
  split; assumption.
Defined.

Lemma verify_email_idempotent_witness :
  let r1 := verify_email (P := sample_platform) (Some "tok")
              (Some "dave@example.com") (world_dave 1000) in
  fst r1 = verify_success
  /\ verify_email (P := sample_platform) (Some "tok") (Some "dave@example.com")
       (snd r1) = (verify_success, snd r1).
Proof.
  destruct (verify_email_idempotent (P := sample_platform) (world_dave 1000)
              "tok" "dave@example.com" 4%N dave) as (_ & Htwice);
    try reflexivity; try discriminate.
  destruct (Htwice 2000) as (H1 & _ & H2);
    try reflexivity; try discriminate.
  - intros i j a b Hi Hj _. simpl in Hi, Hj.
    apply lookup_singleton_Some in Hi as [<- _].
    apply lookup_singleton_Some in Hj as [<- _]. reflexivity.
  - split; [exact H1 |]. apply H2. reflexivity.
Defined.


Lemma expired_lock_restarts_count_witness :
  let r := login (P := sample_platform) sample_env "carol@example.com" "wrong"
             world_carol in
  fst r = fail 401 "INVALID_CREDENTIALS"
  /\ users (snd r) = <[3%N := inc_reset carol]> (users world_carol)
  /\ loginAttempts (inc_reset carol) = 1
  /\ lockUntil (inc_reset carol) = None.
Proof.
  apply (expired_lock_restarts_count (P := sample_platform) sample_env
           world_carol "carol@example.com" "wrong" 3%N carol 500);
    reflexivity.
Defined.

Lemma verification_invariant_preserved_witness :
  verification_invariant
    (users (perform_all (P := sample_platform) sample_env
              [OpRegister "Ann" "ann@example.com" "Passw0rd";
               OpVerifyEmail (Some "tok") (Some "ann@example.com");
               OpCreateAdmin None None None;
               OpResend (Some "ann@example.com")]
              empty_world)).
Proof.
  apply (proj1 (proj2 (verification_invariant_preserved
                         (P := sample_platform) sample_env))).
  intros id u Hl. simpl in Hl. rewrite lookup_empty in Hl. discriminate.
Defined.

Lemma registration_token_accepted_unverified_witness :
  exists tok id u,
    token sample_registration_body = Some tok
    /\ users sample_registration_world !! id = Some u
    /\ email u = "ann@example.com" /\ isVerified u = false
    /\ (forall req w2,
          authorization req = Some (String.append "Bearer " tok) ->
          users w2 !! id = Some u ->
          clock w2 / 1000
            < clock empty_world / 1000
              + jwt_seconds (Platform := sample_platform)
                  (or_default (JWT_EXPIRES_IN sample_env) "7d") ->
          fst (authenticateToken (P := sample_platform) sample_env req w2)
          = Next (set_req_user (Some (id, set_password "" u)) req))
    /\ (forall pw',
          fst (login (P := sample_platform) sample_env "ann@example.com" pw'
                 sample_registration_world)
          = fail 403 "EMAIL_NOT_VERIFIED").
Proof.
  apply (registration_token_accepted_unverified (P := sample_platform)
           (J := sample_contract) sample_env empty_world "Ann"
           "ann@example.com" "Passw0rd" sample_registration_body
           sample_registration_world).
  vm_compute. reflexivity.
Defined.

(** ** More on login *)

Lemma unlocked_not_locked (u : User) (now : Z) :
  Unlocked u now ->
  match lockUntil u with Some l => now <? l | None => false end = false.
Proof.
  intros Hun. destruct (lockUntil u) as [l|] eqn:Hl; [| done].
  specialize (Hun l Hl). apply Z.ltb_ge. lia.
Qed.

Lemma login_success_resets_run `{P : Platform} (env : Env) (w : World)
    (mail pw : string) (id : ObjectId) (u : User) :
  findOne_email (users w) mail = Some (id, u) ->
  isVerified u = true -> isActive u = true ->
  Unlocked u (clock w) ->
  comparePassword u pw = true ->
  let r := login env mail pw w in
  exists t t', clock w <= t /\ t <= t' /\ t' <= clock (snd r)
    /\ users (snd r) = <[id := cleared_login t u]> (users w)
    /\ fst r = match jwt_sign id (JWT_SECRET env)
                       (or_default (JWT_EXPIRES_IN env) "7d")
                       "portfolio-api" "portfolio-client" t' with
               | Some tok => with_token 200 tok (view_of id u)
               | None => fail 500 "LOGIN_ERROR"
               end.
Proof.
  intros Hf Hv Ha Hun Hp. cbv zeta.
  rewrite (login_found env w mail pw id u Hf Hv).
  apply findOne_email_Some in Hf as [Hl _].
  destruct (isLocked_run u w) as (Hb & Hu1 & Hc1).
  destruct (isLocked u w) as [locked w1]. simpl in Hb, Hu1, Hc1. subst locked.
  rewrite (unlocked_not_locked u (clock w) Hun), Ha, Hp. cbn.
  unfold resetLoginAttempts, generateToken. unfold_monad. cbn.
  exists (clock w1), (clock w1 + Z.of_N (hd 0%N (drift w1))).
  split; [lia |]. split; [lia |].
  destruct (jwt_sign _ _ _ _ _ _); cbn; (split; [lia |]);
    (split; [| done]); rewrite Hu1;
    by apply (alter_present (users w) (cleared_login (clock w1)) id u).
Qed.


(** X1. A login with the right password on a verified, active identity that
    is not locked (never locked, or its lock has run out) sets [loginAttempts]
    to 0, removes the lock and records the login time; the reply is 200 with a
    token signed for that identity, or 500 [LOGIN_ERROR] when signing throws,
    in which case the reset has been written all the same. *)
Theorem login_success_resets `{P : Platform} (env : Env) (w : World)
    (mail pw : string) (id : ObjectId) (u : User) :
  findOne_email (users w) mail = Some (id, u) ->
  isVerified u = true -> isActive u = true ->
  Unlocked u (clock w) ->
  comparePassword u pw = true ->
  let r := login env mail pw w in
  exists t t', clock w <= t /\ t <= t' /\ t' <= clock (snd r)
    /\ users (snd r) = <[id := cleared_login t u]> (users w)
    /\ fst r = match jwt_sign id (JWT_SECRET env)
                       (or_default (JWT_EXPIRES_IN env) "7d")
                       "portfolio-api" "portfolio-client" t' with
               | Some tok => with_token 200 tok (view_of id u)
               | None => fail 500 "LOGIN_ERROR"
               end.
Proof. exact (login_success_resets_run env w mail pw id u). Qed.

(** X2. A verified identity that is deactivated and not locked is answered
    [ACCOUNT_DEACTIVATED] whatever the password, and nothing is written: the
    attempt is not counted. *)
Theorem login_deactivated `{P : Platform} (env : Env) (w : World)
    (mail pw : string) (id : ObjectId) (u : User) :
  findOne_email (users w) mail = Some (id, u) ->
  isVerified u = true -> isActive u = false ->
  Unlocked u (clock w) ->
  let r := login env mail pw w in
  fst r = fail 401 "ACCOUNT_DEACTIVATED" /\ users (snd r) = users w.
Proof.
  intros Hf Hv Ha Hun. cbv zeta.
  rewrite (login_found env w mail pw id u Hf Hv).
  destruct (isLocked_run u w) as (Hb & Hu1 & Hc1).
  destruct (isLocked u w) as [locked w1]. simpl in Hb, Hu1, Hc1. subst locked.
  by rewrite (unlocked_not_locked u (clock w) Hun), Ha.
Qed.

(** One failed attempt on a document that carries no lock. *)
Lemma login_wrong_password_no_lock `{P : Platform} (env : Env) (w : World)
    (mail pw : string) (id : ObjectId) (u : User) :
  findOne_email (users w) mail = Some (id, u) ->
  isVerified u = true -> isActive u = true ->
  lockUntil u = None ->
  comparePassword u pw = false ->
  let r := login env mail pw w in
  fst r = fail 401 "INVALID_CREDENTIALS"
  /\ clock w <= clock (snd r)
  /\ (loginAttempts u + 1 < 5 -> users (snd r) = <[id := counted 1 u]> (users w))
  /\ (5 <= loginAttempts u + 1 ->
      exists t, clock w <= t <= clock (snd r)
        /\ users (snd r) = <[id := inc_lock t u]> (users w)).
Proof.
  intros Hf Hv Ha Hlock Hp. cbv zeta.
  rewrite (login_found env w mail pw id u Hf Hv).
  apply findOne_email_Some in Hf as [Hl _].
  destruct (isLocked_run u w) as (Hb & Hu1 & Hc1).
  destruct (isLocked u w) as [locked w1]. simpl in Hb, Hu1, Hc1. subst locked.
  rewrite Hlock, Ha, Hp. cbn.
  destruct (incLoginAttempts_cases id u w1) as (Hc2 & Hcases).
  cbv zeta in Hc2, Hcases.
  split; [done |]. split; [lia |].
  destruct Hcases as [(l' & Hl' & _) | (_ & [(H5 & t & Ht & _ & Hw)
                        | ([Hlow | (l' & t & Hl' & _)] & Hw)])];
    try congruence.
  - split; [lia |]. intros _. exists t. split; [lia |].
    rewrite Hw, Hu1. by apply alter_present.
  - split; [| lia]. intros _. rewrite Hw, Hu1.
    by apply (alter_present (users w) inc_only id u).
Qed.

(** X3. Below the threshold a failed-password attempt adds exactly one to
    [loginAttempts] and sets no lock; and its reply is the very reply an
    unknown e-mail gets, for which nothing is written. *)
Theorem failed_attempt_below_threshold `{P : Platform} (env : Env) (w : World)
    (mail pw : string) :
  (forall id u,
     findOne_email (users w) mail = Some (id, u) ->
     isVerified u = true -> isActive u = true -> lockUntil u = None ->
     comparePassword u pw = false -> loginAttempts u + 1 < 5 ->
     fst (login env mail pw w) = fail 401 "INVALID_CREDENTIALS"
     /\ users (snd (login env mail pw w)) = <[id := counted 1 u]> (users w)
     /\ loginAttempts (counted 1 u) = loginAttempts u + 1
     /\ lockUntil (counted 1 u) = None)
  /\ (findOne_email (users w) mail = None ->
      login env mail pw w = (fail 401 "INVALID_CREDENTIALS", w)).
Proof.
  split.
  - intros id u Hf Hv Ha Hlock Hp Hlow.
    destruct (login_wrong_password_no_lock env w mail pw id u Hf Hv Ha Hlock Hp)
      as (Hr & _ & Hinc & _).
    split; [done |]. split; [by apply Hinc |]. split; [done |]. exact Hlock.
  - intros Hf. unfold login. unfold_monad. by rewrite Hf.
Qed.

(** ** Five failures in a row *)

Lemma unique_emails_update (m : gmap ObjectId User) id (u u' : User) :
  unique_emails m -> m !! id = Some u -> email u' = email u ->
  unique_emails (<[id := u']> m).
Proof.
  intros Huniq Hl He i j a b Hi Hj Hab.
  rewrite lookup_insert in Hi, Hj.
  destruct (decide (id = i)) as [<- | Hni], (decide (id = j)) as [<- | Hnj];
    [done | | |].
  - injection Hi as <-. apply (Huniq id j u b); congruence.
  - injection Hj as <-. apply (Huniq i id a u); congruence.
  - by apply (Huniq i j a b).
Qed.

Lemma findOne_email_after_update (m : gmap ObjectId User) mail id
    (u u' : User) :
  unique_emails m -> m !! id = Some u -> email u = cast_email mail ->
  email u' = email u ->
  findOne_email (<[id := u']> m) mail = Some (id, u').
Proof.
  intros Huniq Hl Hm He.
  apply findOne_email_unique; [| apply lookup_insert_eq | congruence].
  by apply (unique_emails_update m id u u').
Qed.

Lemma counted_zero (u : User) : counted 0 u = u.
Proof. destruct u. unfold counted, set_loginAttempts. simpl. f_equal. lia. Qed.

Lemma counted_counted (a b : Z) (u : User) :
  counted a (counted b u) = counted (b + a) u.
Proof. unfold counted, set_loginAttempts. simpl. f_equal. lia. Qed.

Lemma login_while_locked `{P : Platform} (env : Env) (w : World)
    (mail pw : string) (id : ObjectId) (u : User) :
  findOne_email (users w) mail = Some (id, u) ->
  isVerified u = true -> Locked u (clock w) ->
  fst (login env mail pw w) = locked_reply u
  /\ users (snd (login env mail pw w)) = users w.
Proof.
  intros Hf Hv (l & Hlock & Hlt).
  rewrite (login_found env w mail pw id u Hf Hv).
  destruct (isLocked_run u w) as (Hb & Hu1 & _).
  destruct (isLocked u w) as [locked w1]. simpl in Hb, Hu1. subst locked.
  rewrite Hlock. destruct (Z.ltb_spec (clock w) l); [done | lia].
Qed.

Lemma perform_all_app `{P : Platform} (env : Env) (l1 l2 : list Operation)
    (w : World) :
  perform_all env (l1 ++ l2) w = perform_all env l2 (perform_all env l1 w).
Proof. unfold perform_all. apply fold_left_app. Qed.

Lemma failures_accumulate `{P : Platform} (env : Env) (mail pw : string)
    (id : ObjectId) (n : nat) :
  forall (w : World) (u : User),
    unique_emails (users w) -> users w !! id = Some u ->
    email u = cast_email mail ->
    isVerified u = true -> isActive u = true -> lockUntil u = None ->
    comparePassword u pw = false ->
    loginAttempts u + Z.of_nat n < 5 ->
    let w' := perform_all env (repeat (OpLogin mail pw) n) w in
    users w' = <[id := counted (Z.of_nat n) u]> (users w)
    /\ clock w <= clock w'.
Proof.
  induction n as [|n IH]; intros w u Huniq Hl He Hv Ha Hlock Hp Hlow; cbv zeta.
  - simpl. rewrite counted_zero. split; [by rewrite insert_id | lia].
  - simpl repeat. unfold perform_all. simpl fold_left.
    fold (perform_all env (repeat (OpLogin mail pw) n)
            (snd (login env mail pw w))).
    assert (Hf : findOne_email (users w) mail = Some (id, u)).
    { by apply findOne_email_unique. }
    destruct (login_wrong_password_no_lock env w mail pw id u Hf Hv Ha Hlock Hp)
      as (_ & Hc & Hinc & _).
    specialize (Hinc ltac:(lia)).
    set (w1 := snd (login env mail pw w)) in *.
    destruct (IH w1 (counted 1 u)) as [Husers Hclock]; try done.
    + rewrite Hinc. by apply (unique_emails_update _ id u).
    + rewrite Hinc. apply lookup_insert_eq.
    + unfold counted. simpl. lia.
    + cbv zeta in Husers, Hclock. split; [| lia].
      rewrite Husers, Hinc, insert_insert_eq, counted_counted.
      do 2 f_equal. lia.
Qed.

(** X4. Five failed-password logins in a row on a verified, active identity
    that starts with no failures and no lock leave it with [loginAttempts] 5
    and a lock that ends two hours after a clock reading of the fifth
    attempt; until then every further login, with whatever password, is
    answered [ACCOUNT_LOCKED] and writes nothing. *)
Theorem five_failures_lock `{P : Platform} (env : Env) (w : World)
    (mail pw : string) (id : ObjectId) (u : User) :
  unique_emails (users w) ->
  findOne_email (users w) mail = Some (id, u) ->
  isVerified u = true -> isActive u = true ->
  loginAttempts u = 0 -> lockUntil u = None ->
  comparePassword u pw = false ->
  let w5 := perform_all env (repeat (OpLogin mail pw) 5) w in
  exists t u5,
    clock w <= t <= clock w5
    /\ users w5 !! id = Some u5
    /\ loginAttempts u5 = 5
    /\ lockUntil u5 = Some (t + 2 * 60 * 60 * 1000)
    /\ forall pw' w6,
         users w6 = users w5 -> clock w6 < t + 2 * 60 * 60 * 1000 ->
         fst (login env mail pw' w6) = locked_reply u5
         /\ users (snd (login env mail pw' w6)) = users w6.
Proof.
  intros Huniq Hf Hv Ha H0 Hlock Hp. cbv zeta.
  apply findOne_email_Some in Hf as [Hl He].
  change (repeat (OpLogin mail pw) 5)
    with ((repeat (OpLogin mail pw) 4 ++ [OpLogin mail pw])%list).
  rewrite perform_all_app.
  destruct (failures_accumulate env mail pw id 4 w u) as [Hu4 Hc4];
    try done; [lia |].
  cbv zeta in Hu4, Hc4.
  set (w4 := perform_all env (repeat (OpLogin mail pw) 4) w) in *.
  change (perform_all env [OpLogin mail pw] w4)
    with (snd (login env mail pw w4)).
  assert (Hf4 : findOne_email (users w4) mail = Some (id, counted 4 u)).
  { rewrite Hu4. by apply (findOne_email_after_update (users w) mail id u). }
  destruct (login_wrong_password_no_lock env w4 mail pw id (counted 4 u))
    as (_ & Hc5 & _ & Hlk); try done.
  destruct Hlk as (t & Ht & Hu5); [unfold counted; simpl; lia |].
  set (w5 := snd (login env mail pw w4)) in *.
  exists t, (inc_lock t (counted 4 u)).
  split; [lia |]. split; [rewrite Hu5; apply lookup_insert_eq |].
  split; [unfold counted; simpl; lia |]. split; [done |].
  intros pw' w6 Hw6 Hlt.
  apply (login_while_locked env w6 mail pw' id (inc_lock t (counted 4 u))).
  - rewrite Hw6, Hu5, Hu4, insert_insert_eq.
    by apply (findOne_email_after_update (users w) mail id u).
  - done.
  - exists (t + 2 * 60 * 60 * 1000). done.
Qed.

(** ** The token middleware *)

Lemma split_on_scheme (scheme tok : string) :
  ~ In " "%char (list_ascii_of_string scheme) ->
  ~ In " "%char (list_ascii_of_string tok) ->
  split_on " "%char (String.append scheme (String " " tok)) = [scheme; tok].
Proof.
  intros Hs Ht. induction scheme as [|c s IH]; simpl.
  - change (String.append "" (String " " tok)) with (String " " tok). simpl.
    by rewrite (split_on_no_sep _ _ Ht).
  - simpl in Hs. destruct (Ascii.eqb_spec c " "%char) as [-> | Hne]; [tauto |].
    change (String.append (String c s) (String " " tok))
      with (String c (String.append s (String " " tok))).
    simpl. destruct (Ascii.eqb_spec c " "%char); [done |].
    rewrite IH by tauto. done.
Qed.

(** X5. [authenticateToken] reads the second word of the [Authorization]
    header and never looks at the first: any scheme word in front of the
    token, even an empty one, serves as well as [Bearer].  A header of one
    word, an empty header and no header at all are answered [MISSING_TOKEN]
    without touching the world. *)
Theorem bearer_ignores_scheme `{P : Platform} (env : Env) (req : Request)
    (w : World) :
  (forall scheme tok,
     ~ In " "%char (list_ascii_of_string scheme) ->
     ~ In " "%char (list_ascii_of_string tok) ->
     authorization req = Some (String.append scheme (String " " tok)) ->
     bearer req = Some tok)
  /\ (forall word,
        ~ In " "%char (list_ascii_of_string word) ->
        authorization req = Some word ->
        authenticateToken env req w = (Respond (fail 401 "MISSING_TOKEN"), w))
  /\ (authorization req = None ->
      authenticateToken env req w = (Respond (fail 401 "MISSING_TOKEN"), w)).
Proof.
  split; [| split].
  - intros scheme tok Hs Ht Ha. unfold bearer. rewrite Ha.
    rewrite truthy_Some.
    + by rewrite (split_on_scheme scheme tok Hs Ht).
    + destruct scheme; discriminate.
  - intros word Hw Ha. unfold authenticateToken, bearer. rewrite Ha.
    destruct (decide (word = "")) as [-> | Hne]; [done |].
    rewrite truthy_Some by done. by rewrite (split_on_no_sep _ _ Hw).
  - intros Ha. unfold authenticateToken, bearer. by rewrite Ha.
Qed.

Lemma authenticateToken_run `{P : Platform} (env : Env) (req : Request)
    (w : World) :
  let r := authenticateToken env req w in
  users (snd r) = users w
  /\ clock w <= clock (snd r)
  /\ forall req',
       fst r = Next req' ->
       exists id u,
         req' = set_req_user (Some (id, set_password "" u)) req
         /\ users w !! id = Some u
         /\ isActive u = true
         /\ Unlocked u (clock (snd r)).
Proof.
  cbv zeta. unfold authenticateToken.
  destruct (bearer req) as [tok|]; [| by repeat split].
  destruct (truthy (Some tok)); cbn; [| by repeat split].
  unfold bind, ret, Date_now. cbn.
  destruct (jwt_verify tok (JWT_SECRET env) (clock w)) as [d | errorName].
  - unfold load_decoded.
    destruct (jwt_userId d) as [id|]; cbn; [| repeat split; [lia | done]].
    unfold bind, ret, User_findById. cbn.
    destruct (users w !! id) as [u|] eqn:Hl; cbn; [| repeat split; [lia | done]].
    destruct (isActive u) eqn:Ha; cbn; [| repeat split; [lia | done]].
    match goal with
    | |- context [isLocked ?x ?w1] =>
      destruct (isLocked_run x w1) as (Hb & Hu1 & Hc1);
      destruct (isLocked x w1) as [locked w2]
    end.
    simpl in Hb, Hu1, Hc1. subst locked.
    destruct (lockUntil u) as [l|] eqn:Hlock.
    + destruct (Z.ltb_spec (clock w + Z.of_N (hd 0%N (drift w))) l); cbn.
      * repeat split; [done | lia | done].
      * split; [done |]. split; [lia |]. intros req' [= <-].
        exists id, u. repeat split; try done.
        intros l' Hl'. simpl in Hl'. rewrite Hlock in Hl'.
        injection Hl' as <-. lia.
    + cbn. split; [done |]. split; [lia |]. intros req' [= <-].
      exists id, u. repeat split; try done.
      intros l' Hl'. simpl in Hl'. congruence.
  - repeat case_bool_decide; cbn; repeat split; (lia || done).
Qed.


(** X6. [authenticateToken] never writes to the users collection, and when it
    calls [next()] the identity it has put in [req.user] is a stored one,
    without its password, that is active and not locked at the end of the
    check, whatever the token library has decoded. *)
Theorem authenticateToken_sound `{P : Platform} (env : Env) (req : Request)
    (w : World) :
  let r := authenticateToken env req w in
  users (snd r) = users w
  /\ clock w <= clock (snd r)
  /\ forall req',
       fst r = Next req' ->
       exists id u,
         req' = set_req_user (Some (id, set_password "" u)) req
         /\ users w !! id = Some u
         /\ isActive u = true
         /\ Unlocked u (clock (snd r)).
Proof. exact (authenticateToken_run env req w). Qed.

(** X7. [optionalAuth] recognises exactly the callers [authenticateToken]
    lets through, as the same identity, and leaves any other caller
    anonymous; the two middleware leave the same world behind. *)
Theorem optionalAuth_agrees `{P : Platform} (env : Env) (req : Request)
    (w : World) :
  optionalAuth env req w
  = (match fst (authenticateToken env req w) with
     | Next req' => req'
     | Respond _ => set_req_user None req
     end,
     snd (authenticateToken env req w)).
Proof.
  unfold optionalAuth, authenticateToken.
  destruct (bearer req) as [tok|]; [| done].
  destruct (truthy (Some tok)); cbn; [| done].
  unfold bind, ret, Date_now. cbn.
  destruct (jwt_verify tok (JWT_SECRET env) (clock w)) as [d | errorName].
  - destruct (load_decoded d _) as [[[id u]|] w1]; cbn; [| done].
    destruct (isActive u); cbn; [| done].
    by destruct (isLocked u w1) as [[] w2].
  - by repeat case_bool_decide.
Qed.

(** ** Sessions, admins and tasks *)

Lemma truthy_false_iff (o : option string) :
  truthy o = false <-> o = None \/ o = Some "".
Proof.
  unfold truthy. destruct o as [s|]; [| by split; [left |]].
  rewrite negb_false_iff, bool_decide_eq_true. split.
  - intros ->. by right.
  - intros [H | H]; [discriminate | by injection H].
Qed.

(** X8. [validateSession] takes the session identifier from the header, else
    from the body, else from the query string, the first that is a non-empty
    string; it answers [MISSING_SESSION] exactly when none is and the caller
    is anonymous, and otherwise passes the request on with [req.user]
    untouched. *)
Theorem validateSession_resolution (req : Request) :
  (validateSession req = Respond (fail 400 "MISSING_SESSION")
   <-> req_user req = None
       /\ truthy (x_session_id req) = false
       /\ truthy (body_sessionId req) = false
       /\ truthy (query_sessionId req) = false)
  /\ (forall req',
        validateSession req = Next req' ->
        req_user req' = req_user req
        /\ (truthy (x_session_id req) = true ->
            req_sessionId req' = x_session_id req)
        /\ (truthy (x_session_id req) = false ->
            truthy (body_sessionId req) = true ->
            req_sessionId req' = body_sessionId req)
        /\ (truthy (x_session_id req) = false ->
            truthy (body_sessionId req) = false ->
            req_sessionId req' = query_sessionId req)).
Proof.
  assert (Hsid : js_or (js_or (x_session_id req) (body_sessionId req))
                   (query_sessionId req)
                 = if truthy (x_session_id req) then x_session_id req
                   else if truthy (body_sessionId req) then body_sessionId req
                        else query_sessionId req).
  { unfold js_or. destruct (truthy (x_session_id req)) eqn:Hh.
    - by rewrite Hh.
    - destruct (truthy (body_sessionId req)) eqn:Hb; by rewrite ?Hb. }
  assert (Husr : bool_decide (is_Some (req_user req))
                 = match req_user req with Some _ => true | None => false end).
  { by destruct (req_user req). }
  unfold validateSession. rewrite Hsid, Husr. clear Hsid Husr.
  destruct (truthy (x_session_id req)) eqn:Hh.
  - rewrite Hh. cbn. split.
    + split; [discriminate | intros (_ & ? & _); discriminate].
    + intros req' [= <-]. cbn. repeat split; intros; congruence.
  - destruct (truthy (body_sessionId req)) eqn:Hb.
    + rewrite Hb. cbn. split.
      * split; [discriminate | intros (_ & _ & ? & _); discriminate].
      * intros req' [= <-]. cbn. repeat split; intros; congruence.
    + destruct (truthy (query_sessionId req)) eqn:Hq; cbn.
      * split; [split; [discriminate | intros (_ & _ & _ & ?); discriminate] |].
        intros req' [= <-]. cbn. repeat split; intros; congruence.
      * destruct (req_user req) as [[uid u]|] eqn:Hu; cbn.
        -- split; [split; [discriminate | intros (? & _); discriminate] |].
           intros req' [= <-]. cbn. repeat split; intros; congruence.
        -- split; [by split | discriminate].
Qed.

(** X9. [requireAdmin] lets a request through exactly when the caller is an
    authenticated admin, and whoever it lets through is let through by
    [checkOwnership] for every resource that exists, whoever owns it. *)
Theorem admin_reaches_every_resource (req : Request) :
  (requireAdmin req = Next req <-> caller_is_admin req)
  /\ (forall Model paramName r,
        requireAdmin req = Next req ->
        findById Model (params req paramName) = Resolved (Some r) ->
        checkOwnership Model paramName req
        = Next (set_req_resource (Some r) req)).
Proof.
  assert (Hadm : requireAdmin req = Next req <-> caller_is_admin req).
  { unfold requireAdmin, caller_is_admin.
    destruct (req_user req) as [[uid u]|].
    - case_bool_decide as Hr; cbn; split.
      + intros _. by exists uid, u.
      + done.
      + discriminate.
      + intros (uid' & u' & [= <- <-] & Hr'). done.
    - split; [discriminate | intros (? & ? & ? & _); discriminate]. }
  split; [exact Hadm |].
  intros Model paramName r Hreq Hr. apply Hadm in Hreq as (uid & u & Hu & Hrole).
  unfold checkOwnership. rewrite Hr, Hu.
  rewrite (bool_decide_eq_true_2 _ Hrole).
  by rewrite !andb_false_r.
Qed.

Lemma optionalAuth_without_header `{P : Platform} (env : Env) (req : Request)
    (w : World) :
  authorization req = None ->
  optionalAuth env req w = (set_req_user None req, w).
Proof.
  intros Ha. unfold optionalAuth, bearer. by rewrite Ha.
Qed.

(** X10. In front of the task routes an anonymous caller who presents no
    session identifier is answered [MISSING_SESSION] before the task is
    looked up: the reply is the same whether the task exists, does not exist
    or the lookup fails, and the world is left as it is. *)
Theorem task_guard_session_first `{P : Platform} (env : Env) (Task : Collection)
    (req : Request) (w : World) :
  authorization req = None ->
  truthy (x_session_id req) = false ->
  truthy (body_sessionId req) = false ->
  truthy (query_sessionId req) = false ->
  task_guard env Task req w = (Respond (fail 400 "MISSING_SESSION"), w).
Proof.
  intros Ha Hh Hb Hq. unfold task_guard, bind, ret.
  rewrite (optionalAuth_without_header env req w Ha).
  unfold validateSession, js_or. cbn. by rewrite Hh, Hb, Hq.
Qed.

(** X11. An anonymous caller who presents the session identifier [s] in the
    header reaches an existing task through
    [optionalAuth, validateSession, checkOwnership] exactly when [s] is the
    task's [sessionId]; any other existing task is answered
    [ACCESS_DENIED]. *)
Theorem anonymous_task_access `{P : Platform} (env : Env) (Task : Collection)
    (req : Request) (w : World) (s : string) (t : Resource) :
  authorization req = None ->
  x_session_id req = Some s -> s <> "" ->
  findById Task (params req "id") = Resolved (Some t) ->
  let passed :=
    set_req_resource (Some t) (set_req_sessionId (Some s) (set_req_user None req)) in
  (sessionId t = Some s -> task_guard env Task req w = (Next passed, w))
  /\ (sessionId t <> Some s ->
      task_guard env Task req w = (Respond (fail 403 "ACCESS_DENIED"), w)).
Proof.
  intros Ha Hs Hne Ht. cbv zeta. unfold task_guard, bind, ret.
  rewrite (optionalAuth_without_header env req w Ha).
  unfold validateSession, js_or. cbn. rewrite Hs.
  rewrite !truthy_Some by done. cbn.
  unfold checkOwnership. cbn. rewrite Ht. cbn.
  rewrite truthy_Some by done. cbn.
  split; intros Hsid.
  - by rewrite bool_decide_eq_true_2.
  - by rewrite bool_decide_eq_false_2.
Qed.

(** X12. Whoever creates a task can reach it: for a request that has passed
    [validateSession], with a session identifier that trimming leaves alone,
    [checkOwnership] lets the same caller through to the task built from the
    request.  A task created by an authenticated caller carries no
    [sessionId], so the session identifier alone does not give access to
    it. *)
Theorem creator_reaches_own_task (trim : string -> string) (Task : Collection)
    (req : Request) :
  (forall req0, validateSession req0 = Next req ->
     (forall s, req_sessionId req = Some s -> trim s = s) ->
     findById Task (params req "id")
     = Resolved (Some (new_task_owner trim req)) ->
     checkOwnership Task "id" req
     = Next (set_req_resource (Some (new_task_owner trim req)) req))
  /\ (forall uid u anonymous,
        req_user req = Some (uid, u) ->
        req_user anonymous = None ->
        findById Task (params anonymous "id")
        = Resolved (Some (new_task_owner trim req)) ->
        checkOwnership Task "id" anonymous
        = Respond (fail 403 "ACCESS_DENIED")).
Proof.
  split.
  - intros req0 Hv Htrim Hf.
    unfold checkOwnership. rewrite Hf. unfold new_task_owner. cbn.
    destruct (req_user req) as [[uid u]|] eqn:Hu; cbn.
    + by rewrite bool_decide_eq_true_2.
    + assert (Ht : truthy (req_sessionId req) = true).
      { unfold validateSession in Hv.
        destruct (truthy (js_or _ _)) eqn:Hj; cbn in Hv.
        - injection Hv as <-. done.
        - destruct (bool_decide (is_Some (req_user req0))) eqn:Hd; cbn in Hv;
            [| discriminate].
          injection Hv as <-. cbn in Hu.
          apply bool_decide_eq_true in Hd. rewrite Hu in Hd.
          by destruct Hd. }
      rewrite Ht. cbn.
      apply truthy_spec in Ht as (s & Hs & _). rewrite Hs. cbn.
      rewrite (Htrim s Hs). by rewrite bool_decide_eq_true_2.
  - intros uid u anonymous Hu Han Hf.
    unfold checkOwnership. rewrite Hf, Han. unfold new_task_owner.
    rewrite Hu. cbn.
    destruct (truthy (req_sessionId anonymous)) eqn:Ht; cbn; [| done].
    apply truthy_spec in Ht as (s & Hs & _). rewrite Hs.
    by rewrite bool_decide_eq_false_2.
Qed.

(** ** Registration and the verification mail *)

Lemma findOne_email_inserted (m : gmap ObjectId User) (mail : string)
    (id : ObjectId) (u : User) :
  findOne_email m mail = None -> email u = cast_email mail ->
  findOne_email (<[id := u]> m) mail = Some (id, u).
Proof.
  intros Hnone Hmail.
  destruct (findOne_email (<[id := u]> m) mail) as [[j v]|] eqn:Hf.
  - apply findOne_email_Some in Hf as [Hj Hjm].
    rewrite lookup_insert in Hj. case_decide as Hd.
    + subst j. by injection Hj as <-.
    + exfalso. by apply (findOne_email_None _ _ Hnone j v).
  - exfalso. apply (findOne_email_None _ _ Hf id u); [| done].
    apply lookup_insert_eq.
Qed.

(** The document a successful registration has stored. *)
Lemma register_stored `{P : Platform} (env : Env) (w : World)
    (nm mail pw : string) (body : JsonBody) (w1 : World) :
  register env nm mail pw w = (json 201 body, w1) ->
  exists salt sent,
    let u := set_password (bcrypt_hash pw salt)
               (set_lastVerificationSent (Some sent)
                  (set_verifyExpires (Some (clock w + default_expiresInMs))
                     (set_verifyToken (Some (sha256_hex (hd "" (entropy w))))
                        (new_User nm mail pw RoleUser false)))) in
    findOne_email (users w) mail = None
    /\ users w !! nextId w = None
    /\ users w1 = <[nextId w := u]> (users w)
    /\ clock w <= clock w1.
Proof.
  unfold register. unfold bind, ret, User_findOne_email, new_ObjectId.
  destruct (findOne_email (users w) mail) eqn:Hf; [discriminate |].
  unfold generateVerificationToken. unfold_monad. cbn.
  match goal with
  | |- context [save_new ?i ?d ?w0] =>
    pose proof (save_new_clock i d w0) as Hck;
    destruct (save_new_cases i d w0) as [[Hr Hu] | (salt & Hr & Hnew & Hu)];
    cbv zeta in *;
    destruct (save_new i d w0) as [saved w2] eqn:Hs
  end; simpl in Hr, Hu, Hck; subst saved; [discriminate |].
  unfold generateToken. unfold_monad.
  destruct (jwt_sign _ _ _ _ _ (clock w2)) as [tok|] eqn:Hsign; [| discriminate].
  intros [= <- <-]. eexists salt, _. cbv zeta.
  split; [done |]. simpl in Hnew. split; [exact Hnew |].
  split; [exact Hu |]. simpl. lia.
Qed.

(** X13. A registration answered with 201 has added one identity and left
    every identity that was stored before exactly as it was.  The new
    identity holds the e-mail of the request cast to the path, and keeps the
    hash of the verification token, not the token, with an
    expiry 24 hours after the clock reading at issuance, and the password as
    bcrypt has hashed it.  A registration for an e-mail that is taken is
    answered [USER_EXISTS] and changes nothing. *)
Theorem register_adds_one_identity `{P : Platform} (env : Env) (w : World)
    (nm mail pw : string) :
  (forall body w1,
     register env nm mail pw w = (json 201 body, w1) ->
     (forall id u, users w !! id = Some u -> users w1 !! id = Some u)
     /\ exists id u salt,
          users w1 = <[id := u]> (users w) /\ users w !! id = None
          /\ email u = cast_email mail /\ role u = RoleUser
          /\ isVerified u = false
          /\ verifyToken u = Some (sha256_hex (hd "" (entropy w)))
          /\ verifyExpires u = Some (clock w + 24 * 60 * 60 * 1000)
          /\ password u = bcrypt_hash pw salt)
  /\ (forall id u,
        findOne_email (users w) mail = Some (id, u) ->
        register env nm mail pw w = (fail 400 "USER_EXISTS", w)).
Proof.
  split.
  - intros body w1 Hreg.
    destruct (register_stored env w nm mail pw body w1 Hreg)
      as (salt & sent & _ & Hfresh & Hu & _).
    split.
    + intros id u Hl. rewrite Hu, lookup_insert_ne; [done |]. congruence.
    + eexists (nextId w), _, salt. split; [exact Hu |]. by repeat split.
  - intros id u Hf. unfold register. unfold_monad. by rewrite Hf.
Qed.

(** X14. Register, verify, log in.  When registration is answered with 201,
    the token it has drawn verifies the account at any time up to 24 hours
    after registration began, and from then on a login with the registration
    password, which bcrypt accepts against its own hash, gets past every
    check: it is answered 200 with a token (500 [LOGIN_ERROR] when signing
    throws), not [EMAIL_NOT_VERIFIED] or [INVALID_CREDENTIALS]. *)
Theorem register_verify_login `{P : Platform} {B : BcryptContract P}
    (env : Env) (w : World) (nm mail pw : string) (body : JsonBody)
    (w1 w2 : World) (plain : string) :
  register env nm mail pw w = (json 201 body, w1) ->
  hd "" (entropy w) = plain -> plain <> "" -> sha256_hex plain <> "" ->
  mail <> "" ->
  users w2 = users w1 -> clock w2 <= clock w + 24 * 60 * 60 * 1000 ->
  let v := verify_email (Some plain) (Some mail) w2 in
  fst v = verify_success
  /\ forall w3,
       users w3 = users (snd v) ->
       exists tsign id u,
         users w3 !! id = Some u /\ isVerified u = true
         /\ fst (login env mail pw w3)
            = match jwt_sign id (JWT_SECRET env)
                      (or_default (JWT_EXPIRES_IN env) "7d")
                      "portfolio-api" "portfolio-client" tsign with
              | Some tok => with_token 200 tok (view_of id u)
              | None => fail 500 "LOGIN_ERROR"
              end.
Proof.
  intros Hreg Hplain Hne Hhash Hm Hw2 Hlate. cbv zeta.
  destruct (register_stored env w nm mail pw body w1 Hreg)
    as (salt & sent & Hnone & Hfresh & Hu & _).
  cbv zeta in Hu. rewrite Hplain in Hu.
  set (u := set_password _ _) in Hu.
  assert (Hf2 : findOne_email (users w2) mail = Some (nextId w, u)).
  { rewrite Hw2, Hu. by apply findOne_email_inserted. }
  destruct (verify_email_run w2 plain mail (nextId w) u (sha256_hex plain)
              (clock w + default_expiresInMs)) as [_ Hok]; try done.
  destruct Hok as [Hv1 Hv2]; [done | unfold default_expiresInMs; lia |].
  split; [exact Hv1 |].
  intros w3 Hw3.
  assert (Hf3 : findOne_email (users w3) mail
                = Some (nextId w, mark_verified_doc u)).
  { rewrite Hw3, Hv2, Hw2, Hu, insert_insert_eq.
    by apply findOne_email_inserted. }
  destruct (login_success_resets_run env w3 mail pw (nextId w)
              (mark_verified_doc u)) as (t & t' & _ & _ & _ & _ & Hreply);
    try done.
  - unfold comparePassword. simpl. apply bcrypt_compare_hash.
  - exists t', (nextId w), (mark_verified_doc u).
    split; [by apply findOne_email_Some in Hf3 as [? _] |]. by split.
Qed.

(** A resend that is past the cooldown. *)
Lemma resend_issues `{P : Platform} (env : Env) (w : World) (mail : string)
    (id : ObjectId) (u : User) :
  mail <> "" ->
  findOne_email (users w) mail = Some (id, u) ->
  isVerified u = false ->
  (forall sent, lastVerificationSent u = Some sent ->
     COOLDOWN_SECONDS env <= (clock w - sent) / 1000) ->
  let r := resend_verification env (Some mail) w in
  fst r = json 200 (mkBody None None None None (Some (COOLDOWN_SECONDS env)) None)
  /\ exists t sent,
       clock w <= t /\ t <= sent /\ sent <= clock (snd r)
       /\ users (snd r)
          = <[id := reissued (sha256_hex (hd "" (entropy w)))
                      (t + 24 * 60 * 60 * 1000) sent u]> (users w).
Proof.
  intros Hm Hf Hv Hcool. cbv zeta. unfold resend_verification.
  rewrite truthy_Some by done. cbn.
  unfold bind, ret, User_findOne_email. rewrite Hf, Hv.
  apply findOne_email_Some in Hf as [Hl _].
  unfold Date_now at 1. cbn.
  assert (Hnone : match lastVerificationSent u with
                  | Some sent =>
                    if (clock w - sent) / 1000 <? COOLDOWN_SECONDS env
                    then Some (COOLDOWN_SECONDS env - (clock w - sent) / 1000)
                    else None
                  | None => None
                  end = None).
  { destruct (lastVerificationSent u) as [sent|]; [| done].
    specialize (Hcool sent eq_refl).
    destruct (Z.ltb_spec ((clock w - sent) / 1000) (COOLDOWN_SECONDS env));
      [lia | done]. }
  rewrite Hnone.
  unfold generateVerificationToken, save. unfold_monad. cbn.
  split; [done |].
  exists (clock w + Z.of_N (hd 0%N (drift w))),
    (clock w + Z.of_N (hd 0%N (drift w)) + Z.of_N (hd 0%N (tl (drift w)))).
  split; [lia |]. split; [lia |]. split; [lia |].
  by apply (alter_present (users w)
              (fun _ => reissued (sha256_hex (hd "" (entropy w)))
                          (clock w + Z.of_N (hd 0%N (drift w))
                           + 24 * 60 * 60 * 1000)
                          (clock w + Z.of_N (hd 0%N (drift w))
                           + Z.of_N (hd 0%N (tl (drift w)))) u) id u).
Qed.

(** A resend inside the cooldown. *)
Lemma resend_refused `{P : Platform} (env : Env) (w : World) (mail : string)
    (id : ObjectId) (u : User) (sent : Z) :
  mail <> "" ->
  findOne_email (users w) mail = Some (id, u) ->
  isVerified u = false ->
  lastVerificationSent u = Some sent ->
  sent <= clock w -> clock w - sent < COOLDOWN_SECONDS env * 1000 ->
  let r := resend_verification env (Some mail) w in
  fst r = too_many_requests (COOLDOWN_SECONDS env - (clock w - sent) / 1000)
  /\ users (snd r) = users w.
Proof.
  intros Hm Hf Hv Hs Hle Hlt. cbv zeta. unfold resend_verification.
  rewrite truthy_Some by done. cbn. unfold_monad. rewrite Hf, Hv, Hs. cbn.
  destruct (Z.ltb_spec ((clock w - sent) / 1000) (COOLDOWN_SECONDS env)) as [|Hge];
    [done |].
  exfalso. assert ((clock w - sent) / 1000 < COOLDOWN_SECONDS env); [| lia].
  apply Z.div_lt_upper_bound; lia.
Qed.

(** X15. A resend that is past the cooldown replaces the stored hash by the
    hash of a fresh token, valid 24 hours from a clock reading of the
    request, and records the sending time.  From then on a token whose hash
    differs from the new one is refused by [verify-email], the one issued
    before included, and another resend less than the cooldown after the
    recorded sending time is answered [TOO_MANY_REQUESTS] and changes
    nothing. *)
Theorem resend_replaces_token `{P : Platform} (env : Env) (w : World)
    (mail : string) (id : ObjectId) (u : User) :
  mail <> "" ->
  unique_emails (users w) ->
  findOne_email (users w) mail = Some (id, u) ->
  isVerified u = false ->
  (forall sent, lastVerificationSent u = Some sent ->
     COOLDOWN_SECONDS env <= (clock w - sent) / 1000) ->
  sha256_hex (hd "" (entropy w)) <> "" ->
  let r := resend_verification env (Some mail) w in
  exists t sent u1,
    clock w <= t /\ t <= sent /\ sent <= clock (snd r)
    /\ users (snd r) = <[id := u1]> (users w)
    /\ verifyToken u1 = Some (sha256_hex (hd "" (entropy w)))
    /\ verifyExpires u1 = Some (t + 24 * 60 * 60 * 1000)
    /\ lastVerificationSent u1 = Some sent
    /\ (forall old w2,
          old <> "" -> sha256_hex old <> sha256_hex (hd "" (entropy w)) ->
          users w2 = users (snd r) ->
          fst (verify_email (Some old) (Some mail) w2) = verify_failed)
    /\ (forall w2,
          users w2 = users (snd r) ->
          sent <= clock w2 -> clock w2 - sent < COOLDOWN_SECONDS env * 1000 ->
          exists remaining,
            0 < remaining <= COOLDOWN_SECONDS env
            /\ fst (resend_verification env (Some mail) w2)
               = too_many_requests remaining
            /\ users (snd (resend_verification env (Some mail) w2)) = users w2).
Proof.
  intros Hm Huniq Hf Hv Hcool Hhash. cbv zeta.
  destruct (resend_issues env w mail id u Hm Hf Hv Hcool)
    as (_ & t & sent & Ht & Hts & Hs & Hu).
  apply findOne_email_Some in Hf as [Hl He].
  set (u1 := reissued _ _ _ u) in Hu.
  assert (Hf2 : forall w2, users w2 = users (snd (resend_verification env (Some mail) w)) ->
                  findOne_email (users w2) mail = Some (id, u1)).
  { intros w2 Hw2. rewrite Hw2, Hu.
    by apply (findOne_email_after_update (users w) mail id u). }
  exists t, sent, u1. repeat (split; [done |]). split.
  - intros old w2 Hold Hdiff Hw2.
    destruct (verify_email_run w2 old mail id u1
                (sha256_hex (hd "" (entropy w))) (t + 24 * 60 * 60 * 1000))
      as [Hfail _]; try done; [by apply Hf2 |].
    by apply Hfail; left.
  - intros w2 Hw2 Hle Hlt.
    destruct (resend_refused env w2 mail id u1 sent) as [Hr Hus]; try done;
      [by apply Hf2 |].
    eexists. split; [| split; [exact Hr | exact Hus]].
    assert (0 <= (clock w2 - sent) / 1000 < COOLDOWN_SECONDS env); [| lia].
    split; [apply Z.div_pos; lia | apply Z.div_lt_upper_bound; lia].
Qed.

(** ** The routes behind [authenticateToken] *)

Lemma email_index_other_Some (m : gmap ObjectId User) e uid j v :
  email_index_other m e uid = Some (j, v) ->
  m !! j = Some v /\ email v = e /\ j <> uid.
Proof.
  unfold email_index_other. intros H. apply find_some in H as [Hin Hm].
  apply andb_true_iff in Hm as [He Hn].
  unfold has_email in He. simpl in *.
  apply bool_decide_eq_true in He.
  apply negb_true_iff, bool_decide_eq_false in Hn.
  split; [| done].
  apply elem_of_map_to_list. by apply list_elem_of_In.
Qed.

Lemma email_index_other_None (m : gmap ObjectId User) e uid :
  email_index_other m e uid = None -> fresh_email m uid e.
Proof.
  unfold email_index_other. intros H j v Hj Hl Heq.
  assert (Hin : In (j, v) (map_to_list m)).
  { apply list_elem_of_In. by apply elem_of_map_to_list. }
  pose proof (find_none _ _ H _ Hin) as Hf. simpl in Hf.
  apply andb_false_iff in Hf as [Hf | Hf].
  - unfold has_email in Hf. simpl in Hf.
    apply bool_decide_eq_false in Hf. contradiction.
  - apply negb_false_iff, bool_decide_eq_true in Hf. contradiction.
Qed.

Lemma email_index_other_taken (m : gmap ObjectId User) e uid j v :
  m !! j = Some v -> email v = e -> j <> uid ->
  is_Some (email_index_other m e uid).
Proof.
  intros Hl He Hj.
  destruct (email_index_other m e uid) eqn:Hf; [done |].
  exfalso. by apply (email_index_other_None m e uid Hf j v).
Qed.

Lemma email_index_other_fresh (m : gmap ObjectId User) e uid :
  fresh_email m uid e -> email_index_other m e uid = None.
Proof.
  intros Hfresh.
  destruct (email_index_other m e uid) as [[j v]|] eqn:Hf; [| done].
  apply email_index_other_Some in Hf as (Hj & Hv & Hji).
  exfalso. by apply (Hfresh j v).
Qed.

(** A route behind [authenticateToken], by what the middleware does. *)
Lemma authenticated_run `{P : Platform} (env : Env) (req : Request)
    (handler : Request -> M Response) (w : World) :
  authenticated env req handler w
  = match fst (authenticateToken env req w) with
    | Respond r => (r, snd (authenticateToken env req w))
    | Next req' => handler req' (snd (authenticateToken env req w))
    end.
Proof.
  unfold authenticated, bind, ret.
  by destruct (authenticateToken env req w) as [[r | req'] w1].
Qed.

Lemma set_password_same (u : User) : set_password (password u) u = u.
Proof. by destruct u. Qed.

Lemma save_with_password_run `{P : Platform} (id : ObjectId)
    (loaded doc : User) (w : World) :
  is_Some (users w !! id) ->
  save_with_password id loaded doc w
  = if schema_valid doc
    then if password_modified loaded doc
         then (true,
               mkWorld (<[id := set_password (bcrypt_hash (password doc)
                                                (hd "" (entropy w))) doc]>
                          (users w))
                 (clock w) (drift w) (tl (entropy w)) (nextId w))
         else (true, set_users (<[id := doc]> (users w)) w)
    else (false, w).
Proof.
  intros [old Hold]. unfold save_with_password. unfold_monad.
  destruct (schema_valid doc); cbn; [| done].
  destruct (password_modified loaded doc); cbn;
    by rewrite (alter_present _ _ id old Hold).
Qed.

(** X16. [change-password] for an authenticated caller: a wrong current
    password is answered [INVALID_CURRENT_PASSWORD] and writes nothing, so it
    is not counted towards the lockout.  With the right one the answer is
    200, and the stored password becomes the bcrypt hash of the new password,
    which a later comparison accepts, while no other path of the identity
    changes; unless the new password is the very text that is stored, for
    which the pre-save hook does not hash and nothing is written.  A request
    the token middleware refuses gets the middleware's reply and writes
    nothing. *)
Theorem change_password_effect `{P : Platform} {B : BcryptContract P}
    (env : Env) (req : Request) (currentPassword newPassword : string)
    (w : World) :
  let r := change_password env req currentPassword newPassword w in
  (forall resp,
     fst (authenticateToken env req w) = Respond resp ->
     fst r = resp /\ users (snd r) = users w)
  /\ (forall req',
        fst (authenticateToken env req w) = Next req' ->
        exists id u,
          users w !! id = Some u
          /\ if comparePassword u currentPassword
             then if schema_valid (set_password newPassword u)
                  then fst r = ok_reply
                       /\ if bool_decide (newPassword = password u)
                          then users (snd r) = users w
                          else exists salt,
                                 let u' := set_password
                                             (bcrypt_hash newPassword salt) u in
                                 users (snd r) = <[id := u']> (users w)
                                 /\ comparePassword u' newPassword = true
                  else fst r = fail 500 "PASSWORD_CHANGE_ERROR"
                       /\ users (snd r) = users w
             else fst r = fail 400 "INVALID_CURRENT_PASSWORD"
                  /\ users (snd r) = users w).
Proof.
  cbv zeta. unfold change_password. rewrite authenticated_run.
  destruct (authenticateToken_run env req w) as (Hu1 & _ & Hsound).
  cbv zeta in Hu1, Hsound.
  destruct (authenticateToken env req w) as [[resp | req1] w1];
    simpl in Hu1, Hsound |- *.
  - split; [| discriminate]. intros resp' [= <-]. done.
  - split; [discriminate |]. intros req' [= <-].
    destruct (Hsound req1 eq_refl) as (id & u & -> & Hl & _ & _).
    exists id, u. split; [done |].
    unfold change_password_handler. cbn.
    unfold bind, ret, User_findById. rewrite Hu1, Hl.
    destruct (comparePassword u currentPassword); cbn; [| by rewrite Hu1].
    rewrite save_with_password_run by (rewrite Hu1, Hl; done).
    destruct (schema_valid (set_password newPassword u)); cbn;
      [| by rewrite Hu1].
    unfold password_modified. cbn.
    case_bool_decide as Hsame; cbn.
    + split; [done |]. subst newPassword.
      rewrite set_password_same, Hu1. by apply insert_id.
    + split; [done |]. exists (hd "" (entropy w1)). cbv zeta.
      split; [by rewrite Hu1 |].
      unfold comparePassword. simpl. apply bcrypt_compare_hash.
Qed.

Lemma profile_update_keeps (nm mail : option string) (u : User) :
  password (profile_update nm mail u) = password u
  /\ role (profile_update nm mail u) = role u
  /\ isActive (profile_update nm mail u) = isActive u
  /\ isVerified (profile_update nm mail u) = isVerified u
  /\ verifyToken (profile_update nm mail u) = verifyToken u
  /\ verifyExpires (profile_update nm mail u) = verifyExpires u
  /\ loginAttempts (profile_update nm mail u) = loginAttempts u
  /\ lockUntil (profile_update nm mail u) = lockUntil u.
Proof.
  unfold profile_update.
  destruct nm as [n|], mail as [e|];
    repeat match goal with |- context [truthy ?o] => destruct (truthy o) end;
    done.
Qed.

Lemma profile_update_email (nm : option string) (e : string) (u : User) :
  e <> "" -> email (profile_update nm (Some e) u) = cast_email e.
Proof.
  intros He. unfold profile_update. rewrite (truthy_Some e He).
  destruct nm as [n|]; [destruct (truthy (Some n)) |]; done.
Qed.

Lemma update_profile_handler_run `{P : Platform} (nm mail : option string)
    (req : Request) (id : ObjectId) (me u : User) (w : World) :
  users w !! id = Some u -> email me = email u ->
  update_profile_handler nm mail (set_req_user (Some (id, me)) req) w
  = let taken :=
      if truthy mail && negb (bool_decide (mail = Some (email u)))
      then match mail with
           | Some e => findOne_email_other (users w) e id
           | None => None
           end
      else None in
    match taken with
    | Some _ => (fail 400 "EMAIL_TAKEN", w)
    | None =>
      if negb (schema_valid (profile_update nm mail u))
      then (fail 500 "PROFILE_UPDATE_ERROR", w)
      else
        match email_index_other (users w)
                (email (profile_update nm mail u)) id with
        | Some _ => (fail 500 "PROFILE_UPDATE_ERROR", w)
        | None =>
          (user_reply (Some (view_of id (profile_update nm mail u))),
           set_users (<[id := profile_update nm mail u]> (users w)) w)
        end
    end.
Proof.
  intros Hl He. cbv zeta.
  unfold update_profile_handler, User_findByIdAndUpdate. cbn.
  unfold bind, ret. rewrite He.
  destruct (truthy mail && negb (bool_decide (mail = Some (email u)))); cbn.
  - destruct mail as [e|]; cbn.
    + destruct (findOne_email_other (users w) e id); cbn; [done |].
      rewrite Hl. destruct (schema_valid _); cbn; [| done].
      by destruct (email_index_other _ _ _).
    + rewrite Hl. destruct (schema_valid _); cbn; [| done].
      by destruct (email_index_other _ _ _).
  - rewrite Hl. destruct (schema_valid _); cbn; [| done].
    by destruct (email_index_other _ _ _).
Qed.

(** X17. [profile] for an authenticated caller either writes nothing or
    replaces the caller's document by the update of its name and e-mail, both
    cast to their paths; role, password, activity, lockout and verification
    are never touched.  A new e-mail that another identity holds is answered
    [EMAIL_TAKEN]; a free one that passes validation is stored, and the
    identity keeps the [isVerified] it had for the old address. *)
Theorem update_profile_effect `{P : Platform} (env : Env) (req : Request)
    (nm mail : option string) (w : World) :
  let r := update_profile env req nm mail w in
  forall req',
    fst (authenticateToken env req w) = Next req' ->
    exists id u,
      users w !! id = Some u
      /\ (users (snd r) = users w
          \/ users (snd r) = <[id := profile_update nm mail u]> (users w))
      /\ (forall e j v,
            mail = Some e -> e <> "" -> e <> email u ->
            users w !! j = Some v -> j <> id -> email v = cast_email e ->
            fst r = fail 400 "EMAIL_TAKEN" /\ users (snd r) = users w)
      /\ (forall e,
            mail = Some e -> e <> "" ->
            fresh_email (users w) id (cast_email e) ->
            schema_valid (profile_update nm mail u) = true ->
            fst r = user_reply (Some (view_of id (profile_update nm mail u)))
            /\ users (snd r) = <[id := profile_update nm mail u]> (users w)
            /\ email (profile_update nm mail u) = cast_email e
            /\ isVerified (profile_update nm mail u) = isVerified u).
Proof.
  cbv zeta. intros req' Hnext.
  unfold update_profile. rewrite authenticated_run.
  destruct (authenticateToken_run env req w) as (Hu1 & _ & Hsound).
  cbv zeta in Hu1, Hsound.
  destruct (authenticateToken env req w) as [[resp | req1] w1];
    simpl in Hu1, Hsound, Hnext |- *; [discriminate |].
  destruct (Hsound req1 eq_refl) as (id & u & -> & Hl & _ & _).
  exists id, u. split; [done |].
  rewrite (update_profile_handler_run nm mail req id (set_password "" u) u w1)
    by (rewrite ?Hu1; done).
  cbv zeta. rewrite Hu1.
  set (check := truthy mail && negb (bool_decide (mail = Some (email u)))).
  assert (Hcases :
    forall e, mail = Some e -> e <> "" -> e <> email u -> check = true).
  { intros e -> He Hne. unfold check. rewrite (truthy_Some e He). cbn.
    rewrite bool_decide_eq_false_2; [done | congruence]. }
  split; [| split].
  - destruct (if check then _ else _); cbn; [by left |].
    destruct (schema_valid _); cbn; [| by left].
    destruct (email_index_other _ _ _); cbn; [by left | by right].
  - intros e j v -> He Hne Hj Hji Hv.
    rewrite (Hcases e eq_refl He Hne). unfold findOne_email_other.
    destruct (email_index_other_taken (users w) (cast_email e) id j v
                Hj Hv Hji) as [d Hd].
    by rewrite Hd.
  - intros e -> He Hfresh Hvalid.
    assert (Hother : email_index_other (users w) (cast_email e) id = None)
      by (by apply email_index_other_fresh).
    assert (Hmail : email (profile_update nm (Some e) u) = cast_email e)
      by (by apply profile_update_email).
    destruct (profile_update_keeps nm (Some e) u) as (_ & _ & _ & Hver & _).
    unfold findOne_email_other. rewrite Hother, Hvalid, Hmail, Hother. cbn.
    by destruct check.
Qed.

(** ** Tokens that are handed out again *)

Lemma signed_token_accepted `{P : Platform} {J : JwtContract P} (env : Env)
    (id : ObjectId) (tok : string) (tsign start : Z) :
  jwt_sign id (JWT_SECRET env) (or_default (JWT_EXPIRES_IN env) "7d")
    "portfolio-api" "portfolio-client" tsign = Some tok ->
  start <= tsign ->
  accepted_as env tok id (start / 1000 + token_seconds env).
Proof.
  intros Hsign Hle req w u Hauth Hl Ha Hun Hexp.
  apply (accepts_signed_token env id u tok tsign req w); try done.
  unfold token_seconds in Hexp.
  assert (start / 1000 <= tsign / 1000) by (apply Z.div_le_mono; lia).
  lia.
Qed.

(** X18. [refresh-token] never writes to the users collection, and the token
    it returns to an authenticated caller is accepted, until it expires, as
    the very identity that asked for it, whatever has been written to that
    identity since; no password is needed to renew a token. *)
Theorem refresh_token_same_identity `{P : Platform} {J : JwtContract P}
    (env : Env) (req : Request) (w : World) (req' : Request) :
  fst (authenticateToken env req w) = Next req' ->
  let r := refresh_token env req w in
  users (snd r) = users w
  /\ exists id u,
       req_user req' = Some (id, set_password "" u)
       /\ users w !! id = Some u
       /\ (fst r = fail 500 "TOKEN_REFRESH_ERROR"
           \/ exists tok,
                fst r = token_reply tok
                /\ accepted_as env tok id (clock w / 1000 + token_seconds env)).
Proof.
  intros Hnext. cbv zeta. unfold refresh_token. rewrite authenticated_run.
  destruct (authenticateToken_run env req w) as (Hu1 & Hc1 & Hsound).
  cbv zeta in Hu1, Hc1, Hsound.
  destruct (authenticateToken env req w) as [[resp | req1] w1];
    simpl in Hu1, Hc1, Hsound, Hnext |- *; [discriminate |].
  injection Hnext as <-.
  destruct (Hsound req1 eq_refl) as (id & u & -> & Hl & _ & _).
  unfold refresh_token_handler. cbn.
  unfold generateToken. unfold bind, ret, Date_now. cbn.
  destruct (jwt_sign _ _ _ _ _ (clock w1)) as [tok|] eqn:Hsign; cbn.
  - split; [done |]. exists id, u. split; [done |]. split; [done |].
    right. exists tok. split; [done |].
    by apply (signed_token_accepted env id tok (clock w1)).
  - split; [done |]. exists id, u. split; [done |]. split; [done |]. by left.
Qed.

(** X19. Behind [authenticateToken], [refreshTokenIfNeeded] never writes to
    the users collection, and the token it puts in the [X-New-Token] header,
    when it sets one, is accepted until it expires as the identity that was
    authenticated. *)
Theorem refresh_header_same_identity `{P : Platform} {D : JwtDecoder}
    {J : JwtContract P} (env : Env) (req : Request) (w : World)
    (req' : Request) :
  fst (authenticateToken env req w) = Next req' ->
  let w1 := snd (authenticateToken env req w) in
  let r := refreshTokenIfNeeded env req' w1 in
  users (snd r) = users w
  /\ forall tok,
       fst r = Some tok ->
       exists id u,
         req_user req' = Some (id, set_password "" u)
         /\ users w !! id = Some u
         /\ accepted_as env tok id (clock w / 1000 + token_seconds env).
Proof.
  intros Hnext. cbv zeta.
  destruct (authenticateToken_run env req w) as (Hu1 & Hc1 & Hsound).
  cbv zeta in Hu1, Hc1, Hsound.
  destruct (authenticateToken env req w) as [[resp | req1] w1];
    simpl in Hu1, Hc1, Hsound, Hnext |- *; [discriminate |].
  injection Hnext as <-.
  destruct (Hsound req1 eq_refl) as (id & u & -> & Hl & _ & _).
  unfold refreshTokenIfNeeded. cbn.
  destruct (bearer _) as [tok0|]; cbn; [| by split].
  destruct (truthy (Some tok0)); cbn; [| by split].
  unfold bind, ret, Date_now. cbn.
  destruct (jwt_decode tok0) as [[exp|]|]; cbn; [| by split | by split].
  destruct (exp * 1000 - clock w1 <? 24 * 60 * 60 * 1000); cbn; [| by split].
  unfold generateToken. unfold bind, ret, Date_now. cbn.
  split; [done |]. intros tok Hsign.
  exists id, u. split; [done |]. split; [done |].
  apply (signed_token_accepted env id tok
           (clock w1 + Z.of_N (hd 0%N (drift w1)))); [done | lia].
Qed.

(** X20. Changing the password does not end the sessions that are open: a
    token signed for an identity before a successful [change-password] is
    still accepted afterwards, until it expires. *)
Theorem token_survives_password_change `{P : Platform} {J : JwtContract P}
    (env : Env) (req : Request) (currentPassword newPassword : string)
    (w : World) (tok : string) (tsign : Z) (req' : Request) (id : ObjectId)
    (me : User) :
  fst (authenticateToken env req w) = Next req' ->
  req_user req' = Some (id, me) ->
  jwt_sign id (JWT_SECRET env) (or_default (JWT_EXPIRES_IN env) "7d")
    "portfolio-api" "portfolio-client" tsign = Some tok ->
  let r := change_password env req currentPassword newPassword w in
  fst r = ok_reply ->
  forall req2 w2,
    authorization req2 = Some (String.append "Bearer " tok) ->
    users w2 = users (snd r) ->
    clock (snd r) <= clock w2 ->
    clock w2 / 1000 < tsign / 1000 + token_seconds env ->
    exists u2,
      fst (authenticateToken env req2 w2)
      = Next (set_req_user (Some (id, set_password "" u2)) req2).
Proof.
  intros Hnext Hme Hsign. cbv zeta. intros Hok req2 w2 Hauth Hw2 Hck Hexp.
  unfold change_password in *. rewrite authenticated_run in *.
  destruct (authenticateToken_run env req w) as (Hu1 & Hc1 & Hsound).
  cbv zeta in Hu1, Hc1, Hsound.
  destruct (authenticateToken env req w) as [[resp | req1] w1];
    simpl in Hu1, Hc1, Hsound, Hnext, Hok, Hw2, Hck; [discriminate |].
  injection Hnext as <-.
  destruct (Hsound req1 eq_refl) as (id' & u & -> & Hl & Ha & Hun).
  cbn in Hme. injection Hme as <- <-.
  unfold change_password_handler in *. cbn in Hok, Hw2, Hck.
  unfold bind, ret, User_findById in *. rewrite Hu1, Hl in *.
  destruct (comparePassword u currentPassword); cbn in Hok, Hw2, Hck;
    [| discriminate].
  rewrite save_with_password_run in Hok, Hw2, Hck
    by (rewrite Hu1, Hl; done).
  destruct (schema_valid (set_password newPassword u)); cbn in Hok, Hw2, Hck;
    [| discriminate].
  destruct (password_modified u (set_password newPassword u));
    cbn in Hok, Hw2, Hck.
  - exists (set_password (bcrypt_hash newPassword (hd "" (entropy w1)))
              (set_password newPassword u)).
    apply (accepts_signed_token env id' _ tok tsign req2 w2); try done.
    + rewrite Hw2. apply lookup_insert_eq.
    + intros l Hlk. simpl in Hlk. specialize (Hun l Hlk). lia.
  - exists (set_password newPassword u).
    apply (accepts_signed_token env id' _ tok tsign req2 w2); try done.
    + rewrite Hw2. apply lookup_insert_eq.
    + intros l Hlk. simpl in Hlk. specialize (Hun l Hlk). lia.
Qed.

(** ** What every route keeps *)

Lemma point_change_refl (m : gmap ObjectId User) : point_change m m.
Proof. by left. Qed.

Lemma alter_absent (m : gmap ObjectId User) f id :
  m !! id = None -> alter f id m = m.
Proof.
  intros H. apply map_eq. intros j. rewrite lookup_alter.
  case_decide; subst; [by rewrite H | done].
Qed.

Lemma alter_inserted (m : gmap ObjectId User) f id (x : User) :
  alter f id (<[id := x]> m) = <[id := f x]> m.
Proof.
  apply map_eq. intros j.
  destruct (decide (id = j)) as [<- | Hne].
  - by rewrite lookup_alter_eq, !lookup_insert_eq.
  - by rewrite lookup_alter_ne, !lookup_insert_ne.
Qed.

Lemma point_change_alter (m : gmap ObjectId User) f id :
  (forall o, m !! id = Some o -> keeps_identity o (f o)) ->
  point_change m (alter f id m).
Proof.
  intros Hk. destruct (m !! id) as [o|] eqn:Ho.
  - right. exists id, (f o). split; [by apply alter_present |].
    unfold doc_ok. rewrite Ho. destruct (Hk o eq_refl) as (He & Hr & Hv & Hk').
    split; [done |]. split; [done |]. split; [by left | done].
  - left. by apply alter_absent.
Qed.

Lemma point_change_rewrite (m : gmap ObjectId User) id (o n : User) :
  m !! id = Some o -> keeps_identity o n -> point_change m (<[id := n]> m).
Proof.
  intros Ho (He & Hr & Hv & Hk). right. exists id, n. split; [done |].
  unfold doc_ok. rewrite Ho.
  split; [done |]. split; [done |]. split; [by left | done].
Qed.

Lemma email_index_None_fresh (m : gmap ObjectId User) e id :
  email_index m e = None -> fresh_email m id e.
Proof.
  intros H j v _ Hl. by apply (email_index_None m e H j v).
Qed.

Lemma point_change_new (m : gmap ObjectId User) id (n : User) :
  m !! id = None -> email_index m (email n) = None ->
  (role n = RoleAdmin -> findOne_role m RoleAdmin = None) ->
  lockUntil n = None ->
  point_change m (<[id := n]> m).
Proof.
  intros Hn He Hr Hk. right. exists id, n. split; [done |].
  unfold doc_ok. rewrite Hn. split; [| split; [| done]].
  - by apply email_index_None_fresh.
  - intros Hadm j v Hl. by apply (findOne_role_None m RoleAdmin (Hr Hadm) j v).
Qed.

Lemma point_change_locks (m m' : gmap ObjectId User) :
  point_change m m' -> locked_are_verified m -> locked_are_verified m'.
Proof.
  intros [-> | (id & n & -> & Hok)] Hinv; [done |].
  intros j u Hl Hlock. rewrite lookup_insert in Hl.
  case_decide as Hd; [| by apply (Hinv j u)].
  injection Hl as <-. subst j. unfold doc_ok in Hok.
  destruct (m !! id) as [o|] eqn:Ho.
  - destruct Hok as (_ & Hv & _ & [Hnone | [Hver | Hsame]]).
    + rewrite Hnone in Hlock. by destruct Hlock.
    + done.
    + apply Hv, (Hinv id o Ho). by rewrite <- Hsame.
  - destruct Hok as (_ & _ & Hnone). rewrite Hnone in Hlock. by destruct Hlock.
Qed.

(** The three invariants follow from the shape of one change. *)
Lemma point_change_unique_emails (m m' : gmap ObjectId User) :
  point_change m m' -> unique_emails m -> unique_emails m'.
Proof.
  intros [-> | (id & n & -> & Hok)] Huniq; [done |].
  intros i j a b Hi Hj Hab. rewrite lookup_insert in Hi, Hj.
  unfold doc_ok in Hok.
  assert (Hfresh : forall k v, k <> id -> m !! k = Some v -> email v <> email n).
  { intros k v Hk Hl Heq. destruct (m !! id) as [o|] eqn:Ho.
    - destruct Hok as (_ & _ & [Hsame | Hf] & _).
      + apply Hk. apply (Huniq k id v o); congruence.
      + by apply (Hf k v).
    - destruct Hok as [Hf _]. by apply (Hf k v). }
  destruct (decide (id = i)) as [<- | Hni], (decide (id = j)) as [<- | Hnj];
    [done | | |].
  - injection Hi as <-. exfalso. apply (Hfresh j b); [congruence | done | done].
  - injection Hj as <-. exfalso. apply (Hfresh i a); [congruence | done | done].
  - by apply (Huniq i j a b).
Qed.

Lemma point_change_one_admin (m m' : gmap ObjectId User) :
  point_change m m' -> at_most_one_admin m -> at_most_one_admin m'.
Proof.
  intros [-> | (id & n & -> & Hok)] Hone; [done |].
  intros i j a b Hi Hj Ha Hb. rewrite lookup_insert in Hi, Hj.
  unfold doc_ok in Hok.
  assert (Hother : forall k v, k <> id -> m !! k = Some v ->
                     role v = RoleAdmin -> role n = RoleAdmin -> False).
  { intros k v Hk Hl Hv Hn. destruct (m !! id) as [o|] eqn:Ho.
    - destruct Hok as (Hr & _). apply Hk.
      apply (Hone k id v o); congruence.
    - destruct Hok as (_ & Hno & _). by apply (Hno Hn k v). }
  destruct (decide (id = i)) as [<- | Hni], (decide (id = j)) as [<- | Hnj];
    [done | | |].
  - injection Hi as <-. exfalso. apply (Hother j b); congruence.
  - injection Hj as <-. exfalso. apply (Hother i a); congruence.
  - by apply (Hone i j a b).
Qed.

Lemma point_change_kept (m m' : gmap ObjectId User) :
  point_change m m' -> identities_kept m m'.
Proof.
  intros [-> | (id & n & -> & Hok)] j u Hl; [by exists u |].
  rewrite lookup_insert. case_decide as Hd.
  - subst j. unfold doc_ok in Hok. rewrite Hl in Hok.
    destruct Hok as (Hr & Hv & _). by exists n.
  - by exists u.
Qed.

Lemma identities_kept_trans (m1 m2 m3 : gmap ObjectId User) :
  identities_kept m1 m2 -> identities_kept m2 m3 -> identities_kept m1 m3.
Proof.
  intros H12 H23 id u Hl.
  destruct (H12 id u Hl) as (u2 & Hl2 & Hr2 & Hv2).
  destruct (H23 id u2 Hl2) as (u3 & Hl3 & Hr3 & Hv3).
  exists u3. split; [done |]. split; [congruence | tauto].
Qed.

(** Each route changes the collection in one point. *)

Lemma login_point_change `{P : Platform} env mail pw w :
  point_change (users w) (users (snd (login env mail pw w))).
Proof.
  destruct (findOne_email (users w) mail) as [[id u]|] eqn:Hf;
    [destruct (isVerified u) eqn:Hv |].
  - rewrite (login_found env w mail pw id u Hf Hv).
    destruct (isLocked_run u w) as (_ & Hu1 & _).
    destruct (isLocked u w) as [locked w1]. simpl in Hu1.
    rewrite <- Hu1.
    destruct locked; [apply point_change_refl |].
    destruct (isActive u); cbn; [| apply point_change_refl].
    destruct (comparePassword u pw); cbn.
    + destruct (generateToken _ _ _) as [signed w3] eqn:Hg.
      assert (Hu3 : users w3 = users (snd (resetLoginAttempts id w1))).
      { change w3 with (snd (signed, w3)). rewrite <- Hg. reflexivity. }
      cbn. rewrite Hu3. apply point_change_alter. intros o _. keeps_tac.
    + destruct (incLoginAttempts_cases id u w1) as (_ & Hcases).
      cbv zeta in Hcases.
      apply findOne_email_Some in Hf as [Hl _].
      destruct Hcases as [(l' & _ & _ & Hw)
                         | (_ & [(_ & t & _ & _ & Hw) | (_ & Hw)])];
        rewrite Hw; apply point_change_alter; intros o Ho;
        rewrite Hu1, Hl in Ho; injection Ho as <-; keeps_tac.
  - unfold login. unfold_monad. rewrite Hf, Hv. apply point_change_refl.
  - unfold login. unfold_monad. rewrite Hf. apply point_change_refl.
Qed.

Lemma register_point_change `{P : Platform} env nm mail pw w :
  point_change (users w) (users (snd (register env nm mail pw w))).
Proof.
  unfold register. unfold bind, ret, User_findOne_email, new_ObjectId.
  destruct (findOne_email (users w) mail) eqn:Hf; [apply point_change_refl |].
  unfold generateVerificationToken. unfold_monad. cbn.
  match goal with
  | |- context [save_new ?i ?d ?w0] =>
    destruct (save_new_cases i d w0) as [[Hr Hu] | (salt & Hr & Hnew & Hu)];
    cbv zeta in *;
    destruct (save_new i d w0) as [saved w2]
  end; simpl in Hr, Hu; subst saved.
  - cbn. rewrite Hu. apply point_change_refl.
  - assert (Hgoal : point_change (users w) (users w2)).
    { rewrite Hu. simpl in Hnew.
      apply point_change_new; [done | exact Hf | discriminate | done]. }
    unfold generateToken. unfold_monad.
    by destruct (jwt_sign _ _ _ _ _ _).
Qed.

Lemma save_new_fresh `{P : Platform} (id : ObjectId) (doc : User) (w : World)
    (saved : ObjectId * User) :
  fst (save_new id doc w) = Some saved ->
  email_index (users w) (email doc) = None.
Proof.
  unfold save_new. unfold_monad.
  destruct (schema_valid doc); simpl; [| discriminate].
  destruct (users w !! id); simpl; [discriminate |].
  by destruct (email_index (users w) (email doc)).
Qed.

Lemma create_admin_point_change `{P : Platform} env nm mail pw w :
  point_change (users w) (users (snd (create_admin env nm mail pw w))).
Proof.
  unfold create_admin. unfold bind, ret, User_findOne_role.
  destruct (bool_decide (NODE_ENV env = Some "production"));
    [apply point_change_refl |].
  destruct (findOne_role (users w) RoleAdmin) eqn:Hrole;
    [apply point_change_refl |].
  match goal with
  | |- context [User_createAdmin ?a ?b ?c w] =>
    set (mail' := a); set (pw' := b); set (nm' := c)
  end.
  assert (Hfresh : forall saved, fst (User_createAdmin mail' pw' nm' w) = Some saved ->
                     email_index (users w) (cast_email mail') = None).
  { unfold User_createAdmin.
    unfold bind, ret, User_findOne_email_role, new_ObjectId.
    destruct (findOne_email_role (users w) mail' RoleAdmin) as [[i a]|] eqn:Hf.
    - apply findOne_email_role_Some in Hf as (Hl & _ & Hr).
      exfalso. by apply (findOne_role_None _ _ Hrole i a).
    - intros saved Hs. by apply save_new_fresh in Hs. }
  destruct (User_createAdmin_cases mail' pw' nm' w Hrole) as
    [[Hr Hu] | (id & salt & Hr & Hnew & Hu)]; cbv zeta in *;
    destruct (User_createAdmin mail' pw' nm' w) as [created w1];
    simpl in Hr, Hu; subst created.
  - rewrite <- Hu. apply point_change_refl.
  - specialize (Hfresh _ eq_refl). unfold save. cbn.
    match goal with
    | |- context [generateToken env id ?w2] =>
      destruct (generateToken env id w2) as [signed w3] eqn:Ht;
      assert (Hu3 : users w3 = users w2)
        by (change w3 with (snd (signed, w3)); rewrite <- Ht; reflexivity)
    end.
    assert (Hgoal : point_change (users w) (users w3)).
    { rewrite Hu3. cbn. rewrite Hu, alter_inserted.
      apply point_change_new; [done | done | done | done]. }
    by destruct signed.
Qed.

Lemma verify_email_point_change `{P : Platform} tok mail w :
  point_change (users w) (users (snd (verify_email tok mail w))).
Proof.
  unfold verify_email. unfold_monad.
  destruct tok as [t|], mail as [m|]; try apply point_change_refl.
  destruct (negb (truthy (Some t)) || negb (truthy (Some m)));
    [apply point_change_refl |].
  destruct (findOne_email (users w) m) as [[id u]|] eqn:Hf;
    [| apply point_change_refl].
  apply findOne_email_Some in Hf as [Hl _].
  destruct (isVerified u); [apply point_change_refl |].
  destruct (verifyToken u) as [stored|]; [| apply point_change_refl].
  destruct (verifyExpires u) as [expires|]; [| apply point_change_refl].
  destruct (negb (truthy (Some stored))); [apply point_change_refl |].
  destruct (negb (bool_decide (sha256_hex t = stored)));
    [apply point_change_refl |].
  simpl. destruct (expires <? clock w); simpl; [apply point_change_refl |].
  apply point_change_alter. intros o Ho. rewrite Hl in Ho. injection Ho as <-.
  keeps_tac.
Qed.

Lemma resend_point_change `{P : Platform} env mail w :
  point_change (users w) (users (snd (resend_verification env mail w))).
Proof.
  unfold resend_verification. unfold bind, ret, User_findOne_email.
  destruct mail as [m|]; [| apply point_change_refl].
  destruct (negb (truthy (Some m))); [apply point_change_refl |].
  destruct (findOne_email (users w) m) as [[id u]|] eqn:Hf;
    [| apply point_change_refl].
  apply findOne_email_Some in Hf as [Hl _].
  destruct (isVerified u) eqn:Hv; [apply point_change_refl |].
  unfold Date_now at 1. cbn.
  match goal with
  | |- context [match ?c with Some _ => _ | None => _ end] =>
    destruct c; [apply point_change_refl |]
  end.
  unfold generateVerificationToken, save. unfold_monad. cbn.
  apply point_change_alter. intros o Ho. rewrite Hl in Ho. injection Ho as <-.
  unfold keeps_identity, lock_ok. simpl.
  split; [done |]. split; [done |]. split; [congruence | by right; right].
Qed.

Lemma mark_verified_point_change `{P : Platform} id w :
  point_change (users w) (users (snd (mark_verified_by_id id w))).
Proof.
  unfold mark_verified_by_id, markVerified. unfold_monad.
  destruct (users w !! id) as [u|] eqn:Hl; simpl; [| apply point_change_refl].
  apply point_change_alter. intros o Ho. rewrite Hl in Ho. injection Ho as <-.
  keeps_tac.
Qed.

Lemma perform_point_change `{P : Platform} env op w :
  point_change (users w) (users (perform env op w)).
Proof.
  destruct op; simpl.
  - apply register_point_change.
  - apply login_point_change.
  - apply create_admin_point_change.
  - apply verify_email_point_change.
  - apply resend_point_change.
  - apply mark_verified_point_change.
Qed.

Lemma authenticated_unchanged `{P : Platform} env req handler w :
  (forall req' w1, users (snd (handler req' w1)) = users w1) ->
  users (snd (authenticated env req handler w)) = users w.
Proof.
  intros Hh. rewrite authenticated_run.
  destruct (authenticateToken_run env req w) as (Hu1 & _).
  destruct (authenticateToken env req w) as [[resp | req1] w1];
    simpl in Hu1 |- *; [done |].
  by rewrite Hh.
Qed.

Lemma change_password_writes `{P : Platform} env req cur new w :
  users (snd (change_password env req cur new w)) = users w
  \/ exists id u salt,
       users w !! id = Some u
       /\ users (snd (change_password env req cur new w))
          = <[id := set_password (bcrypt_hash new salt) u]> (users w).
Proof.
  unfold change_password. rewrite authenticated_run.
  destruct (authenticateToken_run env req w) as (Hu1 & _ & Hsound).
  cbv zeta in Hu1, Hsound.
  destruct (authenticateToken env req w) as [[resp | req1] w1];
    simpl in Hu1, Hsound |- *; [by left |].
  destruct (Hsound req1 eq_refl) as (id & u & -> & Hl & _ & _).
  unfold change_password_handler. cbn.
  unfold bind, ret, User_findById. rewrite Hu1, Hl.
  destruct (comparePassword u cur); cbn; [| by left].
  rewrite save_with_password_run by (rewrite Hu1, Hl; done).
  destruct (schema_valid (set_password new u)); cbn; [| by left].
  unfold password_modified. cbn. case_bool_decide as Hsame; cbn.
  - left. subst new. rewrite set_password_same, Hu1. by apply insert_id.
  - right. exists id, u, (hd "" (entropy w1)). split; [done |]. by rewrite Hu1.
Qed.

Lemma update_profile_writes `{P : Platform} env req nm mail w :
  users (snd (update_profile env req nm mail w)) = users w
  \/ exists id u,
       users w !! id = Some u
       /\ fresh_email (users w) id (email (profile_update nm mail u))
       /\ users (snd (update_profile env req nm mail w))
          = <[id := profile_update nm mail u]> (users w).
Proof.
  unfold update_profile. rewrite authenticated_run.
  destruct (authenticateToken_run env req w) as (Hu1 & _ & Hsound).
  cbv zeta in Hu1, Hsound.
  destruct (authenticateToken env req w) as [[resp | req1] w1];
    simpl in Hu1, Hsound |- *; [by left |].
  destruct (Hsound req1 eq_refl) as (id & u & -> & Hl & _ & _).
  rewrite (update_profile_handler_run nm mail req id (set_password "" u) u w1)
    by (rewrite ?Hu1; done).
  cbv zeta. rewrite Hu1.
  destruct (if _ && _ then _ else _); cbn; [by left |].
  destruct (schema_valid _); cbn; [| by left].
  destruct (email_index_other _ _ _) eqn:Hother; cbn; [by left |].
  right. exists id, u. split; [done |].
  split; [by apply email_index_other_None | done].
Qed.

Lemma token_routes_unchanged `{P : Platform} env req w :
  users (snd (refresh_token env req w)) = users w
  /\ users (snd (verify_token env req w)) = users w
  /\ users (snd (logout env req w)) = users w.
Proof.
  repeat split; apply authenticated_unchanged; intros req' w1.
  - unfold refresh_token_handler.
    destruct (req_user req') as [[id u]|]; [| done].
    unfold generateToken. unfold_monad. by destruct (jwt_sign _ _ _ _ _ _).
  - by destruct (req_user req') as [[id u]|].
  - done.
Qed.

Lemma perform_account_point_change `{P : Platform} env op w :
  point_change (users w) (users (perform_account env op w)).
Proof.
  destruct op as [op | req cur new | req nm mail | req | req | req]; simpl.
  - apply perform_point_change.
  - destruct (change_password_writes env req cur new w)
      as [-> | (id & u & salt & Hl & ->)]; [apply point_change_refl |].
    apply (point_change_rewrite _ id u); [done | keeps_tac].
  - destruct (update_profile_writes env req nm mail w)
      as [-> | (id & u & Hl & Hfresh & ->)]; [apply point_change_refl |].
    right. exists id, (profile_update nm mail u). split; [done |].
    unfold doc_ok. rewrite Hl.
    destruct (profile_update_keeps nm mail u)
      as (_ & Hr & _ & Hv & _ & _ & _ & Hk).
    split; [done |]. split; [congruence |]. split; [by right |].
    by right; right.
  - destruct (token_routes_unchanged env req w) as (-> & _). by left.
  - destruct (token_routes_unchanged env req w) as (_ & -> & _). by left.
  - destruct (token_routes_unchanged env req w) as (_ & _ & ->). by left.
Qed.

(** X21. E-mails stay unique: every route that writes to the users collection
    (register, login, create-admin, verify-email, resend-verification,
    change-password, profile) and the token routes take a collection in which
    no two identities share an e-mail to one in which none do, along any
    sequence of requests. *)
Theorem emails_stay_unique `{P : Platform} (env : Env) (ops : list AccountOp)
    (w : World) :
  unique_emails (users w) ->
  unique_emails (users (perform_accounts env ops w)).
Proof.
  revert w. induction ops as [|op ops IH]; intros w Huniq; [done |].
  simpl. apply IH.
  eapply point_change_unique_emails; [apply perform_account_point_change | done].
Qed.

(** X22. No route makes a second admin: a collection with at most one admin
    still has at most one after any sequence of requests. *)
Theorem admin_stays_single `{P : Platform} (env : Env) (ops : list AccountOp)
    (w : World) :
  at_most_one_admin (users w) ->
  at_most_one_admin (users (perform_accounts env ops w)).
Proof.
  revert w. induction ops as [|op ops IH]; intros w Hone; [done |].
  simpl. apply IH.
  eapply point_change_one_admin; [apply perform_account_point_change | done].
Qed.

(** X23. No route deletes an identity, changes its role, or takes its
    verification back: after any sequence of requests every identity that was
    stored is still stored under the same id, with the role it had, and
    verified if it was. *)
Theorem identities_are_kept `{P : Platform} (env : Env) (ops : list AccountOp)
    (w : World) :
  identities_kept (users w) (users (perform_accounts env ops w)).
Proof.
  revert w. induction ops as [|op ops IH]; intros w.
  - intros id u Hl. by exists u.
  - simpl. eapply identities_kept_trans; [| apply IH].
    apply point_change_kept, perform_account_point_change.
Qed.

Lemma perform_account_store_step `{P : Platform} env op w :
  store_step (users w) (users (perform_account env op w)).
Proof.
  destruct op as [op | req cur new | req nm mail | req | req | req]; simpl.
  - apply perform_store_step.
  - destruct (change_password_writes env req cur new w)
      as [-> | (id & u & salt & Hl & ->)]; [apply store_step_refl |].
    apply store_step_insert. rewrite Hl. intros Hv. right. by exists u.
  - destruct (update_profile_writes env req nm mail w)
      as [-> | (id & u & Hl & _ & ->)]; [apply store_step_refl |].
    apply store_step_insert. rewrite Hl.
    destruct (profile_update_keeps nm mail u)
      as (_ & _ & _ & Hv & Ht & He & _).
    intros Hver. right. exists u. rewrite <- Hv. done.
  - destruct (token_routes_unchanged env req w) as (-> & _).
    apply store_step_refl.
  - destruct (token_routes_unchanged env req w) as (_ & -> & _).
    apply store_step_refl.
  - destruct (token_routes_unchanged env req w) as (_ & _ & ->).
    apply store_step_refl.
Qed.

(** X24. The account routes keep the verification invariant as well: after any
    sequence of requests to register, login, create-admin, verify-email,
    resend-verification, change-password, profile and the token routes,
    every verified identity still has neither a token hash nor an expiry,
    provided that was so before. *)
Theorem account_routes_keep_verification `{P : Platform} (env : Env)
    (ops : list AccountOp) (w : World) :
  verification_invariant (users w) ->
  verification_invariant (users (perform_accounts env ops w)).
Proof.
  revert w. induction ops as [|op ops IH]; intros w Hinv; [done |].
  simpl. apply IH.
  eapply store_step_invariant; [apply perform_account_store_step | done].
Qed.

(** ** The scripts and the static [createAdmin] *)

(** X25. [updateAdmin] marks the first admin verified and gives it the new
    credentials (the password hashed by the pre-save hook, unless the stored
    text is that password already), but leaves [verifyToken] and
    [verifyExpires] as they are: an admin that was waiting for verification
    with a token issued comes out verified and still holding the token hash,
    so the collection no longer satisfies "verified implies no token". *)
Theorem updateAdmin_keeps_pending_token `{P : Platform} (w : World)
    (id : ObjectId) (admin : User) :
  findOne_role (users w) RoleAdmin = Some (id, admin) ->
  schema_valid (admin_update admin) = true ->
  fresh_email (users w) id "jadejakrushnrajsinh99@gmail.com" ->
  exists salt,
    let u' := if bool_decide (password admin = "jadeja.kirtiba.12")
              then admin_update admin
              else set_password (bcrypt_hash "jadeja.kirtiba.12" salt)
                     (admin_update admin) in
    users (snd (updateAdmin w)) = <[id := u']> (users w)
    /\ isVerified u' = true
    /\ verifyToken u' = verifyToken admin
    /\ verifyExpires u' = verifyExpires admin
    /\ (verifyToken admin <> None ->
        ~ verification_invariant (users (snd (updateAdmin w)))).
Proof.
  intros Hf Hvalid Hfresh.
  assert (Hl : users w !! id = Some admin).
  { unfold findOne_role in Hf. apply find_some in Hf as [Hin _].
    apply elem_of_map_to_list. by apply list_elem_of_In. }
  assert (Hother : email_index_other (users w)
                     (cast_email "jadejakrushnrajsinh99@gmail.com") id = None)
    by (by apply email_index_other_fresh).
  exists (hd "" (entropy w)). cbv zeta.
  set (u' := if bool_decide (password admin = "jadeja.kirtiba.12")
             then admin_update admin
             else set_password
                    (bcrypt_hash "jadeja.kirtiba.12" (hd "" (entropy w)))
                    (admin_update admin)).
  assert (Hu : users (snd (updateAdmin w)) = <[id := u']> (users w)).
  { unfold updateAdmin, save_with_credentials.
    unfold bind, ret, User_findOne_role. rewrite Hf, Hvalid. cbn.
    unfold password_modified, u'. cbn.
    destruct (decide (password admin = "jadeja.kirtiba.12")) as [Heq | Hne].
    - rewrite (bool_decide_eq_true_2 _ (eq_sym Heq)).
      rewrite (bool_decide_eq_true_2 _ Heq). cbn. rewrite Hother.
      unfold save. cbn.
      by apply (alter_present (users w) (fun _ => admin_update admin) id admin).
    - rewrite (bool_decide_eq_false_2 ("jadeja.kirtiba.12" = password admin))
        by congruence.
      rewrite (bool_decide_eq_false_2 _ Hne). cbn.
      unfold random_hex, save. cbn. rewrite Hother. cbn.
      by apply (alter_present (users w)
                  (fun _ => set_password
                              (bcrypt_hash "jadeja.kirtiba.12"
                                 (hd "" (entropy w)))
                              (admin_update admin)) id admin). }
  assert (Hfacts : isVerified u' = true /\ verifyToken u' = verifyToken admin
                   /\ verifyExpires u' = verifyExpires admin)
    by (unfold u'; by case_bool_decide).
  destruct Hfacts as (Hv & Ht & He).
  split; [exact Hu |]. split; [done |]. split; [done |]. split; [done |].
  intros Htok Hinv. rewrite Hu in Hinv.
  destruct (Hinv id _ (lookup_insert_eq _ _ _) Hv) as [Hnone _].
  rewrite Ht in Hnone. contradiction.
Qed.


(** X27. When signing the token throws, registration answers
    [REGISTRATION_ERROR] although the identity has been stored, under the
    e-mail of the request cast to the path: the same registration sent again
    is answered [USER_EXISTS]. *)
Theorem register_stores_before_signing `{P : Platform} (env : Env) (w : World)
    (nm mail pw : string) :
  findOne_email (users w) mail = None ->
  users w !! nextId w = None ->
  (forall d, email d = cast_email mail -> schema_valid d = true) ->
  (forall t, jwt_sign (nextId w) (JWT_SECRET env)
               (or_default (JWT_EXPIRES_IN env) "7d")
               "portfolio-api" "portfolio-client" t = None) ->
  let r := register env nm mail pw w in
  fst r = fail 500 "REGISTRATION_ERROR"
  /\ (exists u, users (snd r) = <[nextId w := u]> (users w)
                /\ email u = cast_email mail /\ isVerified u = false)
  /\ fst (register env nm mail pw (snd r)) = fail 400 "USER_EXISTS".
Proof.
  intros Hnone Hfresh Hvalid Hsign. cbv zeta.
  set (doc := set_password (bcrypt_hash pw (hd "" (tl (entropy w))))
                (reissued (sha256_hex (hd "" (entropy w)))
                   (clock w + default_expiresInMs)
                   (clock w + Z.of_N (hd 0%N (drift w)))
                   (new_User nm mail pw RoleUser false))).
  assert (Hrun : register env nm mail pw w
                 = (fail 500 "REGISTRATION_ERROR",
                    mkWorld (<[nextId w := doc]> (users w))
                      (clock w + Z.of_N (hd 0%N (drift w))
                       + Z.of_N (hd 0%N (tl (drift w)))
                       + Z.of_N (hd 0%N (tl (tl (drift w)))))
                      (tl (tl (tl (drift w)))) (tl (tl (entropy w)))
                      (N.succ (nextId w)))).
  { unfold register, generateVerificationToken, save_new, generateToken.
    unfold bind, ret, User_findOne_email, new_ObjectId, random_hex, Date_now.
    rewrite Hnone. cbn. rewrite Hvalid by done. cbn.
    unfold findOne_email in Hnone.
    rewrite Hfresh, Hnone. cbn. by rewrite Hsign. }
  rewrite Hrun. cbn. split; [done |]. split.
  - exists doc. by repeat split.
  - unfold register. unfold bind, ret, User_findOne_email. cbn.
    by rewrite (findOne_email_inserted (users w) mail (nextId w) doc Hnone).
Qed.

(** ** The admin bootstrap route *)

Lemma findOne_role_present (m : gmap ObjectId User) (r : Role) id u :
  m !! id = Some u -> role u = r -> is_Some (findOne_role m r).
Proof.
  intros Hl Hr.
  destruct (findOne_role m r) eqn:Hf; [by eexists |].
  exfalso. by apply (findOne_role_None _ _ Hf id u).
Qed.

Lemma create_admin_refused `{P : Platform} env nm mail pw w :
  is_Some (findOne_role (users w) RoleAdmin) ->
  NODE_ENV env <> Some "production" ->
  create_admin env nm mail pw w = (fail 400 "ADMIN_EXISTS", w).
Proof.
  intros [d Hd] Hdev.
  unfold create_admin. unfold bind, ret, User_findOne_role.
  rewrite bool_decide_eq_false_2 by done.
  by rewrite Hd.
Qed.

(** X28. [POST /api/auth/create-admin] answers 403 in production and 400 as
    soon as any admin is stored, both without touching the collection.  When
    it answers 201 it has stored exactly one new document, an admin that is
    verified and carries neither token hash nor expiry, and from then on the
    route answers [ADMIN_EXISTS]. *)
Theorem create_admin_once `{P : Platform} (env : Env)
    (nm mail pw : option string) (w : World) :
  let r := create_admin env nm mail pw w in
  (NODE_ENV env = Some "production" ->
   r = (fail 403 "PRODUCTION_RESTRICTION", w))
  /\ (NODE_ENV env <> Some "production" ->
      is_Some (findOne_role (users w) RoleAdmin) ->
      r = (fail 400 "ADMIN_EXISTS", w))
  /\ (forall tok v,
        fst r = with_token 201 tok v ->
        exists id u,
          users w !! id = None
          /\ users (snd r) = <[id := u]> (users w)
          /\ v = view_of id u
          /\ role u = RoleAdmin /\ isVerified u = true
          /\ verifyToken u = None /\ verifyExpires u = None
          /\ forall env' nm' mail' pw' w2,
               users w2 = users (snd r) ->
               NODE_ENV env' <> Some "production" ->
               create_admin env' nm' mail' pw' w2
               = (fail 400 "ADMIN_EXISTS", w2)).
Proof.
  cbv zeta. split; [| split].
  - intros Hprod. unfold create_admin.
    by rewrite bool_decide_eq_true_2.
  - intros Hdev Hsome. by apply create_admin_refused.
  - intros tok v.
    unfold create_admin. unfold bind, ret, User_findOne_role.
    destruct (bool_decide (NODE_ENV env = Some "production")); [done |].
    destruct (findOne_role (users w) RoleAdmin) eqn:Hrole; [done |].
    match goal with
    | |- context [User_createAdmin ?a ?b ?c w] =>
      destruct (User_createAdmin_cases a b c w Hrole) as
        [[Hr Hu] | (id & salt & Hr & Hnew & Hu)]; cbv zeta in *;
      destruct (User_createAdmin a b c w) as [created w1]
    end; simpl in Hr, Hu; subst created; [done |].
    unfold save. cbn.
    match goal with
    | |- context [generateToken env id ?w2] =>
      destruct (generateToken env id w2) as [signed w3] eqn:Ht;
      assert (Hu3 : users w3 = users w2)
        by (change w3 with (snd (signed, w3)); rewrite <- Ht; reflexivity)
    end.
    destruct signed as [tok' |]; [| done].
    cbn. intros Hreply.
    match type of Hreply with
    | with_token _ _ (view_of _ ?a) = _ => set (admin := a) in *
    end.
    exists id, admin.
    assert (Hstore : users w3 = <[id := admin]> (users w)).
    { rewrite Hu3. cbn. rewrite Hu. apply alter_inserted. }
    split; [done |]. split; [done |].
    split; [by inversion Hreply |].
    split; [done |]. split; [done |]. split; [done |]. split; [done |].
    intros env' nm' mail' pw' w2 Hw2 Hdev.
    apply create_admin_refused; [| done].
    apply (findOne_role_present _ _ id admin); [| done].
    rewrite Hw2, Hstore. apply lookup_insert_eq.
Qed.

(** ** The lockout on every store the program builds *)

Lemma locked_are_verified_insert (m : gmap ObjectId User) id (n : User) :
  (is_Some (lockUntil n) -> isVerified n = true) ->
  locked_are_verified m -> locked_are_verified (<[id := n]> m).
Proof.
  intros Hn Hinv j u Hl Hlock. rewrite lookup_insert in Hl.
  case_decide as Hd; [| by apply (Hinv j u)].
  injection Hl as <-. by apply Hn.
Qed.

Lemma User_createAdmin_locks `{P : Platform} mail pw nm w :
  locked_are_verified (users w) ->
  locked_are_verified (users (snd (User_createAdmin mail pw nm w))).
Proof.
  intros Hinv. unfold User_createAdmin.
  unfold bind, ret, User_findOne_email_role, new_ObjectId.
  destruct (findOne_email_role (users w) mail RoleAdmin); [done |].
  match goal with
  | |- context [save_new ?i ?d ?w1] =>
    destruct (save_new_cases i d w1) as [[_ Hu] | (salt & _ & _ & Hu)]
  end; cbv zeta in Hu; rewrite Hu; [done |].
  apply locked_are_verified_insert; [| done].
  simpl. by intros [x Hx].
Qed.

Lemma locked_are_verified_rewrite (m : gmap ObjectId User) id (doc : User) :
  isVerified doc = true ->
  locked_are_verified m -> locked_are_verified (alter (fun _ => doc) id m).
Proof.
  intros Hv Hinv. destruct (m !! id) as [old|] eqn:Hold.
  - rewrite (alter_present _ _ id old Hold).
    by apply locked_are_verified_insert.
  - by rewrite alter_absent.
Qed.

Lemma updateAdmin_locks `{P : Platform} w :
  locked_are_verified (users w) ->
  locked_are_verified (users (snd (updateAdmin w))).
Proof.
  intros Hinv. unfold updateAdmin, save_with_credentials.
  unfold bind, ret, User_findOne_role, random_hex, save.
  destruct (findOne_role (users w) RoleAdmin) as [[id admin]|]; [| done].
  destruct (schema_valid (admin_update admin)); cbn; [| done].
  destruct (password_modified admin (admin_update admin)); cbn;
    (destruct (email_index_other _ _ _); cbn; [done |];
     by apply locked_are_verified_rewrite).
Qed.

Lemma run_step_locks `{P : Platform} env step w :
  locked_are_verified (users w) ->
  locked_are_verified (users (run_step env step w)).
Proof.
  destruct step as [op | mail pw nm |]; simpl.
  - apply point_change_locks, perform_account_point_change.
  - apply User_createAdmin_locks.
  - apply updateAdmin_locks.
Qed.

Lemma run_steps_locks `{P : Platform} env steps w :
  locked_are_verified (users w) ->
  locked_are_verified (users (run_steps env steps w)).
Proof.
  revert w. induction steps as [|step steps IH]; intros w Hinv; [done |].
  simpl. apply IH. by apply run_step_locks.
Qed.

(** C1. On every store the program builds, that is, after any sequence of
    requests to the account routes and runs of the seed and [updateAdmin]
    scripts that starts from a store in which only verified identities carry
    a lock (the empty store is one): for every identity, a failed-password
    login attempt that brings [loginAttempts] to 5 finds the identity
    unlocked and leaves it locked until two hours after a clock reading taken
    during the attempt; and while the identity is locked, a login attempt
    answers [ACCOUNT_LOCKED] whatever the password and writes nothing, so the
    counter is not incremented. *)
Theorem lockout_at_threshold `{P : Platform} (env : Env) (w0 : World)
    (steps : list ProgramStep) (w : World) (mail pw : string)
    (id : ObjectId) (u : User) :
  locked_are_verified (users w0) ->
  users w = users (run_steps env steps w0) ->
  findOne_email (users w) mail = Some (id, u) ->
  let r := login env mail pw w in
  (fst r = fail 401 "INVALID_CREDENTIALS" ->
   forall u', users (snd r) !! id = Some u' -> loginAttempts u' = 5 ->
     Unlocked u (clock w)
     /\ exists t, clock w <= t <= clock (snd r)
          /\ lockUntil u' = Some (t + 2 * 60 * 60 * 1000)
          /\ Locked u' t)
  /\ (Locked u (clock w) ->
      fst r = locked_reply u /\ users (snd r) = users w).
Proof.
  intros Hinv0 Hw Hf. cbv zeta.
  assert (Hinv : locked_are_verified (users w))
    by (rewrite Hw; by apply run_steps_locks).
  destruct (isVerified u) eqn:Hv.
  - exact (lockout_when_verified env w mail pw id u Hf Hv).
  - assert (Hgate : login env mail pw w = (fail 403 "EMAIL_NOT_VERIFIED", w)).
    { unfold login. unfold bind, ret, User_findOne_email. by rewrite Hf, Hv. }
    rewrite Hgate. split; [discriminate |].
    intros (l & Hlock & _).
    apply findOne_email_Some in Hf as [Hl _].
    assert (isVerified u = true) by (apply (Hinv id u Hl); by rewrite Hlock).
    congruence.
Qed.

(** ** More concrete runs *)

Lemma sample_bcrypt : BcryptContract sample_platform.
Proof. split. intros pw salt. simpl. by apply bool_decide_eq_true_2. Qed.

Lemma unique_emails_singleton (id : ObjectId) (u : User) :
  unique_emails {[ id := u ]}.
Proof.
  intros i j a b Hi Hj _.
  apply lookup_singleton_Some in Hi as [<- _].
  by apply lookup_singleton_Some in Hj as [<- _].
Qed.

Lemma unique_emails_empty : unique_emails ∅.
Proof. intros i j a b Hi. by rewrite lookup_empty in Hi. Qed.

Lemma login_success_resets_witness :
  let r := login (P := sample_platform) sample_env "alice@example.com" "pw"
             world_alice in
  exists t t', clock world_alice <= t /\ t <= t' /\ t' <= clock (snd r)
    /\ users (snd r) = <[1%N := cleared_login t alice]> (users world_alice)
    /\ fst r = match jwt_sign (Platform := sample_platform) 1%N
                       (JWT_SECRET sample_env)
                       (or_default (JWT_EXPIRES_IN sample_env) "7d")
                       "portfolio-api" "portfolio-client" t' with
               | Some tok => with_token 200 tok (view_of 1%N alice)
               | None => fail 500 "LOGIN_ERROR"
               end.
Proof.
  apply (login_success_resets (P := sample_platform) sample_env world_alice
           "alice@example.com" "pw" 1%N alice); try reflexivity.
  intros l Hl. discriminate.
Defined.

Lemma login_deactivated_witness :
  let r := login (P := sample_platform) sample_env "frank@example.com" "pw"
             world_frank in
  fst r = fail 401 "ACCOUNT_DEACTIVATED" /\ users (snd r) = users world_frank.
Proof.
  apply (login_deactivated (P := sample_platform) sample_env world_frank
           "frank@example.com" "pw" 6%N frank); try reflexivity.
  intros l Hl. discriminate.
Defined.

Lemma failed_attempt_below_threshold_witness :
  fst (login (P := sample_platform) sample_env "eve@example.com" "wrong" world_eve)
  = fail 401 "INVALID_CREDENTIALS"
  /\ users (snd (login (P := sample_platform) sample_env "eve@example.com"
                   "wrong" world_eve))
     = <[5%N := counted 1 eve]> (users world_eve)
  /\ loginAttempts (counted 1 eve) = loginAttempts eve + 1
  /\ lockUntil (counted 1 eve) = None.
Proof.
  apply (proj1 (failed_attempt_below_threshold (P := sample_platform)
                  sample_env world_eve "eve@example.com" "wrong") 5%N eve);
    reflexivity.
Defined.

Lemma five_failures_lock_witness :
  let w5 := perform_all (P := sample_platform) sample_env
              (repeat (OpLogin "eve@example.com" "wrong") 5) world_eve in
  exists t u5,
    clock world_eve <= t <= clock w5
    /\ users w5 !! 5%N = Some u5
    /\ loginAttempts u5 = 5
    /\ lockUntil u5 = Some (t + 2 * 60 * 60 * 1000)
    /\ forall pw' w6,
         users w6 = users w5 -> clock w6 < t + 2 * 60 * 60 * 1000 ->
         fst (login (P := sample_platform) sample_env "eve@example.com" pw' w6)
         = locked_reply u5
         /\ users (snd (login (P := sample_platform) sample_env
                         "eve@example.com" pw' w6)) = users w6.
Proof.
  apply (five_failures_lock (P := sample_platform) sample_env world_eve
           "eve@example.com" "wrong" 5%N eve); try reflexivity.
  apply unique_emails_singleton.
Defined.

Lemma bearer_ignores_scheme_witness :
  bearer (mkRequest (Some "Basic abc") None None None (fun _ => None)
            None None None) = Some "abc".
Proof.
  apply (proj1 (bearer_ignores_scheme (P := sample_platform) sample_env
                  (mkRequest (Some "Basic abc") None None None (fun _ => None)
                     None None None) empty_world) "Basic" "abc");
    [no_blank | no_blank | reflexivity].
Defined.

Lemma authenticateToken_sound_witness :
  exists id u,
    users world_alice !! id = Some u /\ isActive u = true
    /\ fst (authenticateToken (P := sample_platform) sample_env
              (bearer_request alice_token) world_alice)
       = Next (set_req_user (Some (id, set_password "" u))
                 (bearer_request alice_token)).
Proof.
  destruct (authenticateToken_sound (P := sample_platform) sample_env
              (bearer_request alice_token) world_alice) as (_ & _ & Hs).
  destruct (Hs (set_req_user (Some (1%N, set_password "" alice))
                  (bearer_request alice_token)) eq_refl)
    as (id & u & Heq & Hl & Ha & _).
  exists id, u. split; [exact Hl |]. split; [exact Ha |].
  rewrite <- Heq. reflexivity.
Defined.

Lemma validateSession_resolution_witness :
  req_sessionId
    (mkRequest None None (Some "from-body") (Some "from-query") (fun _ => None)
       None (Some "from-body") None)
  = Some "from-body".
Proof.
  destruct (proj2 (validateSession_resolution
                     (mkRequest None None (Some "from-body") (Some "from-query")
                        (fun _ => None) None None None))
              (mkRequest None None (Some "from-body") (Some "from-query")
                 (fun _ => None) None (Some "from-body") None) eq_refl)
    as (_ & _ & Hbody & _).
  apply Hbody; reflexivity.
Defined.

Lemma admin_reaches_every_resource_witness :
  checkOwnership sample_tasks "id" (request_for "t1" (Some (9%N, root)) None)
  = Next (set_req_resource (Some task_abc)
            (request_for "t1" (Some (9%N, root)) None)).
Proof.
  apply (proj2 (admin_reaches_every_resource
                  (request_for "t1" (Some (9%N, root)) None))
           sample_tasks "id" task_abc); reflexivity.
Defined.

Lemma task_guard_session_first_witness :
  task_guard (P := sample_platform) sample_env sample_tasks
    (request_for "no such task" None None) world_alice
  = (Respond (fail 400 "MISSING_SESSION"), world_alice).
Proof.
  apply (task_guard_session_first (P := sample_platform) sample_env sample_tasks
           (request_for "no such task" None None) world_alice); reflexivity.
Defined.

Lemma anonymous_task_access_witness :
  task_guard (P := sample_platform) sample_env sample_tasks
    (mkRequest None (Some "xyz") None None (fun _ => Some "t1") None None None)
    world_alice
  = (Respond (fail 403 "ACCESS_DENIED"), world_alice).
Proof.
  apply (proj2 (anonymous_task_access (P := sample_platform) sample_env
                  sample_tasks
                  (mkRequest None (Some "xyz") None None (fun _ => Some "t1")
                     None None None)
                  world_alice "xyz" task_abc eq_refl eq_refl
                  ltac:(discriminate) eq_refl)).
  discriminate.
Defined.

Lemma creator_reaches_own_task_witness :
  checkOwnership sample_tasks "id" (request_for "t1" None (Some "abc"))
  = Next (set_req_resource
            (Some (new_task_owner (fun s => s)
                     (request_for "t1" None (Some "abc"))))
            (request_for "t1" None (Some "abc"))).
Proof.
  apply (proj1 (creator_reaches_own_task (fun s => s) sample_tasks
                  (request_for "t1" None (Some "abc")))
           (mkRequest None (Some "abc") None None (fun _ => Some "t1")
              None None None));
    reflexivity.
Defined.

Lemma register_adds_one_identity_witness :
  (forall id u, users empty_world !! id = Some u ->
                users sample_registration_world !! id = Some u)
  /\ exists id u salt,
       users sample_registration_world = <[id := u]> (users empty_world)
       /\ users empty_world !! id = None
       /\ email u = "ann@example.com" /\ role u = RoleUser
       /\ isVerified u = false
       /\ verifyToken u
          = Some (sha256_hex (Platform := sample_platform)
                    (hd "" (entropy empty_world)))
       /\ verifyExpires u = Some (clock empty_world + 24 * 60 * 60 * 1000)
       /\ password u
          = bcrypt_hash (Platform := sample_platform) "Passw0rd" salt.
Proof.
  apply (proj1 (register_adds_one_identity (P := sample_platform) sample_env
                  empty_world "Ann" "ann@example.com" "Passw0rd")
           sample_registration_body sample_registration_world).
  vm_compute. reflexivity.
Defined.

Lemma register_verify_login_witness :
  let v := verify_email (P := sample_platform) (Some "tok")
             (Some "ann@example.com") sample_registration_world in
  fst v = verify_success
  /\ forall w3,
       users w3 = users (snd v) ->
       exists tsign id u,
         users w3 !! id = Some u /\ isVerified u = true
         /\ fst (login (P := sample_platform) sample_env "ann@example.com"
                   "Passw0rd" w3)
            = match jwt_sign (Platform := sample_platform) id
                      (JWT_SECRET sample_env)
                      (or_default (JWT_EXPIRES_IN sample_env) "7d")
                      "portfolio-api" "portfolio-client" tsign with
              | Some tok => with_token 200 tok (view_of id u)
              | None => fail 500 "LOGIN_ERROR"
              end.
Proof.
  apply (register_verify_login (P := sample_platform) (B := sample_bcrypt)
           sample_env empty_world "Ann" "ann@example.com" "Passw0rd"
           sample_registration_body sample_registration_world
           sample_registration_world "tok");
    [vm_compute; reflexivity | reflexivity | discriminate | discriminate
    | discriminate | reflexivity | vm_compute; discriminate].
Defined.

Lemma resend_replaces_token_witness :
  let r := resend_verification (P := sample_platform) sample_env
             (Some "dave@example.com") (world_dave 2000000) in
  exists t sent u1,
    clock (world_dave 2000000) <= t /\ t <= sent /\ sent <= clock (snd r)
    /\ users (snd r) = <[4%N := u1]> (users (world_dave 2000000))
    /\ verifyToken u1
       = Some (sha256_hex (Platform := sample_platform)
                 (hd "" (entropy (world_dave 2000000))))
    /\ verifyExpires u1 = Some (t + 24 * 60 * 60 * 1000)
    /\ lastVerificationSent u1 = Some sent
    /\ (forall old w2,
          old <> "" ->
          sha256_hex (Platform := sample_platform) old
          <> sha256_hex (Platform := sample_platform)
               (hd "" (entropy (world_dave 2000000))) ->
          users w2 = users (snd r) ->
          fst (verify_email (P := sample_platform) (Some old)
                 (Some "dave@example.com") w2) = verify_failed)
    /\ (forall w2,
          users w2 = users (snd r) ->
          sent <= clock w2 ->
          clock w2 - sent < COOLDOWN_SECONDS sample_env * 1000 ->
          exists remaining,
            0 < remaining <= COOLDOWN_SECONDS sample_env
            /\ fst (resend_verification (P := sample_platform) sample_env
                      (Some "dave@example.com") w2)
               = too_many_requests remaining
            /\ users (snd (resend_verification (P := sample_platform)
                             sample_env (Some "dave@example.com") w2))
               = users w2).
Proof.
  apply (resend_replaces_token (P := sample_platform) sample_env
           (world_dave 2000000) "dave@example.com" 4%N dave);
    [discriminate | apply unique_emails_singleton | reflexivity | reflexivity
    | | discriminate].
  intros sent [= <-]. vm_compute. discriminate.
Defined.

Lemma change_password_effect_witness :
  (let r := change_password (P := sample_platform) sample_env
              (bearer_request alice_token) "pw" "Another1" world_alice in
   fst r = ok_reply
   /\ exists salt,
        users (snd r)
        = <[1%N := set_password
                     (bcrypt_hash (Platform := sample_platform) "Another1" salt)
                     alice]> (users world_alice))
  /\ (let r := change_password (P := sample_platform) sample_env
                 (bearer_request alice_token) "pw" "pw" world_alice in
      fst r = ok_reply /\ users (snd r) = users world_alice).
Proof.
  split.
  - destruct (proj2 (change_password_effect (P := sample_platform)
                       (B := sample_bcrypt) sample_env
                       (bearer_request alice_token) "pw" "Another1" world_alice)
                (set_req_user (Some (1%N, set_password "" alice))
                   (bearer_request alice_token)) eq_refl)
      as (id & u & Hl & Hcase).
    change (users world_alice) with ({[ 1%N := alice ]} : gmap ObjectId User)
      in Hl.
    apply lookup_singleton_Some in Hl as [<- <-].
    destruct Hcase as (Hreply & salt & Hu & _).
    split; [exact Hreply | by exists salt].
  - destruct (proj2 (change_password_effect (P := sample_platform)
                       (B := sample_bcrypt) sample_env
                       (bearer_request alice_token) "pw" "pw" world_alice)
                (set_req_user (Some (1%N, set_password "" alice))
                   (bearer_request alice_token)) eq_refl)
      as (id & u & Hl & Hcase).
    change (users world_alice) with ({[ 1%N := alice ]} : gmap ObjectId User)
      in Hl.
    apply lookup_singleton_Some in Hl as [<- <-].
    exact Hcase.
Defined.

Lemma update_profile_effect_witness :
  let r := update_profile (P := sample_platform) sample_env
             (bearer_request alice_token) None (Some "new@example.com")
             world_alice in
  fst r = user_reply (Some (view_of 1%N (set_email "new@example.com" alice)))
  /\ users (snd r)
     = <[1%N := set_email "new@example.com" alice]> (users world_alice)
  /\ isVerified (set_email "new@example.com" alice) = true.
Proof.
  destruct (update_profile_effect (P := sample_platform) sample_env
              (bearer_request alice_token) None (Some "new@example.com")
              world_alice
              (set_req_user (Some (1%N, set_password "" alice))
                 (bearer_request alice_token)) eq_refl)
    as (id & u & Hl & _ & _ & Hfresh).
  change (users world_alice) with ({[ 1%N := alice ]} : gmap ObjectId User)
    in Hl.
  apply lookup_singleton_Some in Hl as [<- <-].
  assert (Hfr : fresh_email (users world_alice) 1%N "new@example.com").
  { intros j v Hj Hlk.
    change (users world_alice) with ({[ 1%N := alice ]} : gmap ObjectId User)
      in Hlk.
    by apply lookup_singleton_Some in Hlk as [<- _]. }
  destruct (Hfresh "new@example.com" eq_refl ltac:(discriminate) Hfr eq_refl)
    as (H1 & H2 & _ & H4).
  split; [exact H1 |]. split; [exact H2 | exact H4].
Defined.

Lemma refresh_token_same_identity_witness :
  let r := refresh_token (P := sample_platform) sample_env
             (bearer_request alice_token) world_alice in
  users (snd r) = users world_alice
  /\ exists id u,
       req_user (set_req_user (Some (1%N, set_password "" alice))
                   (bearer_request alice_token))
       = Some (id, set_password "" u)
       /\ users world_alice !! id = Some u
       /\ (fst r = fail 500 "TOKEN_REFRESH_ERROR"
           \/ exists tok,
                fst r = token_reply tok
                /\ accepted_as (P := sample_platform) sample_env tok id
                     (clock world_alice / 1000
                      + token_seconds (P := sample_platform) sample_env)).
Proof.
  apply (refresh_token_same_identity (P := sample_platform)
           (J := sample_contract) sample_env (bearer_request alice_token)
           world_alice
           (set_req_user (Some (1%N, set_password "" alice))
              (bearer_request alice_token))).
  reflexivity.
Defined.

Lemma refresh_header_same_identity_witness :
  let req' := set_req_user (Some (1%N, set_password "" alice))
                (bearer_request alice_token) in
  let w1 := snd (authenticateToken (P := sample_platform) sample_env
                   (bearer_request alice_token) world_alice) in
  let r := refreshTokenIfNeeded (P := sample_platform) (D := sample_decoder)
             sample_env req' w1 in
  users (snd r) = users world_alice
  /\ forall tok,
       fst r = Some tok ->
       exists id u,
         req_user req' = Some (id, set_password "" u)
         /\ users world_alice !! id = Some u
         /\ accepted_as (P := sample_platform) sample_env tok id
              (clock world_alice / 1000
               + token_seconds (P := sample_platform) sample_env).
Proof.
  apply (refresh_header_same_identity (P := sample_platform)
           (D := sample_decoder) (J := sample_contract) sample_env
           (bearer_request alice_token) world_alice
           (set_req_user (Some (1%N, set_password "" alice))
              (bearer_request alice_token))).
  reflexivity.
Defined.

Lemma token_survives_password_change_witness :
  let r := change_password (P := sample_platform) sample_env
             (bearer_request alice_token) "pw" "Another1" world_alice in
  fst r = ok_reply
  /\ exists u2,
       fst (authenticateToken (P := sample_platform) sample_env
              (bearer_request alice_token) (snd r))
       = Next (set_req_user (Some (1%N, set_password "" u2))
                 (bearer_request alice_token)).
Proof.
  split; [reflexivity |].
  apply (token_survives_password_change (P := sample_platform)
           (J := sample_contract) sample_env (bearer_request alice_token)
           "pw" "Another1" world_alice alice_token 1000
           (set_req_user (Some (1%N, set_password "" alice))
              (bearer_request alice_token))
           1%N (set_password "" alice));
    [reflexivity | reflexivity | reflexivity | reflexivity | reflexivity
    | reflexivity | vm_compute; discriminate | vm_compute; reflexivity].
Defined.

Lemma emails_stay_unique_witness :
  unique_emails
    (users (perform_accounts (P := sample_platform) sample_env
              [Core (OpRegister "Ann" "ann@example.com" "Passw0rd");
               Core (OpRegister "Ben" "ben@example.com" "Passw0rd");
               OpUpdateProfile (bearer_request (xs 102)) None
                 (Some "ann@example.com");
               OpUpdateProfile (bearer_request (xs 102)) None
                 (Some "benjamin@example.com")]
              empty_world)).
Proof.
  apply (emails_stay_unique (P := sample_platform) sample_env).
  apply unique_emails_empty.
Defined.

Lemma admin_stays_single_witness :
  at_most_one_admin
    (users (perform_accounts (P := sample_platform) sample_env
              [Core (OpCreateAdmin None None None);
               Core (OpCreateAdmin (Some "Second") (Some "second@example.com")
                       (Some "Passw0rd"));
               Core (OpRegister "Ann" "ann@example.com" "Passw0rd");
               OpUpdateProfile (bearer_request (xs 101)) (Some "Chief") None]
              empty_world)).
Proof.
  apply (admin_stays_single (P := sample_platform) sample_env).
  intros i j u v Hi. simpl in Hi. rewrite lookup_empty in Hi. discriminate.
Defined.

Lemma account_routes_keep_verification_witness :
  verification_invariant
    (users (perform_accounts (P := sample_platform) sample_env
              [Core (OpRegister "Ann" "ann@example.com" "Passw0rd");
               Core (OpVerifyEmail (Some "tok") (Some "ann@example.com"));
               OpChangePassword (bearer_request (xs 101)) "Passw0rd" "Another1";
               OpUpdateProfile (bearer_request (xs 101)) None
                 (Some "anna@example.com");
               OpRefreshToken (bearer_request (xs 101));
               OpLogout (bearer_request (xs 101))]
              empty_world)).
Proof.
  apply (account_routes_keep_verification (P := sample_platform) sample_env).
  intros id u Hl. simpl in Hl. rewrite lookup_empty in Hl. discriminate.
Defined.

Lemma updateAdmin_keeps_pending_token_witness :
  verifyToken seeded_admin <> None
  /\ ~ verification_invariant
         (users (snd (updateAdmin (P := sample_platform) seeded_world))).
Proof.
  assert (Hstore : users seeded_world = {[ 100%N := seeded_admin ]})
    by (vm_compute; reflexivity).
  assert (Hfr : fresh_email (users seeded_world) 100%N
                  "jadejakrushnrajsinh99@gmail.com").
  { intros j v Hj Hlk. rewrite Hstore in Hlk.
    by apply lookup_singleton_Some in Hlk as [<- _]. }
  destruct (updateAdmin_keeps_pending_token (P := sample_platform)
              seeded_world 100%N seeded_admin
              ltac:(vm_compute; reflexivity) eq_refl Hfr)
    as (salt & _ & _ & _ & _ & Hbroken).
  assert (Hpending : verifyToken seeded_admin <> None) by discriminate.
  split; [exact Hpending | exact (Hbroken Hpending)].
Defined.


Lemma register_stores_before_signing_witness :
  let r := register (P := sample_platform) env_without_secret "Ann"
             "ann@example.com" "Passw0rd" empty_world in
  fst r = fail 500 "REGISTRATION_ERROR"
  /\ (exists u, users (snd r) = <[nextId empty_world := u]> (users empty_world)
                /\ email u = "ann@example.com" /\ isVerified u = false)
  /\ fst (register (P := sample_platform) env_without_secret "Ann"
            "ann@example.com" "Passw0rd" (snd r))
     = fail 400 "USER_EXISTS".
Proof.
  apply (register_stores_before_signing (P := sample_platform)
           env_without_secret empty_world "Ann" "ann@example.com" "Passw0rd");
    [reflexivity | reflexivity | intros d Hd; reflexivity
    | intros t; reflexivity].
Defined.

Lemma create_admin_once_witness :
  create_admin (P := sample_platform) production_env None None None empty_world
  = (fail 403 "PRODUCTION_RESTRICTION", empty_world)
  /\ create_admin (P := sample_platform) sample_env None None None world_root
     = (fail 400 "ADMIN_EXISTS", world_root).
Proof.
  split.
  - apply (proj1 (create_admin_once (P := sample_platform) production_env
                    None None None empty_world)).
    reflexivity.
  - apply (proj1 (proj2 (create_admin_once (P := sample_platform) sample_env
                           None None None world_root))).
    + discriminate.
    + vm_compute. by eexists.
Defined.

Lemma locked_are_verified_eve : locked_are_verified (users world_eve).
Proof.
  intros id u Hl [x Hx].
  change (users world_eve) with ({[ 5%N := eve ]} : gmap ObjectId User) in Hl.
  apply lookup_singleton_Some in Hl as [_ <-]. discriminate.
Qed.

Lemma lockout_at_threshold_witness :
  (let w4 := run_steps (P := sample_platform) sample_env (eve_fails 4)
               world_eve in
   let r := login (P := sample_platform) sample_env "eve@example.com" "wrong"
              w4 in
   fst r = fail 401 "INVALID_CREDENTIALS"
   /\ users (snd r) !! 5%N = Some eve_locked
   /\ exists t, lockUntil eve_locked = Some (t + 2 * 60 * 60 * 1000)
                /\ Locked eve_locked t)
  /\ (let w5 := run_steps (P := sample_platform) sample_env (eve_fails 5)
                  world_eve in
      let r := login (P := sample_platform) sample_env "eve@example.com" "pw"
                 w5 in
      Locked eve_locked (clock w5)
      /\ fst r = locked_reply eve_locked /\ users (snd r) = users w5).
Proof.
  split; cbv zeta.
  - split; [by vm_compute |]. split; [by vm_compute |].
    destruct (proj1 (lockout_at_threshold (P := sample_platform) sample_env
                       world_eve (eve_fails 4)
                       (run_steps (P := sample_platform) sample_env
                          (eve_fails 4) world_eve)
                       "eve@example.com" "wrong" 5%N eve_four_failures
                       locked_are_verified_eve eq_refl
                       ltac:(vm_compute; reflexivity))
                ltac:(vm_compute; reflexivity) eve_locked
                ltac:(vm_compute; reflexivity) eq_refl)
      as (_ & t & _ & Hlock & Hlocked).
    by exists t.
  - assert (Hlocked : Locked eve_locked
                        (clock (run_steps (P := sample_platform) sample_env
                                  (eve_fails 5) world_eve))).
    { exists (1000 + 2 * 60 * 60 * 1000). split; [reflexivity | by vm_compute]. }
    split; [exact Hlocked |].
    exact (proj2 (lockout_at_threshold (P := sample_platform) sample_env
                    world_eve (eve_fails 5)
                    (run_steps (P := sample_platform) sample_env
                       (eve_fails 5) world_eve)
                    "eve@example.com" "pw" 5%N eve_locked
                    locked_are_verified_eve eq_refl
                    ltac:(vm_compute; reflexivity)) Hlocked).
Defined.

Lemma one_char_changed_xx_xy : one_char_changed "xx" "xy".
Proof. exists "x", "x"%char, "y"%char, "". by repeat split. Qed.

Lemma token_roundtrip_and_tamper_witness :
  fst (authenticateToken (P := sample_platform) sample_env
         (bearer_request alice_token) world_alice)
  = Next (set_req_user (Some (1%N, set_password "" alice))
            (bearer_request alice_token))
  /\ fst (authenticateToken (P := sample_platform) sample_env
            (bearer_request "xy") world_alice)
     = Respond (fail 401 "INVALID_TOKEN")
  /\ authenticateToken (P := sample_platform) sample_env
       (bearer_request " x") world_alice
     = (Respond (fail 401 "MISSING_TOKEN"), world_alice).
Proof.
  destruct (token_roundtrip_and_tamper (P := sample_platform)
              (J := sample_contract) (T := sample_tamper) sample_env 1%N
              world_alice alice_token eq_refl)
    as (Hround & Htamper & Hblank).
  split; [| split].
  - apply Hround; [reflexivity | reflexivity | reflexivity | | by vm_compute].
    intros l Hl. discriminate.
  - destruct (Htamper "xy" (bearer_request "xy") world_alice
                one_char_changed_xx_xy ltac:(no_blank) eq_refl)
      as (_ & errorName & Hthrows & Hinvalid & _).
    apply Hinvalid. vm_compute in Hthrows. by injection Hthrows.
  - by apply (Hblank "x").
Defined.

(** An issued token in which one character has been changed is not always
    answered [INVALID_TOKEN].  Changed to a blank in front, the token is the
    empty second word of the header and the answer is [MISSING_TOKEN]; and
    when the change keeps the payload from being parsed, the library throws
    an error that is neither a [JsonWebTokenError] nor a [TokenExpiredError]
    and the answer is 500 [AUTH_ERROR]. *)
Lemma changed_token_not_INVALID_TOKEN :
  (fst (generateToken (P := sample_platform) sample_env 1%N world_alice)
   = Some "xx"
   /\ one_char_changed "xx" " x"
   /\ fst (authenticateToken (P := sample_platform) sample_env
             (bearer_request " x") world_alice)
      = Respond (fail 401 "MISSING_TOKEN"))
  /\ (fst (generateToken (P := parsing_platform) sample_env 1%N world_alice)
      = Some "{xx"
      /\ one_char_changed "{xx" "[xx"
      /\ fst (authenticateToken (P := parsing_platform) sample_env
                (bearer_request "[xx") world_alice)
         = Respond (fail 500 "AUTH_ERROR")).
Proof.
  split.
  - split; [reflexivity |]. split; [| reflexivity].
    exists "", "x"%char, " "%char, "x". by repeat split.
  - split; [reflexivity |]. split; [| reflexivity].
    exists "", "{"%char, "["%char, "xx". by repeat split.
Qed.
